(** * IPWatch: the external-IP resolution subsystem

    A shallow embedding of [ipgetter.py] (server catalogue, per-server
    fetch, seven-try sampling) and of the core of [ipwatch.py]
    (validation, resolution loop, state store, change detection), with
    the properties of the design document stated and proved against it.

    Python 3 semantics are modelled throughout: [ipwatch.py] uses
    f-strings and cannot be imported by Python 2. *)

From Stdlib Require Import String Ascii List ZArith Lia Bool.
From Stdlib Require Import Floats.PrimFloat.
From stdpp Require Import gmap strings list fin_maps.

Local Open Scope string_scope.
Local Open Scope list_scope.
Local Open Scope stdpp_scope.
Local Set Warnings "-register-all".

(* ===================================================================== *)
(** * Python built-ins used by the two modules *)
(* ===================================================================== *)

Module Py.

(** [str.isspace] on one character, for code points below 256. *)
Definition isspace (c : ascii) : bool :=
  let n := nat_of_ascii c in
  (Nat.leb 9 n && Nat.leb n 13) || (Nat.leb 28 n && Nat.leb n 32)
  || Nat.eqb n 133 || Nat.eqb n 160.

Fixpoint lstrip (s : string) : string :=
  match s with
  | EmptyString => EmptyString
  | String c t => if isspace c then lstrip t else s
  end.

Fixpoint rstrip (s : string) : string :=
  match s with
  | EmptyString => EmptyString
  | String c t =>
      match rstrip t with
      | EmptyString => if isspace c then EmptyString else String c EmptyString
      | t' => String c t'
      end
  end.

(** [s.strip()] *)
Definition strip (s : string) : string := rstrip (lstrip s).

(** [s.split(sep)] for a one-character separator: never the empty list. *)
Fixpoint split (sep : ascii) (s : string) : list string :=
  match s with
  | EmptyString => [EmptyString]
  | String c t =>
      if Ascii.eqb c sep then EmptyString :: split sep t
      else match split sep t with
           | [] => [String c EmptyString]
           | f :: fs => String c f :: fs
           end
  end.

(** [sep.join(l)] *)
Fixpoint join (sep : string) (l : list string) : string :=
  match l with
  | [] => EmptyString
  | [x] => x
  | x :: xs => x +:+ sep +:+ join sep xs
  end.

(** [sep.join(l)] when items may be [None]: [TypeError], here [None]. *)
Fixpoint join_items (sep : string) (l : list (option string)) : option string :=
  match l with
  | [] => Some EmptyString
  | [x] => x
  | x :: xs =>
      match x, join_items sep xs with
      | Some a, Some b => Some (a +:+ sep +:+ b)
      | _, _ => None
      end
  end.

(** [c in s] for a character. *)
Fixpoint mem (c : ascii) (s : string) : bool :=
  match s with
  | EmptyString => false
  | String d t => Ascii.eqb d c || mem c t
  end.

(** [sub in s] for strings. *)
Definition contains (sub s : string) : bool :=
  match String.index 0 sub s with Some _ => true | None => false end.

Definition CR : ascii := ascii_of_nat 13.
Definition LF : ascii := ascii_of_nat 10.

(** What [open(path, "r").read()] makes of the stored characters: the
    text layer turns "\r\n" and a lone "\r" into "\n". *)
Fixpoint universal_newlines (s : string) : string :=
  match s with
  | EmptyString => EmptyString
  | String c t =>
      if Ascii.eqb c CR then
        String LF
          match t with
          | String c' t' =>
              if Ascii.eqb c' LF then universal_newlines t'
              else universal_newlines t
          | EmptyString => EmptyString
          end
      else String c (universal_newlines t)
  end.

(** ["%s" % v] for a value that is a string or [None]. *)
Definition str (v : option string) : string :=
  match v with Some s => s | None => "None" end.

Definition all (p : ascii -> bool) (s : string) : bool :=
  forallb p (list_ascii_of_string s).

End Py.

(* ===================================================================== *)
(** * Values, exceptions, platform *)
(* ===================================================================== *)

(** What [json.load] returns.  Arrays hold strings only: the server list
    is the one array the catalogue reads. [JNull] is Python's [None]. *)
Inductive json : Type :=
| JNull
| JBool (b : bool)
| JInt (z : Z)
| JFloat (f : float)
| JStr (s : string)
| JList (l : list string)
| JDict (d : list (string * json)).

(** The exceptions that occur; all of them derive from [Exception]. *)
Inductive exn : Type :=
| IndexError | KeyError | TypeError | UnboundLocalError | AttributeError
| PermissionError | URLError | JSONDecodeError
| ValueError     (* "embedded null character", from [socket.inet_pton] *)
| OSError.       (* what [open(path, "w")] raises: [FileNotFoundError],
                    [PermissionError], [IsADirectoryError], ... *)

Inductive result (A : Type) : Type :=
| Ok (a : A)
| Raise (e : exn).
Arguments Ok {A} a.
Arguments Raise {A} e.

Inductive family : Type := AF_INET | AF_INET6.

(** One HTTP exchange: [open]/[urlopen] raises, or a response object
    comes back whose [read()] raises or yields the raw body. *)
Inductive read_outcome : Type :=
| ReadError
| Body (raw : string).

Inductive http_outcome : Type :=
| ConnError
| Response (code : nat) (rd : read_outcome).

(** The libraries and the surroundings of a run.  Library functions the
    sources call but do not define are fields; so are the three sources
    of nondeterminism, each indexed by how often it was consulted. *)
Class Platform : Type := {
  (** [socket.inet_pton(af, s)] for a string without a NUL character:
      [true] when it packs the address, [false] when it raises
      [socket.error]. *)
  inet_pton : family -> string -> bool;
  (** whether [open(path, "w")] succeeds: the directory is there and
      the process may create or truncate the file *)
  writable : string -> bool;
  (** [bytes.decode('UTF-8')]: [None] on [UnicodeDecodeError].  Text has
      8-bit characters here, so ISO-8859-1 decoding is the identity. *)
  utf8_decode : string -> option string;
  (** [json.load]/[json.loads]: [None] when it raises. *)
  json_loads : string -> option json;
  (** [json.dumps(v, indent=4)] *)
  json_dumps : json -> string;
  (** [str(f)] for a float *)
  float_str : float -> string;
  datetime : Type;
  (** [datetime.timestamp(d)] *)
  timestamp : datetime -> float;
  (** [d + timedelta(days=n)] *)
  plus_days : datetime -> Z -> datetime;
  (** [d.strftime('%Y-%m-%dT%H:%M:%S')] *)
  strftime : datetime -> string;
  (** the i-th reading of [datetime.now()] *)
  clock : nat -> datetime;
  (** the i-th draw of the generator behind [random.choice], for a
      sequence of the given length *)
  randbelow : nat -> nat -> nat;
  (** the i-th HTTP exchange, with the URL requested *)
  http : nat -> string -> http_outcome
}.

(* ===================================================================== *)
(** * The world a run acts on *)
(* ===================================================================== *)

(** A regular file: its characters, or a file that cannot be opened for
    reading.  A file written by the run is readable. *)
Inductive node : Type :=
| Unreadable
| Regular (content : string).

Inductive verdict : Type := Malformed | Blacklisted | Good.

(** What is printed. *)
Inductive output : Type :=
| OutTry (n : nat) (v : verdict) (ip : option string)
| OutRecvError (code : nat)
| OutText (s : string).

Inductive event : Type :=
| EvPrint (o : output)
| EvFetch (url : string)
| EvClose (h : nat)
| EvUrlopen (url : string)
| EvCreate (path : string)
| EvWrite (path : string) (text : string)
| EvRemove (path : string).

Record World : Type := mkWorld {
  fs : gmap string node;
  clock_reads : nat;
  draws : nat;
  exchanges : nat;
  conns : list nat;
  trace : list event
}.

Definition log (e : event) (w : World) : World :=
  mkWorld (fs w) (clock_reads w) (draws w) (exchanges w) (conns w) (trace w ++ [e]).

Definition set_fs (f : gmap string node) (w : World) : World :=
  mkWorld f (clock_reads w) (draws w) (exchanges w) (conns w) (trace w).

(** State and exceptions. *)
Definition M (A : Type) : Type := World -> result A * World.

Definition ret {A} (a : A) : M A := fun w => (Ok a, w).
Definition raise {A} (e : exn) : M A := fun w => (Raise e, w).
Definition bind {A B} (m : M A) (k : A -> M B) : M B :=
  fun w => match m w with
           | (Ok a, w') => k a w'
           | (Raise e, w') => (Raise e, w')
           end.

Notation "x <- m ;; k" := (bind m (fun x => k))
  (at level 100, m at next level, right associativity).
Notation "m ;;; k" := (bind m (fun _ => k))
  (at level 100, right associativity).

(** [try: body except Exception: handler] *)
Definition try_except {A} (body : M A) (handler : exn -> M A) : M A :=
  fun w => match body w with
           | (Raise e, w') => handler e w'
           | (Ok a, w') => (Ok a, w')
           end.

(** [try: body finally: fin] *)
Definition try_finally {A} (body : M A) (fin : M unit) : M A :=
  fun w => match body w with
           | (r, w') =>
               match fin w' with
               | (Ok _, w'') => (r, w'')
               | (Raise e, w'') => (Raise e, w'')
               end
           end.

Definition print (o : output) : M unit := fun w => (Ok tt, log (EvPrint o) w).

(** [open(path, "w")]: [OSError] with nothing touched when the path
    cannot be opened; otherwise the file exists and is empty from here
    on. *)
Definition open_w `{Platform} (path : string) : M unit :=
  fun w =>
    if writable path
    then (Ok tt, log (EvCreate path) (set_fs (<[path := Regular EmptyString]> (fs w)) w))
    else (Raise OSError, w).

(** [f.write(text)] on a file just opened for writing. *)
Definition write (path text : string) : M unit :=
  fun w => (Ok tt, log (EvWrite path text) (set_fs (<[path := Regular text]> (fs w)) w)).

(** [os.path.isfile(path)] / [Path(path).is_file()] *)
Definition isfile (path : string) : M bool :=
  fun w => (Ok (bool_decide (is_Some (fs w !! path))), w).

(** [open(path, "r").read()] *)
Definition read_text (path : string) : M string :=
  fun w => match fs w !! path with
           | Some (Regular c) => (Ok (Py.universal_newlines c), w)
           | _ => (Raise PermissionError, w)
           end.

(* ===================================================================== *)
(** * The regular expression engine ([re.search]) *)
(* ===================================================================== *)

Module Re.

Inductive regex : Type :=
| Chr (c : ascii)             (* a literal character *)
| Range (lo hi : ascii)       (* the class [lo-hi] *)
| Seq (r1 r2 : regex)
| Alt (r1 r2 : regex)         (* r1|r2, r1 tried first *)
| Opt (r : regex).            (* r?, greedy *)

Definition in_range (lo hi c : ascii) : bool :=
  Nat.leb (nat_of_ascii lo) (nat_of_ascii c)
  && Nat.leb (nat_of_ascii c) (nat_of_ascii hi).

(** Backtracking matcher: [bt r s k] matches [r] at the front of [s]
    and hands what is left to [k]; when [k] refuses, the next way of
    matching [r] is tried, in the order of the [re] module. *)
Fixpoint bt (r : regex) (s : string) (k : string -> option string)
  : option string :=
  match r with
  | Chr c =>
      match s with
      | String d t => if Ascii.eqb d c then k t else None
      | EmptyString => None
      end
  | Range lo hi =>
      match s with
      | String d t => if in_range lo hi d then k t else None
      | EmptyString => None
      end
  | Seq r1 r2 => bt r1 s (fun s' => bt r2 s' k)
  | Alt r1 r2 =>
      match bt r1 s k with
      | Some x => Some x
      | None => bt r2 s k
      end
  | Opt r1 =>
      match bt r1 s k with
      | Some x => Some x
      | None => k s
      end
  end.

(** The text matched at the very start of [s], if any. *)
Definition match_at (r : regex) (s : string) : option string :=
  match bt r s Some with
  | Some rest => Some (String.substring 0 (String.length s - String.length rest) s)
  | None => None
  end.

(** [re.search(r, s)] followed by [.group(0)]: the leftmost match. *)
Fixpoint search (r : regex) (s : string) : option string :=
  match match_at r s with
  | Some m => Some m
  | None =>
      match s with
      | String _ t => search r t
      | EmptyString => None
      end
  end.

(** The strings a pattern denotes, whatever the order of trial. *)
Fixpoint lang (r : regex) (s : string) : Prop :=
  match r with
  | Chr c => s = String c EmptyString
  | Range lo hi => exists d, in_range lo hi d = true /\ s = String d EmptyString
  | Seq r1 r2 => exists a b, s = a +:+ b /\ lang r1 a /\ lang r2 b
  | Alt r1 r2 => lang r1 s \/ lang r2 s
  | Opt r1 => s = EmptyString \/ lang r1 s
  end.

End Re.

(* ===================================================================== *)
(** * ipgetter.py *)
(* ===================================================================== *)

(** (25[0-5]|2[0-4][0-9]|[01]?[0-9][0-9]?) *)
Definition octet : Re.regex :=
  Re.Alt (Re.Seq (Re.Chr "2") (Re.Seq (Re.Chr "5") (Re.Range "0" "5")))
 (Re.Alt (Re.Seq (Re.Chr "2") (Re.Seq (Re.Range "0" "4") (Re.Range "0" "9")))
         (Re.Seq (Re.Opt (Re.Range "0" "1"))
                 (Re.Seq (Re.Range "0" "9") (Re.Opt (Re.Range "0" "9"))))).

(** The pattern of [fetch]: four octets separated by literal dots. *)
Definition ipv4_pattern : Re.regex :=
  Re.Seq octet (Re.Seq (Re.Chr ".")
 (Re.Seq octet (Re.Seq (Re.Chr ".")
 (Re.Seq octet (Re.Seq (Re.Chr ".") octet))))).

Definition JSON_LIST_URL : string :=
  "https://raw.githubusercontent.com/begleysm/ipwatch/master/servers.json".
Definition JSON_FILENAME : string := "serverCache.json".
(** [os.path.basename(JSON_LIST_URL)] *)
Definition JSON_ERRFILE : string := "servers.json".

(** What is handed to a text-mode [write]: a [str], or the [bytes] that
    [read()] returned. *)
Inductive content : Type :=
| Text (s : string)
| Bytes (b : string).

(** Short-circuit [or] over tests that may raise. *)
Definition por (a b : result bool) : result bool :=
  match a with
  | Ok true => Ok true
  | Ok false => b
  | Raise e => Raise e
  end.
Infix "|||" := por (at level 50, left associativity).

Fixpoint dict_get (d : list (string * json)) (key : string) : option json :=
  match d with
  | [] => None
  | (k, v) :: d' => if String.eqb k key then Some v else dict_get d' key
  end.

(** [key not in v] *)
Definition not_in (key : string) (v : json) : result bool :=
  match v with
  | JDict d => Ok (negb (bool_decide (is_Some (dict_get d key))))
  | JList l => Ok (negb (bool_decide (key ∈ l)))
  | JStr s => Ok (negb (Py.contains key s))
  | _ => Raise TypeError
  end.

(** [v[key]] for a string key *)
Definition getitem (v : json) (key : string) : result json :=
  match v with
  | JDict d => match dict_get d key with Some x => Ok x | None => Raise KeyError end
  | _ => Raise TypeError
  end.

Definition rbind {A B} (a : result A) (k : A -> result B) : result B :=
  match a with Ok x => k x | Raise e => Raise e end.

Definition is_None (v : json) : bool :=
  match v with JNull => true | _ => false end.
Definition is_float (v : json) : bool :=
  match v with JFloat _ => true | _ => false end.
Definition is_list (v : json) : bool :=
  match v with JList _ => true | _ => false end.

(** [len(v)] *)
Definition len (v : json) : result nat :=
  match v with
  | JList l => Ok (length l)
  | JStr s => Ok (String.length s)
  | JDict d => Ok (length d)
  | _ => Raise TypeError
  end.

(** [v < ts] for a float [ts] *)
Definition lt_float (v : json) (ts : float) : result bool :=
  match v with
  | JFloat f => Ok (PrimFloat.ltb f ts)
  | _ => Raise TypeError
  end.

(** The dictionary with keys [ip] and [server] that both modules pass
    around; a value is a string or [None]. *)
Record record : Type := mkRecord {
  ip : option string;
  server : option string
}.

Section Ipgetter.
Context `{Platform}.

(** [datetime.now()] *)
Definition now : M datetime :=
  fun w => (Ok (clock (clock_reads w)),
            mkWorld (fs w) (S (clock_reads w)) (draws w) (exchanges w)
                    (conns w) (trace w)).

(** [opener.open(url)] and [urllib.urlopen(url)]: the processors of
    [urllib] raise [HTTPError] for every status outside 200..299; a
    response object is acquired otherwise. *)
Definition urlopen (ev : string -> event) (url : string)
  : M (nat * nat * read_outcome) :=
  fun w =>
    let h := exchanges w in
    let w1 := log (ev url)
                (mkWorld (fs w) (clock_reads w) (draws w) (S h) (conns w) (trace w)) in
    match http h url with
    | ConnError => (Raise URLError, w1)
    | Response code rd =>
        if Nat.leb 200 code && Nat.ltb code 300 then
          (Ok (h, code, rd),
           mkWorld (fs w1) (clock_reads w1) (draws w1) (exchanges w1)
                   (h :: conns w1) (trace w1))
        else (Raise URLError, w1)
    end.

(** [response.read()] *)
Definition read (rd : read_outcome) : M string :=
  match rd with
  | ReadError => raise URLError
  | Body raw => ret raw
  end.

(** [response.close()] *)
Definition close (h : nat) : M unit :=
  fun w => (Ok tt,
            log (EvClose h)
              (mkWorld (fs w) (clock_reads w) (draws w) (exchanges w)
                       (filter (fun x => x <> h) (conns w)) (trace w))).

Definition writeJSONCache (theContent : content) (theFilename : string) : M unit :=
  open_w theFilename ;;;
  match theContent with
  | Text s => write theFilename s
  | Bytes _ => raise TypeError
  end.

(** The cache as [__init__] first sees it: [None] unless the file is
    there, can be read and parses. *)
Definition load_cache : M json :=
  present <- isfile JSON_FILENAME ;;
  if (present : bool) then
    try_except
      (text <- read_text JSON_FILENAME ;;
       match json_loads text with
       | Some v => ret v
       | None => raise JSONDecodeError
       end)
      (fun _ => ret JNull)
  else ret JNull.

(** [os.remove(JSON_ERRFILE)], [FileNotFoundError] passed over.  An
    existing file is removed; directory permissions are not modelled,
    so the [PermissionError] branch, which only prints, is not taken. *)
Definition remove_errfile : M unit :=
  fun w => match fs w !! JSON_ERRFILE with
           | Some _ => (Ok tt, log (EvRemove JSON_ERRFILE)
                                 (set_fs (delete JSON_ERRFILE (fs w)) w))
           | None => (Ok tt, w)
           end.

(** The condition under which the list is fetched again. *)
Definition stale (theList : json) (currentTS : float) : result bool :=
  Ok (is_None theList)
  ||| not_in "expiry" theList
  ||| not_in "expiryDisplay" theList
  ||| not_in "servers" theList
  ||| rbind (getitem theList "expiry") (fun e => Ok (is_None e))
  ||| rbind (getitem theList "expiryDisplay") (fun e => Ok (is_None e))
  ||| rbind (getitem theList "servers") (fun e => Ok (is_None e))
  ||| rbind (getitem theList "expiry") (fun e => Ok (negb (is_float e)))
  ||| rbind (getitem theList "expiry") (fun e =>
        match e with
        | JFloat f => Ok (Nat.eqb (String.length (float_str f)) 0)
        | _ => Raise TypeError
        end)
  ||| rbind (getitem theList "servers") (fun e => Ok (negb (is_list e)))
  ||| rbind (getitem theList "servers") (fun e =>
        rbind (len e) (fun n => Ok (Nat.eqb n 0)))
  ||| rbind (getitem theList "expiry") (fun e => lt_float e currentTS).

Definition pool (expiryDate : datetime) (servers : json) : json :=
  JDict [("expiry", JFloat (timestamp expiryDate));
         ("expiryDisplay", JStr (strftime expiryDate));
         ("servers", servers)].

(** The branch of [__init__] that goes off and gets the list again;
    it yields the new [theList["servers"]]. *)
Definition refresh (now_ : datetime) : M json :=
  let expiryDate := plus_days now_ 90 in
  operUrl <- urlopen EvUrlopen JSON_LIST_URL ;;
  let '(_, code, rd) := operUrl in
  if Nat.eqb code 200 then
    data <- read rd ;;
    try_except
      (match json_loads data with
       | Some servers =>
           writeJSONCache (Text (json_dumps (pool expiryDate servers))) JSON_FILENAME ;;;
           ret servers
       | None => raise JSONDecodeError
       end)
      (fun e =>
         writeJSONCache (Bytes data) JSON_ERRFILE ;;;
         raise e)
  else
    print (OutRecvError code) ;;;
    ret (JList []).

(** [IPgetter.__init__]; the result is [self.server_list]. *)
Definition IPgetter : M json :=
  now_ <- now ;;
  let currentTS := timestamp now_ in
  theList <- load_cache ;;
  remove_errfile ;;;
  match stale theList currentTS with
  | Raise e => raise e
  | Ok true => refresh now_
  | Ok false =>
      match getitem theList "servers" with
      | Ok servers => ret servers
      | Raise e => raise e
      end
  end.

(** [content.decode('UTF-8')], ISO-8859-1 when that fails. *)
Definition decode (raw : string) : string :=
  match utf8_decode raw with
  | Some s => s
  | None => raw
  end.

(** [fetch]: [url] is [None] until [opener.open] returns, so the
    [finally] clause closes the response exactly when one was acquired.
    Building the opener (cookie jar, TLS context, headers) touches
    nothing the model tracks, and the 4-second timeout shows as an
    exchange that fails. *)
Definition fetch (server : string) : M string :=
  fun w =>
    match urlopen EvFetch server w with
    | (Raise _, w1) => (Ok EmptyString, w1)
    | (Ok (url, _, rd), w1) =>
        try_finally
          (try_except
             (raw <- read rd ;;
              let content := decode raw in
              match Re.search ipv4_pattern content with
              | Some myip =>
                  ret (if Nat.ltb 0 (String.length myip) then myip else EmptyString)
              | None => raise AttributeError
              end)
             (fun _ => ret EmptyString))
          (close url)
          w1
    end.

(** [random.choice(seq)] *)
Definition choice (seq : json) : M string :=
  fun w =>
    let i := draws w in
    let w1 := mkWorld (fs w) (clock_reads w) (S i) (exchanges w) (conns w) (trace w) in
    match seq with
    | JList [] => (Raise IndexError, w)
    | JList l => (Ok (nth (randbelow i (length l) mod length l) l EmptyString), w1)
    | JStr EmptyString => (Raise IndexError, w)
    | JStr s =>
        let n := String.length s in
        (Ok (String.substring (randbelow i n mod n) 1 s), w1)
    | JDict [] => (Raise IndexError, w)
    | JDict _ => (Raise KeyError, w1)
    | _ => (Raise TypeError, w)
    end.

(** The loop [for i in range(n)] of [get_externalip_and_source]. *)
Fixpoint sample (n : nat) (server_list : json) (myip : record) : M record :=
  match n with
  | O => ret myip
  | S n' =>
      srv <- choice server_list ;;
      addr <- fetch srv ;;
      let myip := mkRecord (Some addr) (Some srv) in
      if Nat.ltb 0 (String.length addr) then ret myip
      else sample n' server_list myip
  end.

Definition get_externalip_and_source (server_list : json) : M record :=
  sample 7 server_list (mkRecord None None).

Definition myipAndSource : M record :=
  server_list <- IPgetter ;;
  get_externalip_and_source server_list.

End Ipgetter.

(* ===================================================================== *)
(** * ipwatch.py *)
(* ===================================================================== *)

(** The fields of [ConfigInfo] that the core reads, as [validateConfig]
    leaves them; [try_count] holds [int(config.try_count)]. *)
Record ConfigInfo : Type := mkConfig {
  receiver : list string;
  receiver_email : list string;
  machine : string;
  save_ip_path : string;
  try_count : Z;
  ip_blacklist : list string
}.

Definition dquote : string := String (ascii_of_nat 34) EmptyString.
Definition NUL : ascii := ascii_of_nat 0.
Definition CRLF : string := String Py.CR (String Py.LF EmptyString).

Section Ipwatch.
Context `{Platform}.

(** [socket.inet_pton(af, s)] as the callers see it: a string that
    holds a NUL character is refused with [ValueError] before the
    library is asked, and that is no [socket.error]. *)
Definition call_inet_pton (af : family) (s : string) : result bool :=
  if Py.mem NUL s then Raise ValueError else Ok (inet_pton af s).

(** [socket.inet_pton] exists on every Python 3, so the [AttributeError]
    fallback to [inet_aton] is never taken.  [socket.error] is caught,
    the [ValueError] for a NUL character is not. *)
Definition is_valid_ipv4_address (address : string) : result bool :=
  call_inet_pton AF_INET address.

Definition is_valid_ipv6_address (address : string) : result bool :=
  call_inet_pton AF_INET6 address.

Definition is_valid_ip (ip : string) : result bool :=
  is_valid_ipv4_address ip ||| is_valid_ipv6_address ip.

(** The two tests of the loop on an address: the verdict, unless the
    validation raises. *)
Definition classify (blacklist : list string) (addr : string) : result verdict :=
  rbind (is_valid_ip addr) (fun valid =>
    Ok (if negb valid then Malformed
        else if bool_decide (addr ∈ blacklist) then Blacklisted
        else Good)).

(** The loop [for counter in range(try_count)], from [counter] on with
    [n] rounds left; [theIP] is unbound until the first round. *)
Fixpoint rounds (n counter : nat) (blacklist : list string)
         (theIP : option record) : M (option record) :=
  match n with
  | O => ret theIP
  | S n' =>
      theIP <- myipAndSource ;;
      match ip theIP with
      | None => raise TypeError
      | Some addr =>
          match classify blacklist addr with
          | Raise e => raise e
          | Ok v =>
              print (OutTry (counter + 1) v (Some addr)) ;;;
              match v with
              | Good => ret (Some theIP)
              | _ => rounds n' (S counter) blacklist (Some theIP)
              end
          end
      end
  end.

Definition getipAndSource (try_count : Z) (blacklist : list string) : M record :=
  theIP <- rounds (Z.to_nat try_count) 0 blacklist None ;;
  match theIP with
  | Some r => ret r
  | None => raise UnboundLocalError
  end.

Definition getip (try_count : Z) (blacklist : list string) : M (option string) :=
  r <- getipAndSource try_count blacklist ;;
  ret (ip r).

Definition getoldip (filepath : string) : M record :=
  present <- isfile filepath ;;
  if (present : bool) then
    text <- read_text filepath ;;
    let fileContent := Py.split "," (Py.strip text) in
    match fileContent with
    | [] => ret (mkRecord (Some "Mangled File") None)
    | first :: rest =>
        let srv := if Nat.ltb 1 (length fileContent)
                   then Some (Py.join "," rest) else None in
        match is_valid_ip first with
        | Raise e => raise e
        | Ok valid =>
            if negb valid
            then ret (mkRecord (Some ("malformed ('" +:+ first +:+ "')")) srv)
            else ret (mkRecord (Some first) srv)
        end
    end
  else ret (mkRecord (Some ("File '" +:+ filepath +:+ "' not found")) None).

Definition updateoldip (filepath : string) (newip : record) : M unit :=
  let dictList := [ip newip; server newip] in
  open_w filepath ;;;
  match Py.join_items "," dictList with
  | Some text => write filepath text
  | None => raise TypeError
  end.

Definition nameAddrPair (_name _addr : string) : string :=
  dquote +:+ _name +:+ dquote +:+ " <" +:+ dquote +:+ _addr +:+ dquote +:+ ">".

(** [for ix, addr in enumerate(config.receiver_email)] *)
Fixpoint recipients (receiver receiver_email : list string) (ix : nat)
  : result (list string) :=
  match receiver_email with
  | [] => Ok []
  | addr :: rest =>
      match nth_error receiver ix with
      | None => Raise IndexError
      | Some name =>
          rbind (recipients receiver rest (S ix))
                (fun to => Ok (nameAddrPair name addr :: to))
      end
  end.

Definition appendInfo (r : record) : list string :=
  ["  IP Address  : " +:+ Py.str (ip r);
   "  Info Source : " +:+ Py.str (server r)].

Definition messageBody (oldip newip : record) (config : ConfigInfo) : list string :=
  ["The IP address of " +:+ dquote +:+ machine config +:+ dquote +:+ " has changed:";
   EmptyString;
   "Old IP"] ++ appendInfo oldip ++ ["New IP"] ++ appendInfo newip.

(** [sendmail] prints the report and returns; the SMTP part below the
    [return] is never reached. *)
Definition sendmail (oldip newip : record) (config : ConfigInfo) : M unit :=
  match recipients (receiver config) (receiver_email config) 0 with
  | Raise e => raise e
  | Ok _ => print (OutText (Py.join CRLF (messageBody oldip newip config)))
  end.

Definition doTheWork (config : ConfigInfo) : M unit :=
  oldip <- getoldip (save_ip_path config) ;;
  currip <- getipAndSource (try_count config) (ip_blacklist config) ;;
  if negb (bool_decide (ip currip = ip oldip)) then
    print (OutText "Current IP differs from old IP.") ;;;
    sendmail oldip currip config ;;;
    updateoldip (save_ip_path config) currip
  else
    print (OutText "Current IP = Old IP.  No need to send email.").

End Ipwatch.

(* ===================================================================== *)
(** * Vocabulary of the properties *)
(* ===================================================================== *)

Definition isdigit (c : ascii) : bool := Re.in_range "0" "9" c.

Definition digit_value (c : ascii) : nat := nat_of_ascii c - 48.

Fixpoint decimal (s : string) (acc : nat) : nat :=
  match s with
  | EmptyString => acc
  | String c t => decimal t (10 * acc + digit_value c)
  end.

(** A component of a dotted quad: one to three decimal digits whose
    value is at most 255. *)
Definition is_octet (s : string) : bool :=
  Nat.leb 1 (String.length s) && Nat.leb (String.length s) 3
  && Py.all isdigit s && Nat.leb (decimal s 0) 255.

(** A dotted-quad string: exactly four such components, separated by
    dots. *)
Definition dotted_quad (s : string) : bool :=
  match Py.split "." s with
  | [a; b; c; d] => is_octet a && is_octet b && is_octet c && is_octet d
  | _ => false
  end.

(** The events of a run: what [w'] has logged beyond [w]. *)
Definition since (w w' : World) : list event :=
  drop (length (trace w)) (trace w').

(** The number of times [fetch] was entered. *)
Fixpoint fetches (tr : list event) : nat :=
  match tr with
  | [] => 0
  | EvFetch _ :: tr' => S (fetches tr')
  | _ :: tr' => fetches tr'
  end.

(** The lines "GetIP: Try ..." of a run, in order. *)
Fixpoint try_lines (tr : list event) : list (nat * verdict * option string) :=
  match tr with
  | [] => []
  | EvPrint (OutTry n v a) :: tr' => (n, v, a) :: try_lines tr'
  | _ :: tr' => try_lines tr'
  end.

(** The paths opened for writing during a run. *)
Fixpoint created (tr : list event) : list string :=
  match tr with
  | [] => []
  | EvCreate p :: tr' => p :: created tr'
  | _ :: tr' => created tr'
  end.

Definition addr_char (c : ascii) : bool :=
  isdigit c || Re.in_range "a" "f" c || Re.in_range "A" "F" c
  || Ascii.eqb c ":" || Ascii.eqb c ".".

(** What is known of the addresses [inet_pton] accepts, for either
    family: they are written with hexadecimal digits, colons and dots. *)
Definition pton_alphabet `{Platform} : Prop :=
  forall af s, inet_pton af s = true -> Py.all addr_char s = true.

Definition ok_status (code : nat) : bool := Nat.leb 200 code && Nat.ltb code 300.

(** [v] is the first IPv4-shaped substring of [body]: a dotted quad
    that occurs in it, none starting further to the left. *)
Definition first_ipv4 (body v : string) : Prop :=
  exists pre post,
    body = pre +:+ v +:+ post /\ dotted_quad v = true
    /\ forall pre' m post',
         body = pre' +:+ m +:+ post' -> dotted_quad m = true ->
         String.length pre <= String.length pre'.

Definition no_ipv4 (body : string) : Prop :=
  forall pre m post, body = pre +:+ m +:+ post -> dotted_quad m = false.


(** The server named by the last [fetch] of a run, [acc] if there was
    none. *)
Fixpoint last_fetch (tr : list event) (acc : option string) : option string :=
  match tr with
  | [] => acc
  | EvFetch url :: tr' => last_fetch tr' (Some url)
  | _ :: tr' => last_fetch tr' acc
  end.

(** The lines that attempts numbered from [c] print for the addresses
    [addrs], each with the verdict the address earns; like the loop,
    the list stops at an address whose validation raises. *)
Fixpoint numbered `{Platform} (c : nat) (blacklist : list string) (addrs : list string)
  : list (nat * verdict * option string) :=
  match addrs with
  | [] => []
  | a :: rest =>
      match classify blacklist a with
      | Ok v => (c, v, Some a) :: numbered (S c) blacklist rest
      | Raise _ => []
      end
  end.

(** An event that is neither a fetch nor a "Try" line. *)
Definition quiet (e : event) : Prop :=
  match e with
  | EvFetch _ | EvPrint (OutTry _ _ _) => False
  | _ => True
  end.

Definition is_good (v : verdict) : bool :=
  match v with Good => true | _ => false end.

(** The value [__init__] holds in [theList] after looking at the cache
    file: [None] unless the file is there, readable and parses. *)
Definition cached_json `{Platform} (cache : option node) : json :=
  match cache with
  | Some (Regular text) =>
      match json_loads (Py.universal_newlines text) with
      | Some v => v
      | None => JNull
      end
  | _ => JNull
  end.

Definition null_or_missing (d : list (string * json)) (key : string) : bool :=
  match dict_get d key with
  | None | Some JNull => true
  | Some _ => false
  end.

(** A cached pool that is not to be used: a field is missing or null,
    [expiry] is not a float, [servers] is not a list or is empty, or
    [expiry] lies before [currentTS]. *)
Definition unusable (d : list (string * json)) (currentTS : float) : bool :=
  null_or_missing d "expiry"
  || null_or_missing d "expiryDisplay"
  || null_or_missing d "servers"
  || match dict_get d "expiry" with
     | Some (JFloat e) => PrimFloat.ltb e currentTS
     | _ => true
     end
  || match dict_get d "servers" with
     | Some (JList (_ :: _)) => false
     | _ => true
     end.

(** Cache miss: the file is absent, unreadable, does not parse, or
    parses to something that is not a usable pool. *)
Definition cache_miss `{Platform} (cache : option node) (currentTS : float) : bool :=
  match cache with
  | None => true
  | Some Unreadable => true
  | Some (Regular text) =>
      match json_loads (Py.universal_newlines text) with
      | None => true
      | Some (JDict d) => unusable d currentTS
      | Some _ => true
      end
  end.

(** The cache file, when it parses at all, holds an object or [null]. *)
Definition object_or_null `{Platform} (cache : option node) : Prop :=
  match cached_json cache with
  | JDict _ | JNull => True
  | _ => False
  end.

(** The characters of a dotted quad. *)
Definition quad_char (c : ascii) : bool := isdigit c || Ascii.eqb c ".".




(** The verdict of the loop on an address that holds no NUL character,
    where the validation cannot raise. *)
Definition verdict_of `{Platform} (blacklist : list string) (addr : string) : verdict :=
  if negb (inet_pton AF_INET addr || inet_pton AF_INET6 addr) then Malformed
  else if bool_decide (addr ∈ blacklist) then Blacklisted
  else Good.

(** [sub] occurs in [s]. *)
Definition occurs (sub s : string) : Prop :=
  exists pre post, s = pre +:+ sub +:+ post.

(** The notification for a change on [machine] from the record [oldip]
    to the record [newip]: eight lines, separated by CR LF, that give
    the address and the source of either record; a field that is
    [None] is written None. *)
Definition notification (machine : string) (oldip newip : record) : string :=
  "The IP address of " +:+ dquote +:+ machine +:+ dquote +:+ " has changed:" +:+ CRLF
  +:+ CRLF
  +:+ "Old IP" +:+ CRLF
  +:+ "  IP Address  : " +:+ Py.str (ip oldip) +:+ CRLF
  +:+ "  Info Source : " +:+ Py.str (server oldip) +:+ CRLF
  +:+ "New IP" +:+ CRLF
  +:+ "  IP Address  : " +:+ Py.str (ip newip) +:+ CRLF
  +:+ "  Info Source : " +:+ Py.str (server newip).

(** The first field of a state file that holds [text], as [getoldip]
    cuts it out. *)
Definition first_field (text : string) : string :=
  hd EmptyString (Py.split "," (Py.strip (Py.universal_newlines text))).

(** The state file at [path] can be read and its first field holds a
    NUL character. *)
Definition stored_nul (w : World) (path : string) : bool :=
  match fs w !! path with
  | Some (Regular text) => Py.mem NUL (first_field text)
  | _ => false
  end.
(* ===================================================================== *)
(** * A concrete host, for running the model *)
(* ===================================================================== *)

Module Demo.

(** [inet_pton(AF_INET, s)] as the C library does it: four decimal
    components of value at most 255, none with a leading zero. *)
Definition canonical (o : string) : bool :=
  is_octet o
  && match o with
     | String "0" (String _ _) => false
     | _ => true
     end.

Definition pton4 (s : string) : bool :=
  match Py.split "." s with
  | [a; b; c; d] => canonical a && canonical b && canonical c && canonical d
  | _ => false
  end.

(** A host without IPv6: [inet_pton(AF_INET6, s)] raises for every [s]. *)
Definition pton (af : family) (s : string) : bool :=
  match af with
  | AF_INET => pton4 s
  | AF_INET6 => false
  end.

(** ASCII decodes to itself; any other byte is refused. *)
Definition utf8 (raw : string) : option string :=
  if Py.all (fun c => Nat.ltb (nat_of_ascii c) 128) raw then Some raw else None.

Definition server_a : string := "http://a.example".

Definition q (s : string) : string := dquote +:+ s +:+ dquote.

(** The text of the JSON array that names the one server. *)
Definition list_text : string := "[" +:+ q server_a +:+ "]".

(** The text of a cache file: an object with [expiry] [e],
    [expiryDisplay] [d] and the one server. *)
Definition cache_file (e d : string) : string :=
  "{" +:+ q "expiry" +:+ ": " +:+ e +:+ ", "
      +:+ q "expiryDisplay" +:+ ": " +:+ d +:+ ", "
      +:+ q "servers" +:+ ": [" +:+ q server_a +:+ "]}".

(** A cache file that expires at 4102444800.0 (the year 2100). *)
Definition cache_text : string :=
  cache_file "4102444800.0" (q "2100-01-01T00:00:00").

(** The same cache file with the number 5 for [expiryDisplay]. *)
Definition odd_cache_text : string := cache_file "4102444800.0" "5".

(** A cache file that expired at 1000000000.0 (the year 2001). *)
Definition old_cache_text : string :=
  cache_file "1000000000.0" (q "2001-09-09T01:46:40").

Definition cache_json (expiry : float) (display : json) : json :=
  JDict [("expiry", JFloat expiry);
         ("expiryDisplay", display);
         ("servers", JList [server_a])].

(** [json.loads] on the texts the examples use. *)
Definition loads (s : string) : option json :=
  if String.eqb s list_text then Some (JList [server_a])
  else if String.eqb s "[]" then Some (JList [])
  else if String.eqb s "5" then Some (JInt 5)
  else if String.eqb s cache_text
       then Some (cache_json 4102444800%float (JStr "2100-01-01T00:00:00"))
  else if String.eqb s odd_cache_text
       then Some (cache_json 4102444800%float (JInt 5))
  else if String.eqb s old_cache_text
       then Some (cache_json 1000000000%float (JStr "2001-09-09T01:46:40"))
  else None.

(** [str(f)] on the floats the examples use. *)
Definition float_text (f : float) : string :=
  if PrimFloat.eqb f 1707776000%float then "1707776000.0"
  else if PrimFloat.eqb f 4102444800%float then "4102444800.0"
  else if PrimFloat.eqb f 1000000000%float then "1000000000.0"
  else "0.0".

(** [json.dumps] of a pool, on one line. *)
Definition dumps (v : json) : string :=
  match v with
  | JDict [("expiry", JFloat f); ("expiryDisplay", JStr d); ("servers", JList l)] =>
      "{" +:+ q "expiry" +:+ ": " +:+ float_text f +:+ ", "
          +:+ q "expiryDisplay" +:+ ": " +:+ q d +:+ ", "
          +:+ q "servers" +:+ ": [" +:+ Py.join ", " (map q l) +:+ "]}"
  | _ => "null"
  end.

(** Points in time are seconds since the epoch; every reading of the
    clock gives 1700000000.0 (late 2023). *)
Definition t0 : float := 1700000000%float.

Definition float_of_Z (z : Z) : float :=
  match z with
  | Z0 => 0%float
  | Zpos p => Pos.iter_op PrimFloat.add p 1%float
  | Zneg p => PrimFloat.opp (Pos.iter_op PrimFloat.add p 1%float)
  end.

Definition host (net : nat -> string -> http_outcome) (rnd : nat -> nat -> nat)
  : Platform :=
  {| inet_pton := pton;
     writable := fun _ => true;
     utf8_decode := utf8;
     json_loads := loads;
     json_dumps := dumps;
     float_str := float_text;
     datetime := float;
     timestamp := fun d => d;
     plus_days := fun d n => PrimFloat.add d (PrimFloat.mul 86400%float (float_of_Z n));
     strftime := fun d =>
       if PrimFloat.eqb d 1707776000%float then "2024-02-12T22:13:20" else "?";
     clock := fun _ => t0;
     randbelow := rnd;
     http := net |}.

Definition world (files : gmap string node) : World :=
  mkWorld files 0 0 0 [] [].

(** The usual start: a valid cache naming one server, no state file. *)
Definition cached : World :=
  world (<[JSON_FILENAME := Regular cache_text]> ∅).

Definition down : nat -> string -> http_outcome := fun _ _ => ConnError.
Definition answers (body : string) : nat -> string -> http_outcome :=
  fun _ _ => Response 200 (Body body).
Definition first_draw : nat -> nat -> nat := fun _ _ => 0.

(** A host whose echo servers all report the address [addr]. *)
Definition reports (addr : string) : Platform :=
  host (answers ("Your IP is " +:+ addr)) first_draw.

(** A host that reaches no server. *)
Definition offline : Platform := host down first_draw.

(** A validated configuration: one receiver, three tries, no
    blacklist, the state kept in ip.txt. *)
Definition config : ConfigInfo :=
  mkConfig ["bob"] ["bob@example.org"] "box" "ip.txt" 3 [].

(** The usual start with a state file that holds 1.2.3.4. *)
Definition known : World :=
  world (<["ip.txt" := Regular "1.2.3.4,http://a.example"]>
           (<[JSON_FILENAME := Regular cache_text]> ∅)).

End Demo.

(* ===================================================================== *)
(** * ipwatch.py: the configuration *)
(* ===================================================================== *)

From Stdlib Require DecimalString.

(** Built-ins that only the configuration code calls.  As everywhere,
    a character is a code point below 256. *)
Module PyText.

(** [str.isdigit] on one character: the decimal digits and the
    superscripts 2, 3 and 1. *)
Definition isdigit_char (c : ascii) : bool :=
  let n := nat_of_ascii c in
  (Nat.leb 48 n && Nat.leb n 57) || Nat.eqb n 178 || Nat.eqb n 179 || Nat.eqb n 185.

(** [s.isdigit()]: false for the empty string. *)
Definition isdigit (s : string) : bool :=
  negb (String.eqb s EmptyString) && Py.all isdigit_char s.

(** [str.lower] on one character: A..Z and the capital letters of
    Latin-1 move up by 32. *)
Definition lower_char (c : ascii) : ascii :=
  let n := nat_of_ascii c in
  if (Nat.leb 65 n && Nat.leb n 90)
     || (Nat.leb 192 n && Nat.leb n 222 && negb (Nat.eqb n 215))
  then ascii_of_nat (n + 32) else c.

Fixpoint lower (s : string) : string :=
  match s with
  | EmptyString => EmptyString
  | String c t => String (lower_char c) (lower t)
  end.

(** Where the last [sep] of [s] cuts it, if there is one. *)
Fixpoint rcut (sep : ascii) (s : string) : option (string * string) :=
  match s with
  | EmptyString => None
  | String c t =>
      match rcut sep t with
      | Some (h, v) => Some (String c h, v)
      | None => if Ascii.eqb c sep then Some (EmptyString, t) else None
      end
  end.

(** [s.rpartition(sep)] for a one-character separator. *)
Definition rpartition (sep : ascii) (s : string) : string * string * string :=
  match rcut sep s with
  | Some (h, v) => (h, String sep EmptyString, v)
  | None => (EmptyString, EmptyString, s)
  end.

(** [f.readlines()] on text whose newlines are translated already:
    every line keeps its newline, the last one may lack it. *)
Fixpoint readlines (s : string) : list string :=
  match s with
  | EmptyString => []
  | String c t =>
      if Ascii.eqb c Py.LF then String c EmptyString :: readlines t
      else match readlines t with
           | [] => [String c EmptyString]
           | l :: ls => String c l :: ls
           end
  end.

Fixpoint spaces (n : nat) : string :=
  match n with
  | O => EmptyString
  | S n' => String " " (spaces n')
  end.

(** [s.ljust(width)] *)
Definition ljust (width : nat) (s : string) : string :=
  s +:+ spaces (width - String.length s).

(** [str(z)] for an [int] *)
Definition str_int (z : Z) : string :=
  DecimalString.NilZero.string_of_int (Z.to_int z).

(** [str(b)] for a [bool] *)
Definition str_bool (b : bool) : string := if b then "True" else "False".

(** The white space that [int] passes over at both ends; unlike
    [str.strip] it keeps the separators 28..31. *)
Definition int_space (c : ascii) : bool :=
  let n := nat_of_ascii c in
  (Nat.leb 9 n && Nat.leb n 13) || Nat.eqb n 32 || Nat.eqb n 133 || Nat.eqb n 160.

Fixpoint lstrip_int (s : string) : string :=
  match s with
  | EmptyString => EmptyString
  | String c t => if int_space c then lstrip_int t else s
  end.

Fixpoint rstrip_int (s : string) : string :=
  match s with
  | EmptyString => EmptyString
  | String c t =>
      match rstrip_int t with
      | EmptyString => if int_space c then EmptyString else String c EmptyString
      | t' => String c t'
      end
  end.

Definition is_decimal (c : ascii) : bool :=
  Nat.leb 48 (nat_of_ascii c) && Nat.leb (nat_of_ascii c) 57.

(** Decimal digits with single underscores between them: the value,
    and how many digits there are.  [prev] tells that the character
    before was a digit. *)
Fixpoint digits (s : string) (acc : Z) (count : nat) (prev : bool)
  : option (Z * nat) :=
  match s with
  | EmptyString => if prev then Some (acc, count) else None
  | String c t =>
      if is_decimal c then
        digits t (10 * acc + Z.of_nat (nat_of_ascii c - 48)) (S count) true
      else if Ascii.eqb c "_" && prev then digits t acc count false
      else None
  end.

(** [int(s)] for a string: [None] when it raises [ValueError].
    [max_str_digits] is [sys.get_int_max_str_digits()], 0 where
    conversions are not limited; the interpreter applies it to
    literals of more than 640 digits. *)
Definition int (max_str_digits : nat) (s : string) : option Z :=
  let t := rstrip_int (lstrip_int s) in
  let '(negative, body) :=
    match t with
    | String "+" r => (false, r)
    | String "-" r => (true, r)
    | _ => (false, t)
    end in
  match digits body 0 0 false with
  | Some (v, count) =>
      if Nat.ltb 640 count && Nat.ltb 0 max_str_digits && Nat.ltb max_str_digits count
      then None
      else Some (if negative then (- v)%Z else v)
  | None => None
  end.

End PyText.

(** What the configuration code raises. *)
Inductive config_exn : Type :=
| ValueErrorMsg (msg : string)      (* [ValueError(msg)] *)
| IntValueError (literal : string)   (* the [ValueError] of [int(literal)] *)
| ReferenceError (msg : string)
| FileNotFoundError (path : string)
| Other (e : exn).

Inductive outcome (A : Type) : Type :=
| Done (a : A)
| Failed (e : config_exn).
Arguments Done {A} a.
Arguments Failed {A} e.

(** The machine the program runs on. *)
Class Host : Type := {
  (** [socket.gethostname()] *)
  gethostname : string;
  (** [sys.get_int_max_str_digits()], 0 where there is no limit *)
  int_max_str_digits : nat
}.

(** [len(v)] for the two kinds of value the attributes hold. *)
Class Sized (A : Type) : Type := len_of : A -> nat.
#[export] Instance Sized_str : Sized string := String.length.
#[export] Instance Sized_list : Sized (list string) := @length string.

(** An object of class [ConfigInfo] with all its attributes, typed as
    the constructor and [readconfig] assign them: strings, lists of
    strings, and the three SMTP attributes that are [None] until
    [validateConfig] sets them. *)
Module Obj.

Record ConfigInfo : Type := mk {
  sender : string;
  sender_email : string;
  sender_username : string;
  sender_password : string;
  receiver : list string;
  receiver_email : list string;
  subject_line : string;
  machine : string;
  smtp_addr : string;
  smtp_host : option string;
  smtp_port : option Z;
  smtp_use_ssl : option bool;
  save_ip_path : string;
  try_count : string;
  ip_blacklist : list string
}.

(** [ConfigInfo()] *)
Definition init : ConfigInfo :=
  mk EmptyString EmptyString EmptyString EmptyString [] [] EmptyString
     EmptyString EmptyString None None None EmptyString EmptyString [].

Definition set_sender (v : string) (o : ConfigInfo) : ConfigInfo :=
  mk v (sender_email o) (sender_username o) (sender_password o) (receiver o)
     (receiver_email o) (subject_line o) (machine o) (smtp_addr o) (smtp_host o)
     (smtp_port o) (smtp_use_ssl o) (save_ip_path o) (try_count o) (ip_blacklist o).

Definition set_sender_email (v : string) (o : ConfigInfo) : ConfigInfo :=
  mk (sender o) v (sender_username o) (sender_password o) (receiver o)
     (receiver_email o) (subject_line o) (machine o) (smtp_addr o) (smtp_host o)
     (smtp_port o) (smtp_use_ssl o) (save_ip_path o) (try_count o) (ip_blacklist o).

Definition set_sender_username (v : string) (o : ConfigInfo) : ConfigInfo :=
  mk (sender o) (sender_email o) v (sender_password o) (receiver o)
     (receiver_email o) (subject_line o) (machine o) (smtp_addr o) (smtp_host o)
     (smtp_port o) (smtp_use_ssl o) (save_ip_path o) (try_count o) (ip_blacklist o).

Definition set_sender_password (v : string) (o : ConfigInfo) : ConfigInfo :=
  mk (sender o) (sender_email o) (sender_username o) v (receiver o)
     (receiver_email o) (subject_line o) (machine o) (smtp_addr o) (smtp_host o)
     (smtp_port o) (smtp_use_ssl o) (save_ip_path o) (try_count o) (ip_blacklist o).

Definition set_receiver (v : list string) (o : ConfigInfo) : ConfigInfo :=
  mk (sender o) (sender_email o) (sender_username o) (sender_password o) v
     (receiver_email o) (subject_line o) (machine o) (smtp_addr o) (smtp_host o)
     (smtp_port o) (smtp_use_ssl o) (save_ip_path o) (try_count o) (ip_blacklist o).

Definition set_receiver_email (v : list string) (o : ConfigInfo) : ConfigInfo :=
  mk (sender o) (sender_email o) (sender_username o) (sender_password o) (receiver o)
     v (subject_line o) (machine o) (smtp_addr o) (smtp_host o)
     (smtp_port o) (smtp_use_ssl o) (save_ip_path o) (try_count o) (ip_blacklist o).

Definition set_subject_line (v : string) (o : ConfigInfo) : ConfigInfo :=
  mk (sender o) (sender_email o) (sender_username o) (sender_password o) (receiver o)
     (receiver_email o) v (machine o) (smtp_addr o) (smtp_host o)
     (smtp_port o) (smtp_use_ssl o) (save_ip_path o) (try_count o) (ip_blacklist o).

Definition set_machine (v : string) (o : ConfigInfo) : ConfigInfo :=
  mk (sender o) (sender_email o) (sender_username o) (sender_password o) (receiver o)
     (receiver_email o) (subject_line o) v (smtp_addr o) (smtp_host o)
     (smtp_port o) (smtp_use_ssl o) (save_ip_path o) (try_count o) (ip_blacklist o).

Definition set_smtp_addr (v : string) (o : ConfigInfo) : ConfigInfo :=
  mk (sender o) (sender_email o) (sender_username o) (sender_password o) (receiver o)
     (receiver_email o) (subject_line o) (machine o) v (smtp_host o)
     (smtp_port o) (smtp_use_ssl o) (save_ip_path o) (try_count o) (ip_blacklist o).

Definition set_smtp_host (v : option string) (o : ConfigInfo) : ConfigInfo :=
  mk (sender o) (sender_email o) (sender_username o) (sender_password o) (receiver o)
     (receiver_email o) (subject_line o) (machine o) (smtp_addr o) v
     (smtp_port o) (smtp_use_ssl o) (save_ip_path o) (try_count o) (ip_blacklist o).

Definition set_smtp_port (v : option Z) (o : ConfigInfo) : ConfigInfo :=
  mk (sender o) (sender_email o) (sender_username o) (sender_password o) (receiver o)
     (receiver_email o) (subject_line o) (machine o) (smtp_addr o) (smtp_host o)
     v (smtp_use_ssl o) (save_ip_path o) (try_count o) (ip_blacklist o).

Definition set_smtp_use_ssl (v : option bool) (o : ConfigInfo) : ConfigInfo :=
  mk (sender o) (sender_email o) (sender_username o) (sender_password o) (receiver o)
     (receiver_email o) (subject_line o) (machine o) (smtp_addr o) (smtp_host o)
     (smtp_port o) v (save_ip_path o) (try_count o) (ip_blacklist o).

Definition set_save_ip_path (v : string) (o : ConfigInfo) : ConfigInfo :=
  mk (sender o) (sender_email o) (sender_username o) (sender_password o) (receiver o)
     (receiver_email o) (subject_line o) (machine o) (smtp_addr o) (smtp_host o)
     (smtp_port o) (smtp_use_ssl o) v (try_count o) (ip_blacklist o).

Definition set_try_count (v : string) (o : ConfigInfo) : ConfigInfo :=
  mk (sender o) (sender_email o) (sender_username o) (sender_password o) (receiver o)
     (receiver_email o) (subject_line o) (machine o) (smtp_addr o) (smtp_host o)
     (smtp_port o) (smtp_use_ssl o) (save_ip_path o) v (ip_blacklist o).

Definition set_ip_blacklist (v : list string) (o : ConfigInfo) : ConfigInfo :=
  mk (sender o) (sender_email o) (sender_username o) (sender_password o) (receiver o)
     (receiver_email o) (subject_line o) (machine o) (smtp_addr o) (smtp_host o)
     (smtp_port o) (smtp_use_ssl o) (save_ip_path o) (try_count o) v.

(** The values an attribute may hold. *)
Inductive value : Type :=
| VNone
| VInt (z : Z)
| VBool (b : bool)
| VStr (s : string)
| VList (l : list string).

Definition opt {A} (f : A -> value) (v : option A) : value :=
  match v with Some a => f a | None => VNone end.

(** [self.__dict__.items()]: the attributes in the order in which
    [__init__] created them. *)
Definition items (self : ConfigInfo) : list (string * value) :=
  [("sender", VStr (sender self));
   ("sender_email", VStr (sender_email self));
   ("sender_username", VStr (sender_username self));
   ("sender_password", VStr (sender_password self));
   ("receiver", VList (receiver self));
   ("receiver_email", VList (receiver_email self));
   ("subject_line", VStr (subject_line self));
   ("machine", VStr (machine self));
   ("smtp_addr", VStr (smtp_addr self));
   ("smtp_host", opt VStr (smtp_host self));
   ("smtp_port", opt VInt (smtp_port self));
   ("smtp_use_ssl", opt VBool (smtp_use_ssl self));
   ("save_ip_path", VStr (save_ip_path self));
   ("try_count", VStr (try_count self));
   ("ip_blacklist", VList (ip_blacklist self))].

End Obj.

(** The inner function [write] of [__str__], with the list it appends
    to passed along. *)
Definition write_attr (tag : string) (val : Obj.value) (output : list string)
  : list string :=
  match val with
  | Obj.VNone => output
  | _ =>
      let val := match val with
                 | Obj.VInt z => Obj.VStr (PyText.str_int z)
                 | Obj.VBool b => Obj.VStr (PyText.str_bool b)
                 | v => v
                 end in
      let n := match val with
               | Obj.VStr s => String.length s
               | Obj.VList l => length l
               | _ => 0
               end in
      if Nat.ltb 0 n then
        let line := PyText.ljust 16 tag +:+ " : " in
        let line := match val with
                    | Obj.VList l => line +:+ Py.join "," l
                    | Obj.VStr s => line +:+ s
                    | _ => line
                    end in
        output ++ [line]
      else output
  end.

(** [ConfigInfo.__str__] *)
Definition __str__ (self : Obj.ConfigInfo) : string :=
  let output := fold_left (fun output '(attr, value) => write_attr attr value output)
                          (Obj.items self) [] in
  let output := if Nat.eqb (length output) 0
                then output ++ ["No attributes set"] else output in
  Py.join (String Py.LF EmptyString) output.

Section Config.
Context `{Platform} `{Host}.

Definition ensureNotNull {A} `{Sized A} (val : A) (text : string) : outcome unit :=
  if Nat.eqb (len_of val) 0
  then Failed (ValueErrorMsg ("'" +:+ text +:+ "' value not present in config file"))
  else Done tt.

Definition nvl {A} `{Sized A} (val valueIfNull : A) : A :=
  if Nat.eqb (len_of val) 0 then valueIfNull else val.

Definition and_then (a b : outcome unit) : outcome unit :=
  match a with
  | Done _ => b
  | Failed e => Failed e
  end.

(** The seven [ensureNotNull] calls that open [validateConfig]. *)
Definition required (self : Obj.ConfigInfo) : outcome unit :=
  and_then (ensureNotNull (Obj.sender_email self) "sender_email")
 (and_then (ensureNotNull (Obj.sender_username self) "sender_username")
 (and_then (ensureNotNull (Obj.sender_password self) "sender_password")
 (and_then (ensureNotNull (Obj.receiver_email self) "receiver_email")
 (and_then (ensureNotNull (Obj.smtp_addr self) "smtp_addr")
 (and_then (ensureNotNull (Obj.save_ip_path self) "save_ip_path")
           (ensureNotNull (Obj.try_count self) "try_count")))))).

(** The port that [smtp_addr], split at its colons, stands for. *)
Definition smtp_port_of (smtp : list string) : outcome Z :=
  if Nat.eqb (length smtp) 2 && PyText.isdigit (nth 1 smtp EmptyString) then
    match PyText.int int_max_str_digits (nth 1 smtp EmptyString) with
    | Some port => Done port
    | None => Failed (IntValueError (nth 1 smtp EmptyString))
    end
  else if Nat.eqb (length smtp) 1 then Done 25%Z
  else Failed (ReferenceError "SMTP_ADDR not set correctly in config").

(** The [try] block around [int(self.try_count)]. *)
Definition check_try_count (try_count : string) : outcome unit :=
  match PyText.int int_max_str_digits try_count with
  | Some dummy =>
      if (dummy <=? 0)%Z
      then Failed (ValueErrorMsg "TRY_COUNT must be a positive integer")
      else Done tt
  | None => Failed (ValueErrorMsg "TRY_COUNT must be a positive integer")
  end.

(** [for thisIP in self.ip_blacklist]; an exception that escapes
    [is_valid_ip] escapes the loop. *)
Fixpoint check_blacklist (ip_blacklist : list string) : outcome unit :=
  match ip_blacklist with
  | [] => Done tt
  | thisIP :: rest =>
      match is_valid_ip thisIP with
      | Raise e => Failed (Other e)
      | Ok valid =>
          if negb valid
          then Failed (ValueErrorMsg ("Invalid IP_BLACKLIST entry '" +:+ thisIP +:+ "'"))
          else check_blacklist rest
      end
  end.

(** [validateConfig]: the outcome, and the object as the call leaves
    it; an exception keeps the assignments made before it. *)
Definition validateConfig (self : Obj.ConfigInfo) : outcome unit * Obj.ConfigInfo :=
  match required self with
  | Failed e => (Failed e, self)
  | Done _ =>
      let self := Obj.set_sender (nvl (Obj.sender self) (Obj.sender_email self)) self in
      let self := Obj.set_machine (nvl (Obj.machine self) gethostname) self in
      let self := Obj.set_subject_line
                    (nvl (Obj.subject_line self) "My IP Has Changed!") self in
      let self := Obj.set_ip_blacklist (nvl (Obj.ip_blacklist self) []) self in
      let self :=
        if negb (Nat.eqb (length (Obj.receiver self)) (length (Obj.receiver_email self)))
        then Obj.set_receiver (Obj.receiver_email self) self
        else self in
      let smtp := Py.split ":" (Obj.smtp_addr self) in
      match smtp_port_of smtp with
      | Failed e => (Failed e, self)
      | Done port =>
          let self := Obj.set_smtp_port (Some port) self in
          let self := Obj.set_smtp_host (Some (nth 0 smtp EmptyString)) self in
          let self := Obj.set_smtp_use_ssl (Some (negb (port =? 25)%Z)) self in
          match check_try_count (Obj.try_count self) with
          | Failed e => (Failed e, self)
          | Done _ => (check_blacklist (Obj.ip_blacklist self), self)
          end
      end
  end.

(** The chain of comparisons in [readconfig]: the object with the
    attribute named [param] assigned, or [None] for a name that is not
    one of the twelve. *)
Definition assign (param value : string) (configObj : Obj.ConfigInfo)
  : option Obj.ConfigInfo :=
  if String.eqb param "sender" then Some (Obj.set_sender value configObj)
  else if String.eqb param "sender_email" then Some (Obj.set_sender_email value configObj)
  else if String.eqb param "sender_username" then
    Some (Obj.set_sender_username value configObj)
  else if String.eqb param "sender_password" then
    Some (Obj.set_sender_password value configObj)
  else if String.eqb param "receiver" then
    Some (Obj.set_receiver (Py.split "," value) configObj)
  else if String.eqb param "receiver_email" then
    Some (Obj.set_receiver_email (Py.split "," value) configObj)
  else if String.eqb param "subject_line" then Some (Obj.set_subject_line value configObj)
  else if String.eqb param "machine" then Some (Obj.set_machine value configObj)
  else if String.eqb param "smtp_addr" then Some (Obj.set_smtp_addr value configObj)
  else if String.eqb param "save_ip_path" then Some (Obj.set_save_ip_path value configObj)
  else if String.eqb param "try_count" then Some (Obj.set_try_count value configObj)
  else if String.eqb param "ip_blacklist" then
    Some (Obj.set_ip_blacklist (Py.split "," value) configObj)
  else None.

(** The body of the loop over the lines. *)
Definition parse_line (st : Obj.ConfigInfo * World) (line : string)
  : Obj.ConfigInfo * World :=
  let '(configObj, w) := st in
  if negb (String.eqb (String.substring 0 1 line) "#")
     && negb (String.eqb (Py.strip line) EmptyString)
  then
    let line := Py.rstrip line in
    let param := PyText.lower (fst (fst (PyText.rpartition "=" line))) in
    let value := snd (PyText.rpartition "=" line) in
    match assign param value configObj with
    | Some configObj' => (configObj', w)
    | None =>
        (configObj,
         snd (print (OutText ("ERROR: unexpected line found in config file: "
                              +:+ line)) w))
    end
  else st.

(** [readconfig]: the outcome, the object as the call leaves it, and
    the world. *)
Definition readconfig (filepath : string) (configObj : Obj.ConfigInfo) (w : World)
  : outcome unit * Obj.ConfigInfo * World :=
  match isfile filepath w with
  | (Ok true, w) =>
      match read_text filepath w with
      | (Ok text, w) =>
          let lines := PyText.readlines text in
          let '(configObj, w) := fold_left parse_line lines (configObj, w) in
          match validateConfig configObj with
          | (Done _, configObj) =>
              (Done tt, configObj, snd (print (OutText (__str__ configObj)) w))
          | (Failed e, configObj) => (Failed e, configObj, w)
          end
      | (Raise e, w) => (Failed (Other e), configObj, w)
      end
  | (Ok false, w) => (Failed (FileNotFoundError filepath), configObj, w)
  | (Raise e, w) => (Failed (Other e), configObj, w)
  end.

(** What [doTheWork] reads of the object; [int(config.try_count)] is
    the one conversion it makes. *)
Definition config_of (config : Obj.ConfigInfo) : option ConfigInfo :=
  match PyText.int int_max_str_digits (Obj.try_count config) with
  | Some n =>
      Some (mkConfig (Obj.receiver config) (Obj.receiver_email config)
                     (Obj.machine config) (Obj.save_ip_path config) n
                     (Obj.ip_blacklist config))
  | None => None
  end.

End Config.

(** The seven values that [validateConfig] insists on. *)
Definition complete (self : Obj.ConfigInfo) : Prop :=
  Obj.sender_email self <> EmptyString
  /\ Obj.sender_username self <> EmptyString
  /\ Obj.sender_password self <> EmptyString
  /\ Obj.receiver_email self <> []
  /\ Obj.smtp_addr self <> EmptyString
  /\ Obj.save_ip_path self <> EmptyString
  /\ Obj.try_count self <> EmptyString.

(** The receiver names that [validateConfig] settles on. *)
Definition receivers_of (self : Obj.ConfigInfo) : list string :=
  if Nat.eqb (length (Obj.receiver self)) (length (Obj.receiver_email self))
  then Obj.receiver self else Obj.receiver_email self.

(** Examples for the configuration code. *)
Module DemoConfig.

(** A machine called box, with the limit on integer literals that the
    interpreter starts with. *)
Definition box : Host :=
  {| gethostname := "box"; int_max_str_digits := 4300 |}.

Definition nl : string := String Py.LF EmptyString.

(** A configuration file: a comment, a blank line, the seven required
    values, one receiver name, and a line with two equals signs. *)
Definition file_text : string :=
  "# ipwatch" +:+ nl
  +:+ nl
  +:+ "SENDER_EMAIL=alice@example.org" +:+ nl
  +:+ "sender_username=alice" +:+ nl
  +:+ "sender_password=secret" +:+ nl
  +:+ "subject_line=a=b" +:+ nl
  +:+ "receiver=bob" +:+ nl
  +:+ "receiver_email=bob@example.org" +:+ nl
  +:+ "smtp_addr=smtp.example.org:587" +:+ nl
  +:+ "save_ip_path=ip.txt" +:+ nl
  +:+ "try_count=3" +:+ nl.

(** The object once the lines of that file are assigned. *)
Definition filled : Obj.ConfigInfo :=
  Obj.mk EmptyString "alice@example.org" "alice" "secret" ["bob"]
         ["bob@example.org"] EmptyString EmptyString "smtp.example.org:587"
         None None None "ip.txt" "3" [].

(** The same object after [validateConfig]. *)
Definition validated : Obj.ConfigInfo :=
  Obj.mk "alice@example.org" "alice@example.org" "alice" "secret" ["bob"]
         ["bob@example.org"] "My IP Has Changed!" "box" "smtp.example.org:587"
         (Some "smtp.example.org") (Some 587%Z) (Some true) "ip.txt" "3" [].

(** The port written with a superscript two. *)
Definition superscript_two : string := String (ascii_of_nat 178) EmptyString.

Definition odd_port : Obj.ConfigInfo :=
  Obj.set_smtp_addr ("smtp.example.org:" +:+ superscript_two) filled.

(** A world that holds the configuration file and nothing else. *)
Definition configured : World :=
  Demo.world (<["ipwatch.conf" := Regular file_text]> ∅).

(** The cache file that a refresh at [Demo.t0] writes. *)
Definition refreshed_text : string :=
  Demo.cache_file "1707776000.0" (Demo.q "2024-02-12T22:13:20").

(** [json.loads] that reads this file as well. *)
Definition loads (s : string) : option json :=
  if String.eqb s refreshed_text
  then Some (Demo.cache_json 1707776000%float (JStr "2024-02-12T22:13:20"))
  else Demo.loads s.

(** A host that reads this file as well; [can_write] tells which paths
    it lets the program open for writing. *)
Definition host_with (can_write : string -> bool)
    (net : nat -> string -> http_outcome) : Platform :=
  {| inet_pton := Demo.pton;
     writable := can_write;
     utf8_decode := Demo.utf8;
     json_loads := loads;
     json_dumps := Demo.dumps;
     float_str := Demo.float_text;
     datetime := float;
     timestamp := fun d => d;
     plus_days := fun d n =>
       PrimFloat.add d (PrimFloat.mul 86400%float (Demo.float_of_Z n));
     strftime := fun d =>
       if PrimFloat.eqb d 1707776000%float then "2024-02-12T22:13:20" else "?";
     clock := fun _ => Demo.t0;
     randbelow := Demo.first_draw;
     http := net |}.

Definition host (net : nat -> string -> http_outcome) : Platform :=
  host_with (fun _ => true) net.

(** A host on which nothing can be opened for writing. *)
Definition read_only (net : nat -> string -> http_outcome) : Platform :=
  host_with (fun _ => false) net.

(** A host without the directory nodir: no path below it can be
    opened for writing, every other path can. *)
Definition no_subdir (net : nat -> string -> http_outcome) : Platform :=
  host_with (fun path => negb (String.prefix "nodir/" path)) net.

(** The list URL answers 204, without a body. *)
Definition no_content : nat -> string -> http_outcome :=
  fun _ _ => Response 204 (Body EmptyString).

(** A state file without an address, as a run leaves it that reached
    no echo server. *)
Definition blank : World :=
  Demo.world (<["ip.txt" := Regular ",http://a.example"]>
                (<[JSON_FILENAME := Regular Demo.cache_text]> ∅)).

(** A state file and no cache. *)
Definition uncached : World :=
  Demo.world (<["ip.txt" := Regular "1.2.3.4,http://a.example"]> ∅).

(** The configuration of [Demo.config] with the state kept below the
    directory nodir. *)
Definition nodir_config : ConfigInfo :=
  mkConfig ["bob"] ["bob@example.org"] "box" "nodir/ip.txt" 3 [].

(** A state file whose first field holds a NUL character. *)
Definition nul_state : World :=
  Demo.world (<["ip.txt" := Regular (String NUL "1.2.3.4,http://a.example")]>
                (<[JSON_FILENAME := Regular Demo.cache_text]> ∅)).

End DemoConfig.
(* ===================================================================== *)
(** * Facts about the built-ins *)
(* ===================================================================== *)

Section PyFacts.

Lemma app_cons (x : ascii) (a b : string) : String x a +:+ b = String x (a +:+ b).
Proof. reflexivity. Qed.

Lemma app_nil_l (b : string) : EmptyString +:+ b = b.
Proof. reflexivity. Qed.

Lemma app_assoc_s (a b c : string) : (a +:+ b) +:+ c = a +:+ (b +:+ c).
Proof. induction a as [|x a IH]; [reflexivity | rewrite !app_cons; f_equal; exact IH]. Qed.

Lemma app_empty_r (a : string) : a +:+ EmptyString = a.
Proof. induction a as [|x a IH]; [reflexivity | rewrite app_cons; f_equal; exact IH]. Qed.

Lemma length_app_s (a b : string) :
  String.length (a +:+ b) = String.length a + String.length b.
Proof. induction a as [|x a IH]; [reflexivity | rewrite app_cons; simpl; f_equal; exact IH]. Qed.

Lemma split_not_nil sep s : Py.split sep s <> [].
Proof.
  destruct s as [|c t]; simpl; [discriminate |].
  destruct (Ascii.eqb c sep); [discriminate |].
  destruct (Py.split sep t); discriminate.
Qed.

(** Splitting at the first separator. *)
Lemma split_app_sep sep a b :
  Py.mem sep a = false ->
  Py.split sep (a +:+ String sep b) = a :: Py.split sep b.
Proof.
  induction a as [|c a IH]; intros Hm.
  - rewrite app_nil_l. simpl. now rewrite Ascii.eqb_refl.
  - simpl in Hm. apply orb_false_elim in Hm as [Hc Ha].
    rewrite app_cons. simpl. rewrite Hc, (IH Ha). reflexivity.
Qed.

Lemma split_no_sep sep a :
  Py.mem sep a = false -> Py.split sep a = [a].
Proof.
  induction a as [|c a IH]; simpl; intros Hm; [reflexivity |].
  apply orb_false_elim in Hm as [Hc Ha].
  rewrite Hc, (IH Ha). reflexivity.
Qed.

(** Joining what was split gives the text back. *)
Lemma join_split sep s :
  Py.join (String sep EmptyString) (Py.split sep s) = s.
Proof.
  induction s as [|c t IH]; simpl; [reflexivity |].
  destruct (Ascii.eqb c sep) eqn:E.
  - apply Ascii.eqb_eq in E. subst c.
    pose proof (split_not_nil sep t) as Hne.
    destruct (Py.split sep t) as [|f fs]; [contradiction |].
    simpl in *. now rewrite IH.
  - pose proof (split_not_nil sep t) as Hne.
    destruct (Py.split sep t) as [|f fs]; [contradiction |].
    destruct fs as [|g fs]; simpl in *; now rewrite <- IH.
Qed.

Lemma rstrip_cons c t :
  Py.rstrip t <> EmptyString -> Py.rstrip (String c t) = String c (Py.rstrip t).
Proof. simpl. destruct (Py.rstrip t); [contradiction | reflexivity]. Qed.

Lemma rstrip_app a b :
  Py.rstrip b <> EmptyString -> Py.rstrip (a +:+ b) = a +:+ Py.rstrip b.
Proof.
  intros Hb. induction a as [|c a IH]; [reflexivity |].
  change (String c a +:+ b) with (String c (a +:+ b)).
  rewrite rstrip_cons; rewrite IH; [reflexivity |].
  destruct a; simpl; [assumption | discriminate].
Qed.

Lemma universal_newlines_id s :
  Py.mem Py.CR s = false -> Py.universal_newlines s = s.
Proof.
  induction s as [|c t IH]; simpl; intros Hm; [reflexivity |].
  apply orb_false_elim in Hm as [Hc Ht].
  rewrite Hc, (IH Ht). reflexivity.
Qed.

Lemma mem_app c a b : Py.mem c (a +:+ b) = Py.mem c a || Py.mem c b.
Proof.
  induction a as [|x a IH]; [reflexivity |].
  rewrite app_cons. simpl. rewrite IH. now rewrite orb_assoc.
Qed.

Lemma all_mem p c s : Py.all p s = true -> Py.mem c s = true -> p c = true.
Proof.
  unfold Py.all. induction s as [|x s IH]; simpl; [discriminate |].
  intros Ha Hm. apply andb_prop in Ha as [Hx Hs].
  apply orb_prop in Hm as [Hm | Hm].
  - apply Ascii.eqb_eq in Hm. now subst.
  - now apply IH.
Qed.

End PyFacts.

(* ===================================================================== *)
(** * The state store *)
(* ===================================================================== *)

Section StateStoreFacts.
Context `{Platform}.
Hypothesis alphabet : pton_alphabet.

(** [is_valid_ip] raises exactly on a NUL character, and otherwise
    tells whether one of the two families takes the address. *)
Lemma is_valid_ip_unfold addr :
  is_valid_ip addr =
  if Py.mem NUL addr then Raise ValueError
  else Ok (inet_pton AF_INET addr || inet_pton AF_INET6 addr).
Proof.
  unfold is_valid_ip, is_valid_ipv4_address, is_valid_ipv6_address, call_inet_pton.
  destruct (Py.mem NUL addr); [reflexivity |].
  destruct (inet_pton AF_INET addr); reflexivity.
Qed.

Lemma is_valid_ip_no_nul addr b : is_valid_ip addr = Ok b -> Py.mem NUL addr = false.
Proof.
  rewrite is_valid_ip_unfold. destruct (Py.mem NUL addr); [discriminate | reflexivity].
Qed.

Lemma is_valid_ip_raises addr e :
  is_valid_ip addr = Raise e -> Py.mem NUL addr = true /\ e = ValueError.
Proof.
  rewrite is_valid_ip_unfold. destruct (Py.mem NUL addr); [| discriminate].
  intros [= <-]. now split.
Qed.

Lemma is_valid_ip_plain addr :
  Py.mem NUL addr = false -> exists b, is_valid_ip addr = Ok b.
Proof. intros Hn. rewrite is_valid_ip_unfold, Hn. eauto. Qed.

Lemma classify_unfold bl addr :
  classify bl addr =
  if Py.mem NUL addr then Raise ValueError else Ok (verdict_of bl addr).
Proof.
  unfold classify, verdict_of. rewrite is_valid_ip_unfold.
  now destruct (Py.mem NUL addr).
Qed.

Lemma classify_plain bl addr :
  Py.mem NUL addr = false -> classify bl addr = Ok (verdict_of bl addr).
Proof. intros Hn. now rewrite classify_unfold, Hn. Qed.

Lemma classify_raises bl addr e : classify bl addr = Raise e -> e = ValueError.
Proof.
  rewrite classify_unfold. destruct (Py.mem NUL addr); [| discriminate].
  now intros [= <-].
Qed.

Lemma valid_chars addr c :
  is_valid_ip addr = Ok true -> Py.mem c addr = true -> addr_char c = true.
Proof.
  rewrite is_valid_ip_unfold. destruct (Py.mem NUL addr); [discriminate |].
  intros [= Hv] Hm. apply orb_prop in Hv as [Hv | Hv];
    apply alphabet in Hv; eapply all_mem; eassumption.
Qed.

Lemma valid_no_char addr c :
  is_valid_ip addr = Ok true -> addr_char c = false -> Py.mem c addr = false.
Proof.
  intros Hv Hc. destruct (Py.mem c addr) eqn:E; [| reflexivity].
  rewrite (valid_chars _ _ Hv E) in Hc. discriminate.
Qed.

Lemma addr_char_not_space c : addr_char c = true -> Py.isspace c = false.
Proof.
  destruct c as [[] [] [] [] [] [] [] []]; vm_compute; congruence.
Qed.

Lemma stored_text_clean addr srv :
  is_valid_ip addr = Ok true ->
  Py.rstrip srv = srv ->
  Py.mem Py.CR srv = false ->
  Py.strip (Py.universal_newlines (addr +:+ "," +:+ srv)) = addr +:+ "," +:+ srv.
Proof.
  intros Hv Hs Hcr.
  rewrite universal_newlines_id.
  2:{ rewrite mem_app, (valid_no_char _ _ Hv) by reflexivity.
      simpl. exact Hcr. }
  unfold Py.strip.
  assert (Hl : Py.lstrip (addr +:+ "," +:+ srv) = addr +:+ "," +:+ srv).
  { destruct addr as [|c a]; [reflexivity |].
    rewrite app_cons. simpl.
    rewrite addr_char_not_space; [reflexivity |].
    apply (valid_chars _ _ Hv). simpl. now rewrite Ascii.eqb_refl. }
  rewrite Hl. rewrite rstrip_app.
  - f_equal. change ("," +:+ srv) with (String "," srv).
    simpl. rewrite Hs. destruct srv; reflexivity.
  - change ("," +:+ srv) with (String "," srv).
    simpl. destruct (Py.rstrip srv); discriminate.
Qed.

Lemma getoldip_regular path c w :
  fs w !! path = Some (Regular c) ->
  getoldip path w =
  match Py.split "," (Py.strip (Py.universal_newlines c)) with
  | [] => ret (mkRecord (Some "Mangled File") None)
  | first :: rest =>
      match is_valid_ip first with
      | Raise e => raise e
      | Ok valid =>
          if negb valid
          then ret (mkRecord (Some ("malformed ('" +:+ first +:+ "')"))
                             (if Nat.ltb 1 (length (first :: rest))
                              then Some (Py.join "," rest) else None))
          else ret (mkRecord (Some first)
                             (if Nat.ltb 1 (length (first :: rest))
                              then Some (Py.join "," rest) else None))
      end
  end w.
Proof.
  intros Hf. unfold getoldip, bind, isfile.
  rewrite bool_decide_eq_true_2 by (rewrite Hf; eexists; reflexivity).
  unfold read_text. rewrite Hf.
  destruct (Py.split "," (Py.strip (Py.universal_newlines c))); reflexivity.
Qed.

Lemma getoldip_absent path w :
  fs w !! path = None ->
  getoldip path w =
  (Ok (mkRecord (Some ("File '" +:+ path +:+ "' not found")) None), w).
Proof.
  intros Hf. unfold getoldip, bind, isfile.
  rewrite Hf. rewrite bool_decide_eq_false_2; [reflexivity |].
  intros [x Hx]. discriminate.
Qed.

Lemma updateoldip_cases path addr srv w :
  updateoldip path (mkRecord (Some addr) (Some srv)) w
  = if writable path
    then (Ok tt,
          log (EvWrite path (addr +:+ "," +:+ srv))
            (set_fs (<[path := Regular (addr +:+ "," +:+ srv)]> (fs w))
               (log (EvCreate path) w)))
    else (Raise OSError, w).
Proof.
  unfold updateoldip, bind, open_w. destruct (writable path); [| reflexivity].
  cbn. unfold write, set_fs. cbn. now rewrite insert_insert_eq.
Qed.

(** C4 (as amended). A record whose [ip] is a valid address and whose
    [server] is a string that has no trailing whitespace and no
    carriage return is read back by [getoldip] exactly as
    [updateoldip] stored it, embedded commas included.  The save
    returns wherever the file can be opened for writing. *)
Theorem save_then_load (path addr srv : string) (w : World) :
  is_valid_ip addr = Ok true ->
  Py.rstrip srv = srv ->
  Py.mem Py.CR srv = false ->
  (writable path = true ->
   exists w1, updateoldip path (mkRecord (Some addr) (Some srv)) w = (Ok tt, w1))
  /\ forall w1,
       updateoldip path (mkRecord (Some addr) (Some srv)) w = (Ok tt, w1) ->
       getoldip path w1 = (Ok (mkRecord (Some addr) (Some srv)), w1).
Proof.
  intros Hv Hs Hcr. rewrite updateoldip_cases.
  split; [intros ->; eauto |].
  destruct (writable path); [| discriminate]. intros w1 [= <-].
  rewrite (getoldip_regular _ (addr +:+ "," +:+ srv)).
  2:{ cbn. rewrite lookup_insert_eq. reflexivity. }
  rewrite (stored_text_clean _ _ Hv Hs Hcr).
  change ("," +:+ srv) with (String "," srv).
  rewrite split_app_sep by (now apply valid_no_char).
  pose proof (split_not_nil "," srv) as Hne.
  pose proof (join_split "," srv) as Hj.
  destruct (Py.split "," srv) as [|f fs0] eqn:E; [contradiction |].
  cbn [length Nat.ltb Nat.leb]. rewrite Hv. cbn [negb].
  unfold ret. now rewrite Hj.
Qed.

End StateStoreFacts.

Section DemoFacts.

Lemma all_app p a b : Py.all p (a +:+ b) = Py.all p a && Py.all p b.
Proof.
  unfold Py.all. induction a as [|x a IH]; [reflexivity |].
  rewrite app_cons. simpl. rewrite IH. now rewrite andb_assoc.
Qed.

Lemma all_impl (p q : ascii -> bool) s :
  (forall c, p c = true -> q c = true) -> Py.all p s = true -> Py.all q s = true.
Proof.
  intros Hpq. unfold Py.all. induction s as [|x s IH]; simpl; [reflexivity |].
  intros Ha. apply andb_prop in Ha as [Hx Hs].
  rewrite (Hpq _ Hx), (IH Hs). reflexivity.
Qed.

Lemma octet_digits o : is_octet o = true -> Py.all isdigit o = true.
Proof.
  unfold is_octet. intros Ho.
  apply andb_prop in Ho as [Ho _]. apply andb_prop in Ho as [_ Ho]. exact Ho.
Qed.

Lemma dotted_quad_chars a : dotted_quad a = true -> Py.all quad_char a = true.
Proof.
  unfold dotted_quad. intros Hq.
  destruct (Py.split "." a) as [|o1 [|o2 [|o3 [|o4 [|o5 l]]]]] eqn:E; try discriminate.
  apply andb_prop in Hq as [Hq H4]. apply andb_prop in Hq as [Hq H3].
  apply andb_prop in Hq as [H1 H2].
  assert (Hd : forall o, is_octet o = true -> Py.all quad_char o = true).
  { intros o Ho. apply octet_digits in Ho. revert Ho. apply all_impl.
    intros c Hc. unfold quad_char. now rewrite Hc. }
  rewrite <- (join_split "." a), E. cbn [Py.join].
  rewrite !all_app, (Hd _ H1), (Hd _ H2), (Hd _ H3), (Hd _ H4). reflexivity.
Qed.

Lemma plain_no_char (p : ascii -> bool) a c :
  Py.all p a = true -> p c = false -> Py.mem c a = false.
Proof.
  intros Ha Hc. destruct (Py.mem c a) eqn:E; [| reflexivity].
  rewrite (all_mem _ _ _ Ha E) in Hc. discriminate.
Qed.

(** What [fetch] returns holds no NUL character, so its validation
    does not raise. *)
Lemma resolved_plain a :
  a = EmptyString \/ dotted_quad a = true -> Py.mem NUL a = false.
Proof.
  intros [-> | Ha]; [reflexivity |].
  apply (plain_no_char quad_char); [now apply dotted_quad_chars | reflexivity].
Qed.

Lemma canonical_chars o : Demo.canonical o = true -> Py.all addr_char o = true.
Proof.
  unfold Demo.canonical. intros Ho. apply andb_prop in Ho as [Ho _].
  apply octet_digits in Ho. revert Ho. apply all_impl.
  intros c Hc. unfold addr_char. now rewrite Hc.
Qed.

Lemma demo_alphabet net rnd : @pton_alphabet (Demo.host net rnd).
Proof.
  intros af s. destruct af; [| discriminate].
  cbn. unfold Demo.pton4.
  destruct (Py.split "." s) as [|a [|b [|c [|d [|e l]]]]] eqn:E; try discriminate.
  intros Hc.
  apply andb_prop in Hc as [Hc Hd]. apply andb_prop in Hc as [Hc Hcc].
  apply andb_prop in Hc as [Ha Hb].
  rewrite <- (join_split "." s), E. cbn [Py.join].
  rewrite !all_app.
  rewrite (canonical_chars _ Ha), (canonical_chars _ Hb),
          (canonical_chars _ Hcc), (canonical_chars _ Hd).
  reflexivity.
Qed.

End DemoFacts.

(** C4, at one input: a server name with an embedded comma comes back
    unchanged. *)
Lemma save_then_load_witness :
  exists w1,
    @updateoldip (Demo.host Demo.down Demo.first_draw) "ip.txt"
      (mkRecord (Some "1.2.3.4") (Some "http://a.example,b.example"))
      (Demo.world ∅) = (Ok tt, w1)
    /\ @getoldip (Demo.host Demo.down Demo.first_draw) "ip.txt" w1
       = (Ok (mkRecord (Some "1.2.3.4") (Some "http://a.example,b.example")), w1).
Proof.
  destruct (@save_then_load (Demo.host Demo.down Demo.first_draw)
              (demo_alphabet _ _) "ip.txt" "1.2.3.4" "http://a.example,b.example"
              (Demo.world ∅) eq_refl eq_refl eq_refl) as [Hsave Hload].
  destruct (Hsave eq_refl) as [w1 Hw1].
  exists w1. split; [exact Hw1 | exact (Hload w1 Hw1)].
Defined.

(** C4 as first stated fails: a server name that ends in a space is
    stored with it and read back without it. *)
Lemma save_then_load_trailing_space :
  @is_valid_ip (Demo.host Demo.down Demo.first_draw) "1.2.3.4" = Ok true
  /\ fst ((@updateoldip (Demo.host Demo.down Demo.first_draw) "ip.txt"
             (mkRecord (Some "1.2.3.4") (Some "http://a.example ")) ;;;
           @getoldip (Demo.host Demo.down Demo.first_draw) "ip.txt") (Demo.world ∅))
     = Ok (mkRecord (Some "1.2.3.4") (Some "http://a.example"))
  /\ mkRecord (Some "1.2.3.4") (Some "http://a.example")
     <> mkRecord (Some "1.2.3.4") (Some "http://a.example ").
Proof.
  split; [reflexivity |]. split; [vm_compute; reflexivity | discriminate].
Qed.

(* ===================================================================== *)
(** * Facts about the matcher *)
(* ===================================================================== *)

Section ReFacts.

(** Whatever the matcher finds is a word of the pattern followed by
    text the continuation accepts. *)
Lemma bt_sound r : forall s k x,
  Re.bt r s k = Some x ->
  exists p q, s = p +:+ q /\ Re.lang r p /\ k q = Some x.
Proof.
  induction r as [c | lo hi | r1 IH1 r2 IH2 | r1 IH1 r2 IH2 | r1 IH1];
    intros s k x Hbt; simpl in Hbt.
  - destruct s as [|d t]; [discriminate |].
    destruct (Ascii.eqb d c) eqn:E; [| discriminate].
    apply Ascii.eqb_eq in E. subst d.
    exists (String c EmptyString), t. repeat split; assumption.
  - destruct s as [|d t]; [discriminate |].
    destruct (Re.in_range lo hi d) eqn:E; [| discriminate].
    exists (String d EmptyString), t. repeat split; [| assumption].
    exists d. split; [assumption | reflexivity].
  - apply IH1 in Hbt as (p1 & q1 & -> & Hp1 & Hbt).
    apply IH2 in Hbt as (p2 & q2 & -> & Hp2 & Hk).
    exists (p1 +:+ p2), q2. rewrite app_assoc_s. repeat split; [| assumption].
    exists p1, p2. repeat split; assumption.
  - destruct (Re.bt r1 s k) as [y|] eqn:E1.
    + injection Hbt as ->. apply IH1 in E1 as (p & q & -> & Hp & Hk).
      exists p, q. repeat split; [left |]; assumption.
    + apply IH2 in Hbt as (p & q & -> & Hp & Hk).
      exists p, q. repeat split; [right |]; assumption.
  - destruct (Re.bt r1 s k) as [y|] eqn:E1.
    + injection Hbt as ->. apply IH1 in E1 as (p & q & -> & Hp & Hk).
      exists p, q. repeat split; [right |]; assumption.
    + exists EmptyString, s. repeat split; [left; reflexivity | assumption].
Qed.

(** When the matcher gives up, no word of the pattern at the front of
    the text leaves a rest the continuation accepts. *)
Lemma bt_complete r : forall s k,
  Re.bt r s k = None ->
  forall p q, s = p +:+ q -> Re.lang r p -> k q = None.
Proof.
  induction r as [c | lo hi | r1 IH1 r2 IH2 | r1 IH1 r2 IH2 | r1 IH1];
    intros s k Hbt p q -> Hp; simpl in Hbt, Hp.
  - subst p. rewrite app_cons, app_nil_l in Hbt.
    now rewrite Ascii.eqb_refl in Hbt.
  - destruct Hp as (d & Hd & ->). rewrite app_cons, app_nil_l in Hbt.
    now rewrite Hd in Hbt.
  - destruct Hp as (a & b & -> & Ha & Hb).
    rewrite app_assoc_s in Hbt.
    pose proof (IH1 _ _ Hbt a (b +:+ q) eq_refl Ha) as H2.
    exact (IH2 _ _ H2 b q eq_refl Hb).
  - destruct (Re.bt r1 (p +:+ q) k) eqn:E1; [discriminate |].
    destruct Hp as [Hp | Hp]; [eapply IH1 | eapply IH2]; eauto.
  - destruct (Re.bt r1 (p +:+ q) k) eqn:E1; [discriminate |].
    destruct Hp as [-> | Hp]; [assumption | eapply IH1; eauto].
Qed.

(** The continuation only matters where it is consulted: a
    continuation that refuses at least as often gives up as well. *)
Lemma bt_none r : forall s k k',
  (forall s', k s' = None -> k' s' = None) ->
  Re.bt r s k = None -> Re.bt r s k' = None.
Proof.
  induction r as [c | lo hi | r1 IH1 r2 IH2 | r1 IH1 r2 IH2 | r1 IH1];
    intros s k k' Hk Hbt; simpl in *.
  - destruct s as [|d t]; [reflexivity |]. destruct (Ascii.eqb d c); auto.
  - destruct s as [|d t]; [reflexivity |]. destruct (Re.in_range lo hi d); auto.
  - eapply IH1; [| exact Hbt]. intros s' Hs'. eapply IH2; eauto.
  - destruct (Re.bt r1 s k) eqn:E1; [discriminate |].
    rewrite (IH1 _ _ _ Hk E1). eapply IH2; eauto.
  - destruct (Re.bt r1 s k) eqn:E1; [discriminate |].
    rewrite (IH1 _ _ _ Hk E1). auto.
Qed.

(** The first way of matching found under one continuation is found
    under every continuation that agrees with it there. *)
Lemma bt_first_gen r : forall s k k' q x,
  (forall s', k s' = None -> k' s' = None) ->
  (forall s', k s' = Some q -> k' s' = Some x) ->
  Re.bt r s k = Some q -> Re.bt r s k' = Some x.
Proof.
  induction r as [c | lo hi | r1 IH1 r2 IH2 | r1 IH1 r2 IH2 | r1 IH1];
    intros s k k' q x Hn Hs Hbt; simpl in *.
  - destruct s as [|d t]; [discriminate |]. destruct (Ascii.eqb d c); auto; discriminate.
  - destruct s as [|d t]; [discriminate |].
    destruct (Re.in_range lo hi d); auto; discriminate.
  - eapply IH1; [| | exact Hbt].
    + intros s' Hs'. eapply bt_none; eauto.
    + intros s' Hs'. eapply IH2; eauto.
  - destruct (Re.bt r1 s k) eqn:E1.
    + injection Hbt as ->. now rewrite (IH1 _ _ _ _ _ Hn Hs E1).
    + rewrite (bt_none _ _ _ _ Hn E1). eapply IH2; eauto.
  - destruct (Re.bt r1 s k) eqn:E1.
    + injection Hbt as ->. now rewrite (IH1 _ _ _ _ _ Hn Hs E1).
    + rewrite (bt_none _ _ _ _ Hn E1). auto.
Qed.

Lemma bt_first r s k q x :
  Re.bt r s Some = Some q -> k q = Some x -> Re.bt r s k = Some x.
Proof.
  intros Hbt Hk. eapply bt_first_gen; [| | exact Hbt].
  - discriminate.
  - intros s' [= ->]. exact Hk.
Qed.

Lemma substring_prefix p q :
  String.substring 0 (String.length p) (p +:+ q) = p.
Proof.
  induction p as [|c p IH]; [destruct q; reflexivity |].
  rewrite app_cons. simpl. now rewrite IH.
Qed.

Lemma search_unfold r s :
  Re.search r s =
  match Re.match_at r s with
  | Some m => Some m
  | None => match s with
            | String _ t => Re.search r t
            | EmptyString => None
            end
  end.
Proof. destruct s; reflexivity. Qed.

Lemma match_at_sound r s m :
  Re.match_at r s = Some m -> Re.lang r m /\ exists post, s = m +:+ post.
Proof.
  unfold Re.match_at. destruct (Re.bt r s Some) as [rest|] eqn:E; [| discriminate].
  apply bt_sound in E as (p & q & -> & Hp & [= ->]).
  intros [= <-]. rewrite length_app_s, Nat.add_sub, substring_prefix.
  split; [assumption | now exists rest].
Qed.

Lemma match_at_none r s :
  Re.match_at r s = None -> forall m post, s = m +:+ post -> ~ Re.lang r m.
Proof.
  unfold Re.match_at. destruct (Re.bt r s Some) as [rest|] eqn:E; [discriminate |].
  intros _ m post Hs Hm.
  pose proof (bt_complete _ _ _ E m post Hs Hm). discriminate.
Qed.

(** [search] returns a word of the pattern that occurs in the text,
    and no word of the pattern starts further to the left. *)
Lemma search_sound r : forall s m,
  Re.search r s = Some m ->
  exists pre post,
    s = pre +:+ m +:+ post /\ Re.lang r m
    /\ forall pre' m' post',
         s = pre' +:+ m' +:+ post' -> Re.lang r m' ->
         String.length pre <= String.length pre'.
Proof.
  induction s as [|c t IH]; intros m Hs; simpl in Hs.
  - destruct (Re.match_at r EmptyString) as [m0|] eqn:E; [| discriminate].
    injection Hs as ->. apply match_at_sound in E as (Hm & post & Hp).
    exists EmptyString, post. repeat split; [assumption .. |]. intros; simpl; lia.
  - destruct (Re.match_at r (String c t)) as [m0|] eqn:E.
    + injection Hs as ->. apply match_at_sound in E as (Hm & post & Hp).
      exists EmptyString, post. repeat split; [assumption .. |]. intros; simpl; lia.
    + apply IH in Hs as (pre & post & -> & Hm & Hleft).
      exists (String c pre), post. repeat split; [assumption |].
      intros pre' m' post' Hdec Hm'.
      destruct pre' as [|c' pre''].
      * exfalso. exact (match_at_none _ _ E m' post' Hdec Hm').
      * rewrite !app_cons in Hdec. injection Hdec as _ Hdec.
        simpl. apply le_n_S. eapply Hleft; eauto.
Qed.

(** [search] finds nothing only when no word of the pattern occurs. *)
Lemma search_none r : forall s,
  Re.search r s = None ->
  forall pre m post, s = pre +:+ m +:+ post -> ~ Re.lang r m.
Proof.
  induction s as [|c t IH]; intros Hs pre m post Hdec Hm; simpl in Hs.
  - destruct (Re.match_at r EmptyString) eqn:E; [discriminate |].
    destruct pre; [| discriminate].
    exact (match_at_none _ _ E m post Hdec Hm).
  - destruct (Re.match_at r (String c t)) eqn:E; [discriminate |].
    destruct pre as [|c' pre'].
    + exact (match_at_none _ _ E m post Hdec Hm).
    + rewrite !app_cons in Hdec. injection Hdec as _ Hdec.
      exact (IH Hs pre' m post Hdec Hm).
Qed.

End ReFacts.

(* ===================================================================== *)
(** * The pattern of [fetch] and dotted quads *)
(* ===================================================================== *)

Section PatternFacts.

Lemma digit_cases d :
  isdigit d = true ->
  In d ["0"; "1"; "2"; "3"; "4"; "5"; "6"; "7"; "8"; "9"]%char.
Proof.
  destruct d as [[] [] [] [] [] [] [] []]; intros Hd;
    vm_compute in Hd; try discriminate Hd;
    simpl; repeat ((left; reflexivity) || right).
Qed.

Lemma range_digit lo hi d :
  isdigit lo = true -> isdigit hi = true ->
  Re.in_range lo hi d = true -> isdigit d = true.
Proof.
  unfold isdigit, Re.in_range. intros Hlo Hhi Hd.
  apply andb_prop in Hlo as [Hlo _]. apply andb_prop in Hhi as [_ Hhi].
  apply andb_prop in Hd as [Hd1 Hd2].
  apply Nat.leb_le in Hlo, Hhi, Hd1, Hd2.
  apply andb_true_intro. split; apply Nat.leb_le; lia.
Qed.

Lemma digits_no_dot o : Py.all isdigit o = true -> Py.mem "." o = false.
Proof.
  intros Ho. destruct (Py.mem "." o) eqn:E; [| reflexivity].
  pose proof (all_mem _ _ _ Ho E) as Hd. vm_compute in Hd. discriminate.
Qed.

(** Ten cases for a character known to be a digit. *)
Ltac digit d H :=
  apply digit_cases in H; simpl in H;
  repeat (destruct H as [H | H]; [subst d |]); [.. | contradiction].

(** On a one-to-three digit number that is at most 255, followed by
    the end of the text or by a dot, the first way the octet pattern
    matches takes the whole number. *)
Lemma octet_whole o rest :
  is_octet o = true ->
  rest = EmptyString \/ (exists t, rest = String "." t) ->
  Re.bt octet (o +:+ rest) Some = Some rest.
Proof.
  intros Ho Hr. pose proof (octet_digits o Ho) as Hd.
  unfold Py.all in Hd.
  destruct o as [|a [|b [|c [|d t]]]];
    unfold is_octet in Ho; cbn [String.length Nat.leb andb] in Ho;
    try discriminate Ho; simpl in Hd.
  - apply andb_prop in Hd as [Ha _]. digit a Ha;
      destruct Hr as [-> | [t ->]]; vm_compute; reflexivity.
  - apply andb_prop in Hd as [Ha Hd]. apply andb_prop in Hd as [Hb _].
    digit a Ha; digit b Hb;
      destruct Hr as [-> | [t ->]]; vm_compute; reflexivity.
  - apply andb_prop in Hd as [Ha Hd]. apply andb_prop in Hd as [Hb Hd].
    apply andb_prop in Hd as [Hc _].
    digit a Ha; digit b Hb; digit c Hc;
      vm_compute in Ho; try discriminate Ho;
      destruct Hr as [-> | [t ->]]; vm_compute; reflexivity.
Qed.

(** Every word of the octet pattern is such a number. *)
Lemma lang_octet o : Re.lang octet o -> is_octet o = true.
Proof.
  unfold octet. simpl. intros Ho.
  repeat match goal with
         | H : exists _, _ |- _ => destruct H
         | H : _ /\ _ |- _ => destruct H
         | H : _ \/ _ |- _ => destruct H
         end; subst;
  repeat match goal with
         | H : Re.in_range ?lo ?hi ?d = true |- _ =>
             let Hd := fresh "Hd" in
             pose proof (range_digit lo hi d eq_refl eq_refl H) as Hd;
             digit d Hd; vm_compute in H; try discriminate H; clear H
         end;
  reflexivity.
Qed.

Lemma octet_lang o : is_octet o = true -> Re.lang octet o.
Proof.
  intros Ho.
  pose proof (octet_whole o EmptyString Ho (or_introl eq_refl)) as Hbt.
  apply bt_sound in Hbt as (p & q & Hpq & Hp & [= ->]).
  rewrite !app_empty_r in Hpq. now subst.
Qed.

(** The words of the pattern are exactly the dotted quads. *)
Lemma lang_ipv4 m : Re.lang ipv4_pattern m <-> dotted_quad m = true.
Proof.
  split.
  - unfold ipv4_pattern. cbn [Re.lang].
    intros (a & r1 & -> & Ha & d1 & r2 & -> & -> & b & r3 & -> & Hb
            & d2 & r4 & -> & -> & c & r5 & -> & Hc & d3 & d & -> & -> & Hd).
    apply lang_octet in Ha, Hb, Hc, Hd.
    unfold dotted_quad. rewrite !app_cons, !app_nil_l.
    rewrite !split_app_sep by (now apply digits_no_dot, octet_digits).
    rewrite split_no_sep by (now apply digits_no_dot, octet_digits).
    now rewrite Ha, Hb, Hc, Hd.
  - unfold dotted_quad. intros Hq.
    destruct (Py.split "." m) as [|a [|b [|c [|d [|e l]]]]] eqn:E; try discriminate.
    apply andb_prop in Hq as [Hq Hd]. apply andb_prop in Hq as [Hq Hc].
    apply andb_prop in Hq as [Ha Hb].
    rewrite <- (join_split "." m), E. cbn [Py.join].
    unfold ipv4_pattern. cbn [Re.lang].
    exists a, ("." +:+ b +:+ "." +:+ c +:+ "." +:+ d).
    repeat split; [now apply octet_lang |].
    exists ".", (b +:+ "." +:+ c +:+ "." +:+ d). repeat split.
    exists b, ("." +:+ c +:+ "." +:+ d). repeat split; [now apply octet_lang |].
    exists ".", (c +:+ "." +:+ d). repeat split.
    exists c, ("." +:+ d). repeat split; [now apply octet_lang |].
    exists ".", d. repeat split. now apply octet_lang.
Qed.

(** On a dotted quad the search returns the whole string. *)
Lemma search_dotted_quad s : dotted_quad s = true -> Re.search ipv4_pattern s = Some s.
Proof.
  unfold dotted_quad. intros Hq.
  destruct (Py.split "." s) as [|a [|b [|c [|d [|e l]]]]] eqn:E; try discriminate.
  apply andb_prop in Hq as [Hq Hd]. apply andb_prop in Hq as [Hq Hc].
  apply andb_prop in Hq as [Ha Hb].
  assert (Hs : s = a +:+ String "." (b +:+ String "." (c +:+ String "." (d +:+ EmptyString)))).
  { rewrite <- (join_split "." s) at 1. rewrite E. cbn [Py.join].
    now rewrite app_empty_r. }
  assert (Hbt : Re.bt ipv4_pattern s Some = Some EmptyString).
  { rewrite Hs. unfold ipv4_pattern. cbn [Re.bt].
    do 3 (eapply bt_first; [apply octet_whole; eauto |];
          cbv beta; cbn [Re.bt]; rewrite Ascii.eqb_refl).
    apply octet_whole; auto. }
  assert (Hm : Re.match_at ipv4_pattern s = Some s).
  { unfold Re.match_at. rewrite Hbt. cbn [String.length]. rewrite Nat.sub_0_r.
    f_equal. rewrite <- (app_empty_r s) at 2. apply substring_prefix. }
  rewrite search_unfold, Hm. reflexivity.
Qed.

End PatternFacts.

(** C7 (as amended). The words of the pattern of [fetch] are exactly the
    dotted quads whose four components are one-to-three digit numbers
    between 0 and 255, and [fetch] applies it as an unanchored search:
    on such a dotted quad the search returns the whole string (so
    8.8.8.8 is matched), whatever it returns is such a dotted quad that
    occurs in the text, it finds nothing in 1.2.3, and in 999.1.1.1 it
    finds 99.1.1.1. *)
Theorem ipv4_pattern_extracts :
  (forall m, Re.lang ipv4_pattern m <-> dotted_quad m = true)
  /\ (forall s, dotted_quad s = true -> Re.search ipv4_pattern s = Some s)
  /\ (forall s m, Re.search ipv4_pattern s = Some m ->
        dotted_quad m = true /\ exists pre post, s = pre +:+ m +:+ post)
  /\ Re.search ipv4_pattern "8.8.8.8" = Some "8.8.8.8"
  /\ Re.search ipv4_pattern "1.2.3" = None
  /\ Re.search ipv4_pattern "999.1.1.1" = Some "99.1.1.1".
Proof.
  split; [exact lang_ipv4 |].
  split; [exact search_dotted_quad |].
  split; [| repeat split; reflexivity].
  intros s m Hs. apply search_sound in Hs as (pre & post & Hdec & Hm & _).
  split; [now apply lang_ipv4 | now exists pre, post].
Qed.

(** C7 as first stated fails: 999.1.1.1 is not a dotted quad with
    components up to 255, and the search does not reject it. *)
Lemma ipv4_pattern_accepts_999 :
  dotted_quad "999.1.1.1" = false
  /\ Re.search ipv4_pattern "999.1.1.1" = Some "99.1.1.1".
Proof. split; reflexivity. Qed.

(* ===================================================================== *)
(** * The per-server fetch *)
(* ===================================================================== *)

Section FetchFacts.
Context `{Platform}.

Lemma since_app w w' tr : trace w' = trace w ++ tr -> since w w' = tr.
Proof. intros Ht. unfold since. rewrite Ht. apply drop_app_length. Qed.

Lemma search_first_ipv4 body v :
  Re.search ipv4_pattern body = Some v -> first_ipv4 body v.
Proof.
  intros Hs. apply search_sound in Hs as (pre & post & Hdec & Hm & Hleft).
  exists pre, post. repeat split; [assumption | now apply lang_ipv4 |].
  intros pre' m post' Hdec' Hm'. eapply Hleft; [eassumption |].
  now apply lang_ipv4.
Qed.

Lemma search_no_ipv4 body :
  Re.search ipv4_pattern body = None -> no_ipv4 body.
Proof.
  intros Hs pre m post Hdec.
  destruct (dotted_quad m) eqn:E; [| reflexivity].
  exfalso. apply (search_none _ _ Hs pre m post Hdec). now apply lang_ipv4.
Qed.

Lemma dotted_quad_nonempty v : dotted_quad v = true -> Nat.ltb 0 (String.length v) = true.
Proof. destruct v; [discriminate | reflexivity]. Qed.

(** What [fetch] does, by the outcome of the exchange. *)
Lemma fetch_run server w :
  fetch server w =
  let h := exchanges w in
  let w1 := log (EvFetch server)
              (mkWorld (fs w) (clock_reads w) (draws w) (S h) (conns w) (trace w)) in
  match http h server with
  | Response code rd =>
      if ok_status code then
        (Ok match rd with
            | Body raw =>
                match Re.search ipv4_pattern (decode raw) with
                | Some v => v
                | None => EmptyString
                end
            | ReadError => EmptyString
            end,
         log (EvClose h)
           (mkWorld (fs w1) (clock_reads w1) (draws w1) (exchanges w1)
                    (filter (fun x => x <> h) (h :: conns w1)) (trace w1)))
      else (Ok EmptyString, w1)
  | ConnError => (Ok EmptyString, w1)
  end.
Proof.
  unfold fetch, urlopen, ok_status. cbv zeta.
  destruct (http (exchanges w) server) as [|code rd]; [reflexivity |].
  destruct (Nat.leb 200 code && Nat.ltb code 300); [| reflexivity].
  destruct rd as [|raw]; [reflexivity |].
  unfold try_finally, try_except, bind, read, ret, raise, close.
  destruct (Re.search ipv4_pattern (decode raw)) as [v|] eqn:E; [| reflexivity].
  apply search_first_ipv4 in E as (_ & _ & _ & Hv & _).
  now rewrite (dotted_quad_nonempty _ Hv).
Qed.

(** C5. [fetch] returns, whatever the server does: the first
    IPv4-shaped substring of the decoded body, or the empty string;
    the empty string when the connection or the read fails, when the
    status is outside 200..299 and when the body holds no dotted
    quad.  It never raises.  A response object is acquired only on a
    2xx status and is closed before [fetch] returns, so no connection
    stays open that was not open before. *)
Theorem fetch_never_raises (server : string) (w : World) :
  exists v w',
    fetch server w = (Ok v, w')
    /\ (forall h, h ∈ conns w' -> h ∈ conns w)
    /\ match http (exchanges w) server with
       | Response code rd =>
           if ok_status code then
             since w w' = [EvFetch server; EvClose (exchanges w)]
             /\ match rd with
                | Body raw =>
                    first_ipv4 (decode raw) v
                    \/ (v = EmptyString /\ no_ipv4 (decode raw))
                | ReadError => v = EmptyString
                end
           else v = EmptyString /\ since w w' = [EvFetch server]
       | ConnError => v = EmptyString /\ since w w' = [EvFetch server]
       end.
Proof.
  rewrite fetch_run. cbv zeta.
  destruct (http (exchanges w) server) as [|code rd].
  - eexists _, _. split; [reflexivity |]. split; [auto |].
    split; [reflexivity |]. now apply since_app.
  - destruct (ok_status code).
    + eexists _, _. split; [reflexivity |]. split.
      * intros h Hh. unfold log in Hh. cbn [conns] in Hh.
        apply list_elem_of_filter in Hh as [Hne Hh].
        apply elem_of_cons in Hh as [-> | Hh]; [contradiction | assumption].
      * split; [apply since_app; cbn; now rewrite <- app_assoc |].
        destruct rd as [|raw]; [reflexivity |].
        destruct (Re.search ipv4_pattern (decode raw)) eqn:E.
        -- left. now apply search_first_ipv4.
        -- right. split; [reflexivity | now apply search_no_ipv4].
    + eexists _, _. split; [reflexivity |]. split; [auto |].
      split; [reflexivity |]. now apply since_app.
Qed.

End FetchFacts.

(* ===================================================================== *)
(** * The server catalogue *)
(* ===================================================================== *)

Section CatalogueFacts.
Context `{Platform}.

Lemma load_cache_run w :
  load_cache w = (Ok (cached_json (fs w !! JSON_FILENAME)), w).
Proof.
  unfold load_cache, bind, isfile, try_except, read_text, cached_json.
  destruct (fs w !! JSON_FILENAME) as [[|text]|] eqn:E.
  - rewrite bool_decide_eq_true_2 by (eexists; reflexivity). now rewrite E.
  - rewrite bool_decide_eq_true_2 by (eexists; reflexivity). rewrite E.
    destruct (json_loads (Py.universal_newlines text)); reflexivity.
  - rewrite bool_decide_eq_false_2; [reflexivity |]. intros [x Hx]. discriminate.
Qed.

(** The world once the error artifact of an earlier run is removed. *)
Lemma remove_errfile_run w :
  exists w1,
    remove_errfile w = (Ok tt, w1)
    /\ fs w1 = delete JSON_ERRFILE (fs w)
    /\ clock_reads w1 = clock_reads w /\ draws w1 = draws w
    /\ exchanges w1 = exchanges w /\ conns w1 = conns w
    /\ (trace w1 = trace w \/ trace w1 = trace w ++ [EvRemove JSON_ERRFILE]).
Proof.
  unfold remove_errfile. destruct (fs w !! JSON_ERRFILE) eqn:E.
  - eexists. split; [reflexivity |]. cbn. repeat split; auto.
  - exists w. split; [reflexivity |]. repeat split; auto.
    symmetry. now apply delete_id.
Qed.

Lemma stale_dict d ts :
  (forall f, float_str f <> EmptyString) ->
  stale (JDict d) ts = Ok (unusable d ts).
Proof.
  intros Hf.
  assert (Hlen : forall f, Nat.eqb (String.length (float_str f)) 0 = false).
  { intros f. specialize (Hf f). destruct (float_str f); [contradiction | reflexivity]. }
  unfold stale, unusable, not_in, getitem, null_or_missing, rbind.
  destruct (dict_get d "expiry") as [[]|];
    destruct (dict_get d "expiryDisplay") as [[]|];
    destruct (dict_get d "servers") as [[| | | | | [|] |]|];
    cbn; rewrite ?Hlen; cbn; try reflexivity;
    destruct (PrimFloat.ltb _ _); reflexivity.
Qed.

Lemma stale_cached cache ts :
  (forall f, float_str f <> EmptyString) ->
  object_or_null cache ->
  stale (cached_json cache) ts = Ok (cache_miss cache ts).
Proof.
  intros Hf Hobj. unfold object_or_null in Hobj.
  unfold cache_miss. unfold cached_json in *.
  destruct cache as [[|text]|]; try reflexivity.
  destruct (json_loads (Py.universal_newlines text)) as [[]|];
    try contradiction; try reflexivity.
  now apply stale_dict.
Qed.


End CatalogueFacts.

Section CatalogueRun.
Context `{Platform}.
Hypothesis float_str_nonempty : forall f, float_str f <> EmptyString.

Lemma errfile_is_not_cache : JSON_ERRFILE <> JSON_FILENAME.
Proof. discriminate. Qed.

(** [__init__] up to the decision: the clock is read once, the error
    artifact is removed, and the list is fetched again exactly on a
    cache miss. *)
Lemma IPgetter_run w :
  object_or_null (fs w !! JSON_FILENAME) ->
  let now_ := clock (clock_reads w) in
  let cache := fs w !! JSON_FILENAME in
  exists w1,
    fs w1 = delete JSON_ERRFILE (fs w)
    /\ exchanges w1 = exchanges w
    /\ (trace w1 = trace w \/ trace w1 = trace w ++ [EvRemove JSON_ERRFILE])
    /\ IPgetter w =
       if cache_miss cache (timestamp now_) then refresh now_ w1
       else match getitem (cached_json cache) "servers" with
            | Ok servers => (Ok servers, w1)
            | Raise e => (Raise e, w1)
            end.
Proof.
  intros Hobj now_ cache.
  unfold IPgetter, bind, now. rewrite load_cache_run.
  cbn [fs clock_reads draws exchanges conns trace].
  destruct (remove_errfile_run
              (mkWorld (fs w) (S (clock_reads w)) (draws w) (exchanges w)
                       (conns w) (trace w)))
    as (w1 & Hrm & Hfs & _ & _ & Hex & _ & Htr).
  exists w1. rewrite Hrm. cbn in Hfs, Hex, Htr.
  repeat split; [assumption .. |].
  rewrite (stale_cached _ _ float_str_nonempty Hobj).
  fold cache. fold now_.
  destruct (cache_miss cache (timestamp now_)); [reflexivity |].
  destruct (getitem (cached_json cache) "servers"); reflexivity.
Qed.




(** The handler of [refresh]: it opens the error artifact for text and
    hands it the bytes of the body, so it raises [TypeError] with the
    artifact created and empty, or the [OSError] of the open. *)
Lemma handler_run (data : string) (e : exn) w :
  (writeJSONCache (Bytes data) JSON_ERRFILE ;;; raise (A := json) e) w
  = if writable JSON_ERRFILE
    then (Raise TypeError,
          log (EvCreate JSON_ERRFILE)
            (set_fs (<[JSON_ERRFILE := Regular EmptyString]> (fs w)) w))
    else (Raise OSError, w).
Proof.
  unfold writeJSONCache, bind, open_w. now destruct (writable JSON_ERRFILE).
Qed.


(** A 200 answer that does not parse. *)
Lemma refresh_unparsable now_ w data :
  http (exchanges w) JSON_LIST_URL = Response 200 (Body data) ->
  json_loads data = None ->
  refresh now_ w
  = if writable JSON_ERRFILE
    then (Raise TypeError,
          mkWorld (<[JSON_ERRFILE := Regular EmptyString]> (fs w)) (clock_reads w)
                  (draws w) (S (exchanges w)) (exchanges w :: conns w)
                  (trace w ++ [EvUrlopen JSON_LIST_URL; EvCreate JSON_ERRFILE]))
    else (Raise OSError,
          mkWorld (fs w) (clock_reads w) (draws w) (S (exchanges w))
                  (exchanges w :: conns w) (trace w ++ [EvUrlopen JSON_LIST_URL])).
Proof.
  intros Hhttp Hparse. unfold refresh, bind, urlopen. rewrite Hhttp.
  cbn [Nat.leb Nat.ltb andb Nat.eqb].
  unfold read, ret, try_except, bind, writeJSONCache, bind, open_w.
  rewrite Hparse. destruct (writable JSON_ERRFILE); [| reflexivity].
  unfold log, set_fs. cbn. now rewrite <- app_assoc.
Qed.


(** C9, what the code does. On a cache miss answered with status 200
    and a body that does not parse, [__init__] under Python 3 does not
    write the body and does not raise the parse failure.  Where the
    error artifact can be opened it is left created and empty and
    [TypeError] is raised; where it cannot, the [OSError] of the open
    is raised and no file is created.  The cache file is not touched
    either way. *)
Theorem unparsable_list_raises_TypeError (w : World) (data : string) :
  object_or_null (fs w !! JSON_FILENAME) ->
  cache_miss (fs w !! JSON_FILENAME) (timestamp (clock (clock_reads w))) = true ->
  http (exchanges w) JSON_LIST_URL = Response 200 (Body data) ->
  json_loads data = None ->
  exists w',
    fs w' !! JSON_FILENAME = fs w !! JSON_FILENAME
    /\ (writable JSON_ERRFILE = true ->
        IPgetter w = (Raise TypeError, w')
        /\ fs w' !! JSON_ERRFILE = Some (Regular EmptyString)
        /\ created (since w w') = [JSON_ERRFILE])
    /\ (writable JSON_ERRFILE = false ->
        IPgetter w = (Raise OSError, w')
        /\ fs w' !! JSON_ERRFILE = None
        /\ created (since w w') = []).
Proof.
  intros Hobj Hmiss Hhttp Hparse.
  destruct (IPgetter_run w Hobj) as (w1 & Hfs & Hex & Htr & Hrun).
  cbv zeta in Hrun. rewrite Hmiss in Hrun. rewrite <- Hex in Hhttp.
  rewrite (refresh_unparsable (clock (clock_reads w)) w1 data Hhttp Hparse) in Hrun.
  rewrite Hrun. clear Hrun.
  assert (Hkeep : fs w1 !! JSON_FILENAME = fs w !! JSON_FILENAME).
  { rewrite Hfs. apply lookup_delete_ne, errfile_is_not_cache. }
  assert (Hgone : fs w1 !! JSON_ERRFILE = None).
  { rewrite Hfs. apply lookup_delete_eq. }
  destruct (writable JSON_ERRFILE).
  - eexists. split; [| split].
    2:{ intros _. split; [reflexivity |]. split; [cbn [fs]; apply lookup_insert_eq |].
        unfold since. cbn [trace]. destruct Htr as [-> | ->].
        - now rewrite drop_app_length.
        - now rewrite <- app_assoc, drop_app_length. }
    + cbn [fs]. rewrite lookup_insert_ne by apply errfile_is_not_cache. exact Hkeep.
    + discriminate.
  - eexists. split; [| split].
    3:{ intros _. split; [reflexivity |]. split; [exact Hgone |].
        unfold since. cbn [trace]. destruct Htr as [-> | ->].
        - now rewrite drop_app_length.
        - now rewrite <- app_assoc, drop_app_length. }
    + exact Hkeep.
    + discriminate.
Qed.

End CatalogueRun.



(** C9, at one input: no cache, and the list URL answers 200 with a
    body that is not JSON. *)
Lemma unparsable_list_raises_TypeError_witness :
  exists w',
    @IPgetter (Demo.host (Demo.answers "<html>not json</html>") Demo.first_draw)
      (Demo.world ∅) = (Raise TypeError, w')
    /\ fs w' !! JSON_ERRFILE = Some (Regular EmptyString)
    /\ fs w' !! JSON_FILENAME = fs (Demo.world ∅) !! JSON_FILENAME
    /\ created (since (Demo.world ∅) w') = [JSON_ERRFILE].
Proof.
  assert (Hf : forall f, Demo.float_text f <> EmptyString).
  { intros f. unfold Demo.float_text.
    repeat destruct (PrimFloat.eqb f _); discriminate. }
  destruct (@unparsable_list_raises_TypeError
              (Demo.host (Demo.answers "<html>not json</html>") Demo.first_draw)
              Hf (Demo.world ∅) "<html>not json</html>"
              ltac:(vm_compute; exact I) ltac:(vm_compute; reflexivity)
              eq_refl eq_refl)
    as (w' & Hcache & Hwritable & _).
  destruct (Hwritable eq_refl) as (Hrun & Herr & Hcreated).
  exists w'. split; [exact Hrun |]. split; [exact Herr |].
  split; [exact Hcache | exact Hcreated].
Defined.

(* ===================================================================== *)
(** * The resolution loop *)
(* ===================================================================== *)

Section TraceFacts.

Lemma fetches_app a b : fetches (a ++ b) = fetches a + fetches b.
Proof.
  induction a as [|e a IH]; [reflexivity |].
  destruct e; simpl; now rewrite ?IH.
Qed.

Lemma try_lines_app a b : try_lines (a ++ b) = try_lines a ++ try_lines b.
Proof.
  induction a as [|e a IH]; [reflexivity |].
  destruct e as [[] | | | | | |]; simpl; now rewrite ?IH.
Qed.

Lemma last_fetch_app a b acc : last_fetch (a ++ b) acc = last_fetch b (last_fetch a acc).
Proof.
  revert acc. induction a as [|e a IH]; intros acc; [reflexivity |].
  destruct e; simpl; apply IH.
Qed.

Lemma quiet_fetches tr : Forall quiet tr -> fetches tr = 0.
Proof.
  induction 1 as [|e tr He _ IH]; [reflexivity |].
  change (e :: tr) with ([e] ++ tr). rewrite fetches_app, IH.
  destruct e; try contradiction; reflexivity.
Qed.

Lemma quiet_try_lines tr : Forall quiet tr -> try_lines tr = [].
Proof.
  induction 1 as [|e tr He _ IH]; [reflexivity |].
  destruct e as [[] | | | | | |]; try contradiction; exact IH.
Qed.

Lemma quiet_last_fetch tr acc : Forall quiet tr -> last_fetch tr acc = acc.
Proof.
  induction 1 as [|e tr He _ IH]; [reflexivity |].
  destruct e; try contradiction; exact IH.
Qed.

Lemma last_fetch_found tr s acc :
  last_fetch tr None = Some s -> last_fetch tr acc = Some s.
Proof.
  induction tr as [|e tr IH]; [discriminate |].
  destruct e; cbn; auto.
Qed.

End TraceFacts.

Section AttemptFacts.
Context `{Platform}.

Lemma choice_trace sl w : trace (snd (choice sl w)) = trace w.
Proof.
  unfold choice. destruct sl as [| | | | [|] | [|] | [|]]; reflexivity.
Qed.

(** One [fetch]: it returns, with a dotted quad or nothing, and logs
    its own entry followed at most by the closing of the response. *)
Lemma fetch_facts srv w :
  exists v tr,
    fst (fetch srv w) = Ok v
    /\ (v = EmptyString \/ dotted_quad v = true)
    /\ trace (snd (fetch srv w)) = trace w ++ EvFetch srv :: tr
    /\ Forall quiet tr.
Proof.
  rewrite fetch_run. cbv zeta.
  destruct (http (exchanges w) srv) as [|code rd].
  { exists EmptyString, []. repeat split; auto. }
  destruct (ok_status code).
  2:{ exists EmptyString, []. repeat split; auto. }
  eexists _, [EvClose (exchanges w)]. split; [reflexivity |]. split.
  - destruct rd as [|raw]; [now left |].
    destruct (Re.search ipv4_pattern (decode raw)) eqn:E; [| now left].
    right. apply search_first_ipv4 in E as (_ & _ & _ & Hv & _). exact Hv.
  - split; [cbn; now rewrite <- app_assoc |].
    repeat constructor.
Qed.

(** The seven-try loop: at most [n] fetches and no "Try" line; a record
    it returns after a fetch holds what the last fetch gave and the
    server it asked. *)
Lemma sample_facts n : forall sl r0 w,
  exists tr,
    trace (snd (sample n sl r0 w)) = trace w ++ tr
    /\ fetches tr <= n
    /\ try_lines tr = []
    /\ forall r, fst (sample n sl r0 w) = Ok r ->
         (r = r0 /\ n = 0 /\ tr = [])
         \/ exists a s, r = mkRecord (Some a) (Some s)
                        /\ (a = EmptyString \/ dotted_quad a = true)
                        /\ last_fetch tr None = Some s.
Proof.
  induction n as [|n IH]; intros sl r0 w.
  { exists []. cbn. rewrite app_nil_r. repeat split; auto.
    intros r [= <-]. left. auto. }
  cbn [sample]. unfold bind.
  pose proof (choice_trace sl w) as Hc.
  destruct (choice sl w) as [[srv | e] w1]; cbn [snd] in Hc.
  2:{ exists []. cbn. rewrite app_nil_r. repeat split; auto; [lia | discriminate]. }
  destruct (fetch_facts srv w1) as (v & tr1 & Hv & Hshape & Htr1 & Hq).
  destruct (fetch srv w1) as [rv w2]. cbn [fst snd] in Hv, Htr1. subst rv.
  destruct (Nat.ltb 0 (String.length v)) eqn:Hlen.
  - exists (EvFetch srv :: tr1). cbn [ret fst snd].
    rewrite Htr1, Hc. split; [reflexivity |].
    change (EvFetch srv :: tr1) with ([EvFetch srv] ++ tr1).
    rewrite fetches_app, try_lines_app, last_fetch_app,
      (quiet_fetches _ Hq), (quiet_try_lines _ Hq).
    change (fetches [EvFetch srv]) with 1.
    repeat split; [lia |].
    intros r [= <-]. right. exists v, srv. repeat split; [assumption |].
    now rewrite quiet_last_fetch.
  - destruct (IH sl (mkRecord (Some v) (Some srv)) w2) as (tr2 & Htr2 & Hf2 & Hl2 & Hr2).
    exists ((EvFetch srv :: tr1) ++ tr2).
    rewrite Htr2, Htr1, Hc. split; [now rewrite <- app_assoc |].
    change (EvFetch srv :: tr1) with ([EvFetch srv] ++ tr1).
    rewrite !fetches_app, !try_lines_app, !last_fetch_app,
      (quiet_fetches _ Hq), (quiet_try_lines _ Hq), Hl2.
    change (fetches [EvFetch srv]) with 1.
    repeat split; [lia |].
    intros r Hr. right.
    destruct (Hr2 r Hr) as [(-> & -> & ->) | (a & s & -> & Ha & Hlast)].
    + exists v, srv. repeat split; [assumption |].
      cbn. now rewrite quiet_last_fetch.
    + exists a, s. repeat split; [assumption |].
      rewrite (quiet_last_fetch tr1) by assumption.
      now apply last_fetch_found.
Qed.

End AttemptFacts.

Section ResolutionFacts.
Context `{Platform}.

Lemma refresh_quiet now_ w :
  exists tr, trace (snd (refresh now_ w)) = trace w ++ tr /\ Forall quiet tr.
Proof.
  unfold refresh, bind, urlopen.
  destruct (http (exchanges w) JSON_LIST_URL) as [|code rd].
  { eexists. split; [reflexivity |]. repeat constructor. }
  destruct (Nat.leb 200 code && Nat.ltb code 300).
  2:{ eexists. split; [reflexivity |]. repeat constructor. }
  destruct (Nat.eqb code 200).
  2:{ eexists. cbn. rewrite <- app_assoc. split; [reflexivity |]. repeat constructor. }
  destruct rd as [|data].
  { eexists. split; [reflexivity |]. repeat constructor. }
  unfold read, ret, try_except, bind, writeJSONCache, bind, open_w.
  destruct (json_loads data);
    destruct (writable JSON_FILENAME); destruct (writable JSON_ERRFILE);
    eexists; cbn; rewrite <- ?app_assoc; (split; [reflexivity |]); repeat constructor.
Qed.

(** Building the catalogue fetches from no echo server and prints no
    "Try" line. *)
Lemma IPgetter_quiet w :
  exists tr, trace (snd (IPgetter w)) = trace w ++ tr /\ Forall quiet tr.
Proof.
  unfold IPgetter, bind, now. rewrite load_cache_run.
  cbn [fs clock_reads draws exchanges conns trace].
  destruct (remove_errfile_run
              (mkWorld (fs w) (S (clock_reads w)) (draws w) (exchanges w)
                       (conns w) (trace w)))
    as (w1 & Hrm & _ & _ & _ & _ & _ & Htr).
  rewrite Hrm. cbn [trace] in Htr.
  assert (Hw1 : exists tr1, trace w1 = trace w ++ tr1 /\ Forall quiet tr1).
  { destruct Htr as [-> | ->].
    - exists []. rewrite app_nil_r. split; [reflexivity | constructor].
    - eexists. split; [reflexivity |]. repeat constructor. }
  destruct Hw1 as (tr1 & Htr1 & Hq1).
  destruct (stale _ _) as [[|]|e].
  - destruct (refresh_quiet (clock (clock_reads w)) w1) as (tr2 & Htr2 & Hq2).
    exists (tr1 ++ tr2). rewrite Htr2, Htr1, <- app_assoc.
    split; [reflexivity | now apply Forall_app].
  - exists tr1. destruct (getitem _ _); cbn; auto.
  - exists tr1. cbn. auto.
Qed.

(** One attempt: at most seven fetches and no "Try" line; the record
    it returns holds a dotted quad or the empty string, and the server
    fetched last. *)
Lemma myipAndSource_facts w :
  exists tr,
    trace (snd (myipAndSource w)) = trace w ++ tr
    /\ fetches tr <= 7
    /\ try_lines tr = []
    /\ forall r, fst (myipAndSource w) = Ok r ->
         exists a s, r = mkRecord (Some a) (Some s)
                     /\ (a = EmptyString \/ dotted_quad a = true)
                     /\ last_fetch tr None = Some s.
Proof.
  unfold myipAndSource, bind.
  destruct (IPgetter_quiet w) as (tr1 & Htr1 & Hq1).
  destruct (IPgetter w) as [[sl | e] w1]; cbn [snd] in Htr1.
  2:{ exists tr1. cbn [fst snd].
      rewrite (quiet_fetches _ Hq1), (quiet_try_lines _ Hq1).
      repeat split; [assumption | lia | discriminate]. }
  unfold get_externalip_and_source.
  destruct (sample_facts 7 sl (mkRecord None None) w1) as (tr2 & Htr2 & Hf2 & Hl2 & Hr2).
  exists (tr1 ++ tr2). rewrite Htr2, Htr1, <- app_assoc.
  rewrite fetches_app, try_lines_app, last_fetch_app,
    (quiet_fetches _ Hq1), (quiet_try_lines _ Hq1), (quiet_last_fetch _ _ Hq1), Hl2.
  repeat split; [assumption |].
  intros r Hr. destruct (Hr2 r Hr) as [(_ & Hn & _) | Hok]; [discriminate | exact Hok].
Qed.

Lemma last_cons {A} (x : A) (l : list A) :
  last (x :: l) = match last l with Some y => Some y | None => Some x end.
Proof. destruct l as [|y l]; [reflexivity |]. cbn. destruct (last (y :: l)) eqn:E; [reflexivity |].
  apply last_None in E. discriminate. Qed.

Lemma is_good_true v : is_good v = true <-> v = Good.
Proof. destruct v; split; intros Hv; try discriminate Hv; reflexivity. Qed.

Lemma is_good_false v : is_good v = false <-> v <> Good.
Proof.
  destruct v; split; intros Hv; try discriminate; try reflexivity.
  now contradiction Hv.
Qed.

(** One round, spelled out. *)
Lemma rounds_step bl n counter theIP w :
  rounds (S n) counter bl theIP w =
  match myipAndSource w with
  | (Raise e, w1) => (Raise e, w1)
  | (Ok r, w1) =>
      match ip r with
      | None => (Raise TypeError, w1)
      | Some a =>
          match classify bl a with
          | Raise e => (Raise e, w1)
          | Ok v =>
              let w2 := log (EvPrint (OutTry (counter + 1) v (Some a))) w1 in
              if is_good v then (Ok (Some r), w2)
              else rounds n (S counter) bl (Some r) w2
          end
      end
  end.
Proof.
  cbn [rounds]. unfold bind. destruct (myipAndSource w) as [[r | e] w1]; [| reflexivity].
  destruct (ip r) as [a|]; [| reflexivity].
  unfold print. destruct (classify bl a) as [[]|]; reflexivity.
Qed.

(** The lines of addresses that hold no NUL character. *)
Lemma numbered_cons c bl a rest :
  Py.mem NUL a = false ->
  numbered c bl (a :: rest) = (c, verdict_of bl a, Some a) :: numbered (S c) bl rest.
Proof. intros Ha. cbn [numbered]. now rewrite (classify_plain _ _ Ha). Qed.

(** The rounds of [getipAndSource]: one attempt and one "Try" line per
    round, the rounds before the last all refused, and the loop left at
    the first address that is good. *)
Lemma rounds_facts bl n : forall counter theIP w,
  exists tr addrs,
    trace (snd (rounds n counter bl theIP w)) = trace w ++ tr
    /\ try_lines tr = numbered (counter + 1) bl addrs
    /\ Forall (fun a => Py.mem NUL a = false) addrs
    /\ length addrs <= n
    /\ fetches tr <= 7 * n
    /\ Forall (fun a => verdict_of bl a <> Good) (removelast addrs)
    /\ forall res, fst (rounds n counter bl theIP w) = Ok res ->
         match last addrs with
         | None => res = theIP /\ n = 0 /\ tr = []
         | Some a =>
             exists s, res = Some (mkRecord (Some a) (Some s))
               /\ (a = EmptyString \/ dotted_quad a = true)
               /\ last_fetch tr None = Some s
               /\ (verdict_of bl a = Good ->
                   last tr = Some (EvPrint (OutTry (counter + length addrs) Good (Some a))))
               /\ (verdict_of bl a <> Good -> length addrs = n)
         end.
Proof.
  induction n as [|n IH]; intros counter theIP w.
  { exists [], []. cbn. rewrite app_nil_r.
    split; [reflexivity |]. split; [reflexivity |]. split; [constructor |].
    split; [lia |]. split; [lia |]. split; [constructor |].
    intros res [= <-]. auto. }
  rewrite rounds_step.
  destruct (myipAndSource_facts w) as (tr1 & Htr1 & Hf1 & Hl1 & Hr1).
  destruct (myipAndSource w) as [[r | e] w1]; cbn [fst snd] in Htr1, Hr1.
  2:{ exists tr1, []. cbn [fst snd numbered length removelast].
      split; [assumption |]. split; [assumption |]. split; [constructor |].
      split; [lia |]. split; [lia |]. split; [constructor | discriminate]. }
  destruct (Hr1 r eq_refl) as (a & s & -> & Ha & Hlast). cbn [ip].
  pose proof (resolved_plain a Ha) as Hplain.
  rewrite (classify_plain bl a Hplain). cbv zeta.
  set (line := EvPrint (OutTry (counter + 1) (verdict_of bl a) (Some a))).
  destruct (is_good (verdict_of bl a)) eqn:Hv.
  - apply is_good_true in Hv.
    exists (tr1 ++ [line]), [a]. cbn [log trace fst snd]. rewrite Htr1, <- app_assoc.
    rewrite try_lines_app, fetches_app, last_fetch_app, Hl1, Hlast.
    rewrite (numbered_cons _ _ _ _ Hplain).
    cbn [numbered length removelast last]. subst line.
    split; [reflexivity |]. split; [reflexivity |].
    split; [now repeat constructor |]. split; [lia |].
    split; [cbn; lia |]. split; [constructor |].
    intros res [= <-]. exists s.
    split; [reflexivity |]. split; [assumption |]. split; [reflexivity |].
    split; [| intros Hn; contradiction].
    intros _. rewrite last_snoc, Hv. reflexivity.
  - apply is_good_false in Hv.
    destruct (IH (S counter) (Some (mkRecord (Some a) (Some s))) (log line w1))
      as (tr2 & addrs2 & Htr2 & Hl2 & Hplain2 & Hlen2 & Hf2 & Hall2 & Hres2).
    exists (tr1 ++ [line] ++ tr2), (a :: addrs2).
    rewrite Htr2. cbn [log trace]. rewrite Htr1, <- !app_assoc.
    rewrite !try_lines_app, !fetches_app, Hl1, Hl2.
    split; [reflexivity |].
    split; [subst line; now rewrite (numbered_cons _ _ _ _ Hplain) |].
    split; [now constructor |].
    split; [cbn; lia |].
    split; [subst line; cbn [fetches]; lia |].
    split.
    { destruct addrs2; [constructor |].
      apply Forall_cons; split; [exact Hv | exact Hall2]. }
    intros res Hres. specialize (Hres2 res Hres). rewrite last_cons.
    destruct (last addrs2) as [a'|] eqn:Hlast2.
    + destruct Hres2 as (s' & -> & Ha' & Hlf & Hg & Hb).
      exists s'. split; [reflexivity |]. split; [assumption |].
      split; [rewrite !last_fetch_app; now apply last_fetch_found |].
      split.
      * intros Hg'. specialize (Hg Hg').
        destruct tr2 as [|e tr2]; [discriminate Hg |].
        rewrite !app_assoc, last_app, Hg. do 3 f_equal. cbn. lia.
      * intros Hb'. cbn. now rewrite (Hb Hb').
    + destruct Hres2 as (-> & -> & ->).
      apply last_None in Hlast2. subst addrs2.
      exists s. split; [reflexivity |]. split; [assumption |].
      split; [now rewrite !last_fetch_app, Hlast |].
      split; [intros Hg'; contradiction | reflexivity].
Qed.

End ResolutionFacts.

Section ResolutionClaims.
Context `{Platform}.

Lemma Forall_removelast {A} (P : A -> Prop) (l : list A) :
  Forall P l -> Forall P (removelast l).
Proof.
  induction 1 as [|x l Hx Hl IH]; [constructor |].
  destruct l as [|y l]; [constructor |].
  change (removelast (x :: y :: l)) with (x :: removelast (y :: l)).
  now constructor.
Qed.

Lemma numbered_length c bl addrs :
  Forall (fun a => Py.mem NUL a = false) addrs ->
  length (numbered c bl addrs) = length addrs.
Proof.
  intros Hp. revert c. induction Hp as [|a l Ha _ IH]; intros c; [reflexivity |].
  rewrite (numbered_cons _ _ _ _ Ha). cbn. now rewrite IH.
Qed.

Lemma numbered_last c bl addrs a :
  Forall (fun a => Py.mem NUL a = false) addrs ->
  last addrs = Some a ->
  last (numbered c bl addrs) = Some (c + length addrs - 1, verdict_of bl a, Some a).
Proof.
  intros Hp. revert c. induction Hp as [|x l Hx Hp IH]; intros c Hl; [discriminate |].
  rewrite last_cons in Hl. rewrite (numbered_cons _ _ _ _ Hx). rewrite last_cons.
  destruct (last l) as [y|] eqn:E.
  - injection Hl as ->. rewrite (IH (S c) eq_refl). do 3 f_equal. cbn. lia.
  - injection Hl as ->. apply last_None in E. subst l. cbn. do 3 f_equal. lia.
Qed.

(** What a run of [getipAndSource] amounts to. *)
Lemma getipAndSource_facts (N : Z) bl w :
  exists tr addrs,
    trace (snd (getipAndSource N bl w)) = trace w ++ tr
    /\ try_lines tr = numbered 1 bl addrs
    /\ Forall (fun a => Py.mem NUL a = false) addrs
    /\ length addrs <= Z.to_nat N
    /\ fetches tr <= 7 * Z.to_nat N
    /\ Forall (fun a => verdict_of bl a <> Good) (removelast addrs)
    /\ forall r, fst (getipAndSource N bl w) = Ok r ->
         exists a s,
           r = mkRecord (Some a) (Some s)
           /\ last addrs = Some a
           /\ (a = EmptyString \/ dotted_quad a = true)
           /\ last_fetch tr None = Some s
           /\ (verdict_of bl a = Good ->
               last tr = Some (EvPrint (OutTry (length addrs) Good (Some a))))
           /\ (verdict_of bl a <> Good -> length addrs = Z.to_nat N).
Proof.
  unfold getipAndSource, bind.
  destruct (rounds_facts bl (Z.to_nat N) 0 None w)
    as (tr & addrs & Htr & Hl & Hplain & Hlen & Hf & Hall & Hres).
  exists tr, addrs.
  destruct (rounds (Z.to_nat N) 0 bl None w) as [[[r0|] | e] w1];
    cbn [fst snd ret raise] in *.
  - repeat (split; [assumption |]).
    intros r [= <-]. specialize (Hres _ eq_refl).
    destruct (last addrs) as [a|].
    + destruct Hres as (s & [= ->] & Ha & Hlf & Hg & Hb).
      exists a, s. repeat (split; [solve [auto] |]). exact Hb.
    + destruct Hres as (Hr & _). discriminate.
  - repeat (split; [assumption |]). discriminate.
  - repeat (split; [assumption |]). discriminate.
Qed.

(** C1 (as amended). For every tryCount N and every blacklist,
    [getipAndSource] makes at most N attempts, one "Try" line each, and
    so enters [fetch] at most 7*N times: an attempt asks up to seven
    servers while the answer is empty.  Every address tried earns its
    verdict (the validation never raises on what [fetch] returns).
    Every attempt before the last was refused, and when the last one
    is good the run ends with its line: the first valid,
    non-blacklisted address is returned at once. *)
Theorem resolution_is_bounded (N : Z) (bl : list string) (w : World) :
  exists addrs,
    try_lines (since w (snd (getipAndSource N bl w))) = numbered 1 bl addrs
    /\ Forall (fun a => exists v, classify bl a = Ok v) addrs
    /\ length addrs <= Z.to_nat N
    /\ fetches (since w (snd (getipAndSource N bl w))) <= 7 * Z.to_nat N
    /\ Forall (fun a => classify bl a <> Ok Good) (removelast addrs)
    /\ forall r, fst (getipAndSource N bl w) = Ok r ->
         exists a,
           ip r = Some a /\ last addrs = Some a
           /\ (classify bl a = Ok Good ->
               last (since w (snd (getipAndSource N bl w)))
               = Some (EvPrint (OutTry (length addrs) Good (Some a))))
           /\ (classify bl a <> Ok Good -> length addrs = Z.to_nat N).
Proof.
  destruct (getipAndSource_facts N bl w)
    as (tr & addrs & Htr & Hl & Hplain & Hlen & Hf & Hall & Hres).
  rewrite (since_app _ _ _ Htr). exists addrs.
  split; [assumption |].
  split.
  { eapply Forall_impl; [exact Hplain |]. intros a Ha.
    exists (verdict_of bl a). now apply classify_plain. }
  split; [assumption |]. split; [assumption |].
  split.
  { pose proof (Forall_removelast _ _ Hplain) as Hp.
    clear - Hp Hall. induction Hp as [|a l Ha Hp IH]; [constructor |].
    apply Forall_cons in Hall as [Hv Hall].
    constructor; [| now apply IH].
    rewrite (classify_plain bl a Ha). intros [= Hg]. now apply Hv. }
  intros r Hr. destruct (Hres r Hr) as (a & s & -> & Hlast & Hshape & _ & Hg & Hb).
  exists a. rewrite (classify_plain bl a (resolved_plain a Hshape)).
  split; [reflexivity |]. split; [assumption |].
  split; [intros [= Hv]; auto | intros Hv; apply Hb; congruence].
Qed.

(** C1 as first stated fails: with one server in the pool, the network
    down and tryCount 1, [fetch] is entered seven times. *)
Lemma seven_fetches_in_one_try :
  fst (@IPgetter (Demo.host Demo.down Demo.first_draw) Demo.cached)
    = Ok (JList [Demo.server_a])
  /\ fetches (since Demo.cached
       (snd (@getipAndSource (Demo.host Demo.down Demo.first_draw) 1 [] Demo.cached)))
     = 7.
Proof. split; vm_compute; reflexivity. Qed.

(** C6. When a run with a positive tryCount N returns and none of its
    attempts was good, all N attempts were made, and the record
    returned is the one of the N-th attempt as it stands: the address
    on the last "Try" line, malformed or blacklisted, with the server
    fetched last. *)
Theorem exhausted_returns_last (N : Z) (bl : list string) (w : World) (r : record) :
  (0 < N)%Z ->
  fst (getipAndSource N bl w) = Ok r ->
  Forall (fun l => snd (fst l) <> Good)
         (try_lines (since w (snd (getipAndSource N bl w)))) ->
  length (try_lines (since w (snd (getipAndSource N bl w)))) = Z.to_nat N
  /\ exists a v,
       ip r = Some a
       /\ classify bl a = Ok v
       /\ v <> Good
       /\ last (try_lines (since w (snd (getipAndSource N bl w))))
          = Some (Z.to_nat N, v, Some a)
       /\ server r = last_fetch (since w (snd (getipAndSource N bl w))) None.
Proof.
  intros _ Hr Hbad.
  destruct (getipAndSource_facts N bl w)
    as (tr & addrs & Htr & Hl & Hplain & Hlen & Hf & Hall & Hres).
  rewrite (since_app _ _ _ Htr) in *.
  destruct (Hres r Hr) as (a & s & -> & Hlast & Hshape & Hlf & _ & Hb).
  pose proof (numbered_last 1 bl addrs a Hplain Hlast) as Hline.
  assert (Hv : verdict_of bl a <> Good).
  { rewrite Hl in Hbad. apply last_Some_elem_of in Hline.
    rewrite Forall_forall in Hbad. exact (Hbad _ Hline). }
  specialize (Hb Hv).
  rewrite Hl, (numbered_length _ _ _ Hplain), Hline, Hb. split; [reflexivity |].
  exists a, (verdict_of bl a).
  split; [reflexivity |].
  split; [apply classify_plain, resolved_plain, Hshape |].
  split; [assumption |]. split; [| now rewrite Hlf].
  do 3 f_equal. lia.
Qed.

(** C2, what the code does. With an empty pool the first attempt of a
    run raises [IndexError] out of [random.choice], and nothing catches
    it. *)
Theorem empty_pool_raises_IndexError (N : Z) (bl : list string) (w w1 : World) :
  (0 < N)%Z ->
  IPgetter w = (Ok (JList []), w1) ->
  getipAndSource N bl w = (Raise IndexError, w1).
Proof.
  intros HN Hinit. unfold getipAndSource, bind.
  destruct (Z.to_nat N) as [|n] eqn:E; [lia |].
  rewrite rounds_step. unfold myipAndSource, bind. rewrite Hinit. reflexivity.
Qed.

End ResolutionClaims.

(** C6, at one input: the only address the servers report is
    blacklisted, and three tries are allowed. *)
Lemma exhausted_returns_last_witness :
  length (try_lines (since Demo.cached
           (snd (@getipAndSource (Demo.host (Demo.answers "Your IP is 1.2.3.4") Demo.first_draw)
                   3 ["1.2.3.4"] Demo.cached)))) = 3
  /\ exists a v,
       Some "1.2.3.4" = Some a
       /\ @classify (Demo.host (Demo.answers "Your IP is 1.2.3.4") Demo.first_draw)
            ["1.2.3.4"] a = Ok v
       /\ v <> Good
       /\ last (try_lines (since Demo.cached
                 (snd (@getipAndSource (Demo.host (Demo.answers "Your IP is 1.2.3.4") Demo.first_draw)
                         3 ["1.2.3.4"] Demo.cached))))
          = Some (3, v, Some a)
       /\ Some Demo.server_a
          = last_fetch (since Demo.cached
              (snd (@getipAndSource (Demo.host (Demo.answers "Your IP is 1.2.3.4") Demo.first_draw)
                      3 ["1.2.3.4"] Demo.cached))) None.
Proof.
  apply (@exhausted_returns_last
           (Demo.host (Demo.answers "Your IP is 1.2.3.4") Demo.first_draw)
           3 ["1.2.3.4"] Demo.cached
           (mkRecord (Some "1.2.3.4") (Some Demo.server_a))).
  - reflexivity.
  - vm_compute. reflexivity.
  - vm_compute. repeat constructor; discriminate.
Defined.

(** C2, at one input: no cache, and the list URL answers 204. *)
Lemma empty_pool_raises_IndexError_witness :
  exists w1,
    @IPgetter (Demo.host (fun _ _ => Response 204 (Body EmptyString)) Demo.first_draw)
      (Demo.world ∅) = (Ok (JList []), w1)
    /\ @getipAndSource (Demo.host (fun _ _ => Response 204 (Body EmptyString)) Demo.first_draw)
         3 [] (Demo.world ∅) = (Raise IndexError, w1).
Proof.
  eexists. split; [vm_compute; reflexivity |].
  apply (@empty_pool_raises_IndexError
           (Demo.host (fun _ _ => Response 204 (Body EmptyString)) Demo.first_draw)
           3 [] (Demo.world ∅)); [reflexivity | vm_compute; reflexivity].
Defined.

(* ===================================================================== *)
(** * What resolution leaves alone *)
(* ===================================================================== *)

Section ResolutionFrame.
Context `{Platform}.

Lemma fetch_fs srv w : fs (snd (fetch srv w)) = fs w.
Proof.
  rewrite fetch_run. cbv zeta.
  destruct (http (exchanges w) srv) as [|code rd]; [reflexivity |].
  destruct (ok_status code); reflexivity.
Qed.

Lemma choice_fs sl w : fs (snd (choice sl w)) = fs w.
Proof.
  unfold choice. destruct sl as [| | | | [|] | [|] | [|]]; reflexivity.
Qed.

Lemma sample_fs n : forall sl r0 w, fs (snd (sample n sl r0 w)) = fs w.
Proof.
  induction n as [|n IH]; intros sl r0 w; [reflexivity |].
  cbn [sample]. unfold bind.
  pose proof (choice_fs sl w) as Hc.
  destruct (choice sl w) as [[srv | e] w1]; cbn [snd] in Hc; [| exact Hc].
  pose proof (fetch_fs srv w1) as Hf.
  destruct (fetch srv w1) as [[v | e] w2]; cbn [snd] in Hf;
    [| cbn [snd]; congruence].
  destruct (Nat.ltb 0 (String.length v)); [cbn [ret snd]; congruence |].
  rewrite IH. congruence.
Qed.

Lemma refresh_fs now_ w p :
  p <> JSON_FILENAME -> p <> JSON_ERRFILE ->
  fs (snd (refresh now_ w)) !! p = fs w !! p.
Proof.
  intros Hc He. unfold refresh, bind, urlopen.
  destruct (http (exchanges w) JSON_LIST_URL) as [|code rd]; [reflexivity |].
  destruct (Nat.leb 200 code && Nat.ltb code 300); [| reflexivity].
  destruct (Nat.eqb code 200); [| reflexivity].
  destruct rd as [|data]; [reflexivity |].
  unfold read, ret, try_except, bind, writeJSONCache, bind, open_w.
  destruct (json_loads data);
    destruct (writable JSON_FILENAME); destruct (writable JSON_ERRFILE); cbn;
    rewrite ?lookup_insert_ne by congruence; reflexivity.
Qed.

Lemma IPgetter_fs w p :
  p <> JSON_FILENAME -> p <> JSON_ERRFILE ->
  fs (snd (IPgetter w)) !! p = fs w !! p.
Proof.
  intros Hc He. unfold IPgetter, bind, now. rewrite load_cache_run.
  cbn [fs clock_reads draws exchanges conns trace].
  destruct (remove_errfile_run
              (mkWorld (fs w) (S (clock_reads w)) (draws w) (exchanges w)
                       (conns w) (trace w)))
    as (w1 & Hrm & Hfs & _).
  rewrite Hrm. cbn [fs] in Hfs.
  assert (Hw1 : fs w1 !! p = fs w !! p).
  { rewrite Hfs. apply lookup_delete_ne. congruence. }
  destruct (stale _ _) as [[|]|e].
  - rewrite refresh_fs by assumption. exact Hw1.
  - destruct (getitem _ _); exact Hw1.
  - exact Hw1.
Qed.

Lemma myipAndSource_fs w p :
  p <> JSON_FILENAME -> p <> JSON_ERRFILE ->
  fs (snd (myipAndSource w)) !! p = fs w !! p.
Proof.
  intros Hc He. unfold myipAndSource, bind.
  pose proof (IPgetter_fs w p Hc He) as Hi.
  destruct (IPgetter w) as [[sl | e] w1]; cbn [snd] in Hi; [| exact Hi].
  unfold get_externalip_and_source. rewrite sample_fs. exact Hi.
Qed.

Lemma rounds_fs bl n p : forall counter theIP w,
  p <> JSON_FILENAME -> p <> JSON_ERRFILE ->
  fs (snd (rounds n counter bl theIP w)) !! p = fs w !! p.
Proof.
  induction n as [|n IH]; intros counter theIP w Hc He; [reflexivity |].
  rewrite rounds_step.
  pose proof (myipAndSource_fs w p Hc He) as Hm.
  destruct (myipAndSource w) as [[r | e] w1]; cbn [snd] in Hm; [| exact Hm].
  destruct (ip r) as [a|]; [| exact Hm].
  destruct (classify bl a) as [v|e]; [| exact Hm]. cbv zeta.
  destruct (is_good v); [exact Hm |].
  rewrite IH by assumption. exact Hm.
Qed.

(** Resolution writes to the two catalogue files only. *)
Lemma getipAndSource_fs (N : Z) bl w p :
  p <> JSON_FILENAME -> p <> JSON_ERRFILE ->
  fs (snd (getipAndSource N bl w)) !! p = fs w !! p.
Proof.
  intros Hc He. unfold getipAndSource, bind.
  pose proof (rounds_fs bl (Z.to_nat N) p 0 None w Hc He) as Hr.
  destruct (rounds (Z.to_nat N) 0 bl None w) as [[[r|]|e] w1]; exact Hr.
Qed.

(** A path that cannot be opened for writing and holds no file holds
    none after [refresh] either. *)
Lemma refresh_unwritable_path now_ w p :
  writable p = false -> fs w !! p = None ->
  fs (snd (refresh now_ w)) !! p = None.
Proof.
  intros Hw Hnone. unfold refresh, bind, urlopen.
  destruct (http (exchanges w) JSON_LIST_URL) as [|code rd]; [exact Hnone |].
  destruct (Nat.leb 200 code && Nat.ltb code 300); [| exact Hnone].
  destruct (Nat.eqb code 200); [| exact Hnone].
  destruct rd as [|data]; [exact Hnone |].
  unfold read, ret, try_except, bind, writeJSONCache, bind, open_w.
  destruct (json_loads data);
    destruct (writable JSON_FILENAME) eqn:Hc;
    destruct (writable JSON_ERRFILE) eqn:He; cbn;
    rewrite ?lookup_insert_ne by (intros <-; congruence); exact Hnone.
Qed.

Lemma IPgetter_unwritable_path w p :
  writable p = false -> fs w !! p = None ->
  fs (snd (IPgetter w)) !! p = None.
Proof.
  intros Hw Hnone. unfold IPgetter, bind, now. rewrite load_cache_run.
  cbn [fs clock_reads draws exchanges conns trace].
  destruct (remove_errfile_run
              (mkWorld (fs w) (S (clock_reads w)) (draws w) (exchanges w)
                       (conns w) (trace w)))
    as (w1 & Hrm & Hfs & _).
  rewrite Hrm. cbn [fs] in Hfs.
  assert (Hw1 : fs w1 !! p = None).
  { rewrite Hfs. destruct (decide (p = JSON_ERRFILE)) as [-> | Hne].
    - apply lookup_delete_eq.
    - rewrite lookup_delete_ne by congruence. exact Hnone. }
  destruct (stale _ _) as [[|]|e].
  - now apply refresh_unwritable_path.
  - destruct (getitem _ _); exact Hw1.
  - exact Hw1.
Qed.

Lemma myipAndSource_unwritable_path w p :
  writable p = false -> fs w !! p = None ->
  fs (snd (myipAndSource w)) !! p = None.
Proof.
  intros Hw Hnone. unfold myipAndSource, bind.
  pose proof (IPgetter_unwritable_path w p Hw Hnone) as Hi.
  destruct (IPgetter w) as [[sl | e] w1]; cbn [snd] in Hi; [| exact Hi].
  unfold get_externalip_and_source. rewrite sample_fs. exact Hi.
Qed.

Lemma rounds_unwritable_path bl n p : forall counter theIP w,
  writable p = false -> fs w !! p = None ->
  fs (snd (rounds n counter bl theIP w)) !! p = None.
Proof.
  induction n as [|n IH]; intros counter theIP w Hw Hnone; [exact Hnone |].
  rewrite rounds_step.
  pose proof (myipAndSource_unwritable_path w p Hw Hnone) as Hm.
  destruct (myipAndSource w) as [[r | e] w1]; cbn [snd] in Hm; [| exact Hm].
  destruct (ip r) as [a|]; [| exact Hm].
  destruct (classify bl a) as [v|e]; [| exact Hm]. cbv zeta.
  destruct (is_good v); [exact Hm |].
  apply IH; assumption.
Qed.

(** Resolution creates no file where none can be opened for writing. *)
Lemma getipAndSource_unwritable_path (N : Z) bl w p :
  writable p = false -> fs w !! p = None ->
  fs (snd (getipAndSource N bl w)) !! p = None.
Proof.
  intros Hw Hnone. unfold getipAndSource, bind.
  pose proof (rounds_unwritable_path bl (Z.to_nat N) p 0 None w Hw Hnone) as Hr.
  destruct (rounds (Z.to_nat N) 0 bl None w) as [[[r|]|e] w1]; exact Hr.
Qed.

End ResolutionFrame.

(* ===================================================================== *)
(** * Change detection *)
(* ===================================================================== *)

Section ChangeFacts.
Context `{Platform}.

Lemma getoldip_reads_only path w : snd (getoldip path w) = w.
Proof.
  unfold getoldip, bind, isfile, read_text.
  destruct (bool_decide (is_Some (fs w !! path))); [| reflexivity].
  destruct (fs w !! path) as [[|text]|]; try reflexivity.
  destruct (Py.split "," (Py.strip (Py.universal_newlines text))); [reflexivity |].
  destruct (is_valid_ip s) as [[]|]; reflexivity.
Qed.

Lemma recipients_ok (names : list string) : forall (emails : list string) ix,
  ix + length emails <= length names ->
  exists to, recipients names emails ix = Ok to.
Proof.
  induction emails as [|addr rest IH]; intros ix Hlen.
  { now exists []. }
  cbn [recipients]. cbn [length] in Hlen.
  destruct (nth_error names ix) as [name|] eqn:E.
  - destruct (IH (S ix)) as (to & ->); [lia |]. cbn. eauto.
  - apply nth_error_None in E. lia.
Qed.

Lemma sendmail_run oldip newip config w :
  length (receiver config) = length (receiver_email config) ->
  sendmail oldip newip config w
  = (Ok tt, log (EvPrint (OutText (Py.join CRLF (messageBody oldip newip config)))) w).
Proof.
  intros Hlen. unfold sendmail.
  destruct (recipients_ok (receiver config) (receiver_email config) 0) as (to & ->);
    [lia | reflexivity].
Qed.

(** The text that [sendmail] prints. *)
Lemma messageBody_text oldip newip config :
  Py.join CRLF (messageBody oldip newip config)
  = notification (machine config) oldip newip.
Proof.
  unfold messageBody, appendInfo, notification. cbn [app Py.join].
  now rewrite !app_assoc_s, ?app_nil_l.
Qed.

(** Both records are in the notification, field by field. *)
Lemma notification_fields machine oldip newip field :
  In field [Py.str (ip oldip); Py.str (server oldip);
            Py.str (ip newip); Py.str (server newip)] ->
  occurs field (notification machine oldip newip).
Proof.
  unfold notification, occurs.
  set (head := "The IP address of " +:+ dquote +:+ machine +:+ dquote
               +:+ " has changed:" +:+ CRLF +:+ CRLF +:+ "Old IP" +:+ CRLF
               +:+ "  IP Address  : ").
  set (old_source := CRLF +:+ "  Info Source : ").
  set (new_address := CRLF +:+ "New IP" +:+ CRLF +:+ "  IP Address  : ").
  intros [<- | [<- | [<- | [<- | []]]]].
  - exists head,
      (old_source +:+ Py.str (server oldip) +:+ new_address +:+ Py.str (ip newip)
       +:+ old_source +:+ Py.str (server newip)).
    subst head old_source new_address. now rewrite !app_assoc_s.
  - exists (head +:+ Py.str (ip oldip) +:+ old_source),
      (new_address +:+ Py.str (ip newip) +:+ old_source +:+ Py.str (server newip)).
    subst head old_source new_address. now rewrite !app_assoc_s.
  - exists (head +:+ Py.str (ip oldip) +:+ old_source +:+ Py.str (server oldip)
            +:+ new_address),
      (old_source +:+ Py.str (server newip)).
    subst head old_source new_address. now rewrite !app_assoc_s.
  - exists (head +:+ Py.str (ip oldip) +:+ old_source +:+ Py.str (server oldip)
            +:+ new_address +:+ Py.str (ip newip) +:+ old_source),
      EmptyString.
    subst head old_source new_address. now rewrite app_empty_r, !app_assoc_s.
Qed.

(** The two branches of [doTheWork], after the old record is loaded
    and the current one resolved. *)
Lemma doTheWork_run config w oldip currip w1 :
  fst (getoldip (save_ip_path config) w) = Ok oldip ->
  getipAndSource (try_count config) (ip_blacklist config) w = (Ok currip, w1) ->
  doTheWork config w =
  if bool_decide (ip currip = ip oldip)
  then print (OutText "Current IP = Old IP.  No need to send email.") w1
  else (print (OutText "Current IP differs from old IP.") ;;;
        sendmail oldip currip config ;;;
        updateoldip (save_ip_path config) currip) w1.
Proof.
  intros Hold Hcur. unfold doTheWork. unfold bind at 1.
  pose proof (getoldip_reads_only (save_ip_path config) w) as Hw.
  destruct (getoldip (save_ip_path config) w) as [r0 w0].
  cbn [fst snd] in Hold, Hw. subst r0 w0.
  unfold bind at 1. rewrite Hcur.
  destruct (bool_decide (ip currip = ip oldip)); reflexivity.
Qed.

Lemma resolved_record (N : Z) bl w r :
  fst (getipAndSource N bl w) = Ok r ->
  exists a s, r = mkRecord (Some a) (Some s)
              /\ (a = EmptyString \/ dotted_quad a = true).
Proof.
  intros Hr. destruct (getipAndSource_facts N bl w) as (tr & addrs & _ & _ & _ & _ & _ & _ & Hres).
  destruct (Hres r Hr) as (a & s & -> & _ & Ha & _). eauto.
Qed.

Lemma doTheWork_unchanged config w w1 oldip currip :
  fst (getoldip (save_ip_path config) w) = Ok oldip ->
  getipAndSource (try_count config) (ip_blacklist config) w = (Ok currip, w1) ->
  ip currip = ip oldip ->
  doTheWork config w
  = (Ok tt, log (EvPrint (OutText "Current IP = Old IP.  No need to send email.")) w1).
Proof.
  intros Hold Hcur Heq. rewrite (doTheWork_run _ _ _ _ _ Hold Hcur).
  now rewrite bool_decide_eq_true_2.
Qed.

(** The changed branch: both prints are made before the state file is
    opened, so they are there whether or not it can be. *)
Lemma doTheWork_changed config w w1 oldip a s :
  length (receiver config) = length (receiver_email config) ->
  fst (getoldip (save_ip_path config) w) = Ok oldip ->
  getipAndSource (try_count config) (ip_blacklist config) w
  = (Ok (mkRecord (Some a) (Some s)), w1) ->
  Some a <> ip oldip ->
  exists w2,
    trace w2
    = trace w1 ++
      [EvPrint (OutText "Current IP differs from old IP.");
       EvPrint (OutText (notification (machine config) oldip
                           (mkRecord (Some a) (Some s))))]
    /\ fs w2 = fs w1
    /\ doTheWork config w
       = if writable (save_ip_path config)
         then (Ok tt,
               log (EvWrite (save_ip_path config) (a +:+ "," +:+ s))
                 (set_fs (<[save_ip_path config := Regular (a +:+ "," +:+ s)]> (fs w2))
                    (log (EvCreate (save_ip_path config)) w2)))
         else (Raise OSError, w2).
Proof.
  intros Hlen Hold Hcur Hne. rewrite (doTheWork_run _ _ _ _ _ Hold Hcur).
  cbn [ip]. rewrite bool_decide_eq_false_2 by exact Hne.
  unfold bind, print. rewrite (sendmail_run _ _ _ _ Hlen), updateoldip_cases.
  rewrite messageBody_text.
  eexists. split; [| split; [| reflexivity]].
  - cbn. now rewrite <- !app_assoc.
  - reflexivity.
Qed.

(** C3 (as amended). With the old record loaded and the current one
    resolved, [doTheWork] compares the two [ip] fields as they are.
    Equal: it prints that nothing is to be done and does nothing else,
    so no file is opened for writing and the file system stays as it
    was.  Different: it reports the change and prints the
    notification, a text in which the address and the source of both
    records occur; then it stores the current record in the state
    file if that can be opened for writing, and otherwise ends with
    the error of the open, the state file left as it was. *)
Theorem change_detection (config : ConfigInfo) (w w1 : World) (oldip currip : record) :
  length (receiver config) = length (receiver_email config) ->
  fst (getoldip (save_ip_path config) w) = Ok oldip ->
  getipAndSource (try_count config) (ip_blacklist config) w = (Ok currip, w1) ->
  (ip currip = ip oldip ->
   fst (doTheWork config w) = Ok tt
   /\ since w1 (snd (doTheWork config w))
      = [EvPrint (OutText "Current IP = Old IP.  No need to send email.")]
   /\ fs (snd (doTheWork config w)) = fs w1)
  /\ (ip currip <> ip oldip ->
      exists a s text,
        currip = mkRecord (Some a) (Some s)
        /\ text = notification (machine config) oldip currip
        /\ (forall field,
              In field [Py.str (ip oldip); Py.str (server oldip); a; s] ->
              occurs field text)
        /\ (writable (save_ip_path config) = true ->
            fst (doTheWork config w) = Ok tt
            /\ since w1 (snd (doTheWork config w))
               = [EvPrint (OutText "Current IP differs from old IP.");
                  EvPrint (OutText text);
                  EvCreate (save_ip_path config);
                  EvWrite (save_ip_path config) (a +:+ "," +:+ s)]
            /\ fs (snd (doTheWork config w))
               = <[save_ip_path config := Regular (a +:+ "," +:+ s)]> (fs w1))
        /\ (writable (save_ip_path config) = false ->
            fst (doTheWork config w) = Raise OSError
            /\ since w1 (snd (doTheWork config w))
               = [EvPrint (OutText "Current IP differs from old IP.");
                  EvPrint (OutText text)]
            /\ fs (snd (doTheWork config w)) = fs w1)).
Proof.
  intros Hlen Hold Hcur.
  destruct (resolved_record (try_count config) (ip_blacklist config) w currip)
    as (a & s & -> & _); [now rewrite Hcur |].
  destruct (decide (Some a = ip oldip)) as [Heq | Hne].
  - rewrite (doTheWork_unchanged _ _ _ _ _ Hold Hcur Heq).
    split; [| intros Hne; contradiction].
    intros _. split; [reflexivity |]. split; [| reflexivity].
    apply since_app. reflexivity.
  - destruct (doTheWork_changed _ _ _ _ _ _ Hlen Hold Hcur Hne)
      as (w2 & Htr & Hfs & Hrun).
    split; [intros Heq; contradiction |].
    intros _. exists a, s, (notification (machine config) oldip (mkRecord (Some a) (Some s))).
    split; [reflexivity |]. split; [reflexivity |].
    split; [intros field Hin; now apply notification_fields |].
    rewrite Hrun. split; intros Hw; rewrite Hw; cbn [fst snd].
    + split; [reflexivity |]. split.
      * apply since_app. cbn [log set_fs trace]. rewrite Htr, <- !app_assoc. reflexivity.
      * cbn [log set_fs fs]. now rewrite Hfs.
    + split; [reflexivity |]. split; [now apply since_app | exact Hfs].
Qed.

Lemma dotted_quad_starts_with_digit c t :
  dotted_quad (String c t) = true -> isdigit c = true.
Proof.
  unfold dotted_quad. cbn [Py.split].
  destruct (Ascii.eqb c ".") eqn:Ec.
  - destruct (Py.split "." t) as [|b [|c0 [|d [|e l]]]]; try discriminate.
  - pose proof (split_not_nil "." t) as Hne.
    destruct (Py.split "." t) as [|f [|b [|c0 [|d [|e l]]]]]; try discriminate.
    intros Hq. apply andb_prop in Hq as [Hq _]. apply andb_prop in Hq as [Hq _].
    apply andb_prop in Hq as [Hq _]. apply octet_digits in Hq.
    unfold Py.all in Hq. cbn in Hq. now apply andb_prop in Hq as [Hq _].
Qed.

(** C10 (as amended). When no state file exists, [getoldip] returns
    the sentinel "File '<path>' not found".  A resolved address is the
    empty string or a dotted quad, so it differs from the sentinel,
    and a run that resolves an address takes the changed branch: the
    notification is printed, with the sentinel and None for the old
    record and the address and the server of the new one.  Then the
    state file is created with the new record if it can be opened for
    writing; if it cannot, the run ends with the error of the open and
    there is still no state file. *)
Theorem first_run_is_a_change (config : ConfigInfo) (w w1 : World) (currip : record) :
  length (receiver config) = length (receiver_email config) ->
  fs w !! save_ip_path config = None ->
  getipAndSource (try_count config) (ip_blacklist config) w = (Ok currip, w1) ->
  exists oldip a s text,
    getoldip (save_ip_path config) w = (Ok oldip, w)
    /\ oldip = mkRecord (Some ("File '" +:+ save_ip_path config +:+ "' not found")) None
    /\ currip = mkRecord (Some a) (Some s)
    /\ (a = EmptyString \/ dotted_quad a = true)
    /\ ip currip <> ip oldip
    /\ text = notification (machine config) oldip currip
    /\ (forall field,
          In field ["File '" +:+ save_ip_path config +:+ "' not found"; "None"; a; s] ->
          occurs field text)
    /\ In (EvPrint (OutText text)) (since w1 (snd (doTheWork config w)))
    /\ (writable (save_ip_path config) = true ->
        fst (doTheWork config w) = Ok tt
        /\ fs (snd (doTheWork config w)) !! save_ip_path config
           = Some (Regular (a +:+ "," +:+ s)))
    /\ (writable (save_ip_path config) = false ->
        fst (doTheWork config w) = Raise OSError
        /\ fs (snd (doTheWork config w)) !! save_ip_path config = None).
Proof.
  intros Hlen Habsent Hcur.
  pose proof (getoldip_absent (save_ip_path config) w Habsent) as Hold.
  destruct (resolved_record (try_count config) (ip_blacklist config) w currip)
    as (a & s & -> & Ha); [now rewrite Hcur |].
  eexists _, a, s, _. split; [exact Hold |]. split; [reflexivity |].
  split; [reflexivity |]. split; [exact Ha |].
  assert (Hne : ip (mkRecord (Some a) (Some s))
                <> ip (mkRecord (Some ("File '" +:+ save_ip_path config +:+ "' not found")) None)).
  { cbn [ip]. intros [= ->]. destruct Ha as [Ha | Ha]; [discriminate |].
    apply dotted_quad_starts_with_digit in Ha. discriminate. }
  split; [exact Hne |]. split; [reflexivity |].
  split; [intros field Hin; now apply notification_fields |].
  destruct (doTheWork_changed config w w1 _ a s Hlen
              ltac:(rewrite Hold; reflexivity) Hcur Hne) as (w2 & Htr & Hfs & Hrun).
  rewrite Hrun. split; [| split; intros Hw; rewrite Hw; cbn [fst snd]].
  - destruct (writable (save_ip_path config)); cbn [snd].
    + erewrite since_app by (cbn [log set_fs trace]; rewrite Htr, <- !app_assoc; reflexivity).
      right. left. reflexivity.
    + rewrite (since_app _ _ _ Htr). right. left. reflexivity.
  - split; [reflexivity |]. cbn [log set_fs fs]. apply lookup_insert_eq.
  - split; [reflexivity |]. rewrite Hfs.
    pose proof (getipAndSource_unwritable_path (try_count config) (ip_blacklist config) w
                  (save_ip_path config) Hw Habsent) as Hkeep.
    now rewrite Hcur in Hkeep.
Qed.

End ChangeFacts.

(** C3, at one input: the state file holds 1.2.3.4 and the servers
    report 5.6.7.8; the run succeeds, both addresses are in the
    notification it prints, and the state file then holds 5.6.7.8
    with the server that reported it. *)
Lemma change_detection_witness :
  fst (@doTheWork (Demo.reports "5.6.7.8") Demo.config Demo.known) = Ok tt
  /\ (exists text,
        In (EvPrint (OutText text))
           (since Demo.known (snd (@doTheWork (Demo.reports "5.6.7.8") Demo.config Demo.known)))
        /\ occurs "1.2.3.4" text /\ occurs "5.6.7.8" text)
  /\ fs (snd (@doTheWork (Demo.reports "5.6.7.8") Demo.config Demo.known)) !! "ip.txt"
     = Some (Regular "5.6.7.8,http://a.example").
Proof.
  assert (Hold : fst (@getoldip (Demo.reports "5.6.7.8")
                        (save_ip_path Demo.config) Demo.known)
                 = Ok (mkRecord (Some "1.2.3.4") (Some "http://a.example"))).
  { vm_compute. reflexivity. }
  assert (Hcur : @getipAndSource (Demo.reports "5.6.7.8")
                   (try_count Demo.config) (ip_blacklist Demo.config) Demo.known
                 = (Ok (mkRecord (Some "5.6.7.8") (Some "http://a.example")),
                    snd (@getipAndSource (Demo.reports "5.6.7.8") 3 [] Demo.known))).
  { vm_compute. reflexivity. }
  destruct (@change_detection (Demo.reports "5.6.7.8") Demo.config Demo.known
              _ _ _ eq_refl Hold Hcur)
    as (_ & Hchanged).
  destruct (Hchanged ltac:(discriminate))
    as (a & s & text & Hrec & _ & Hfields & Hwrite & _).
  injection Hrec as <- <-.
  destruct (Hwrite eq_refl) as (Hok & Htr & Hfs).
  split; [exact Hok |]. split.
  - exists text. split; [| split].
    + assert (Hin : In (EvPrint (OutText text))
                       (since (snd (@getipAndSource (Demo.reports "5.6.7.8") 3 []
                                      Demo.known))
                          (snd (@doTheWork (Demo.reports "5.6.7.8") Demo.config
                                  Demo.known)))).
      { rewrite Htr. right. now left. }
      revert Hin. generalize (EvPrint (OutText text)). intros e.
      vm_compute. tauto.
    + apply Hfields. now left.
    + apply Hfields. right. right. now left.
  - rewrite Hfs. apply lookup_insert_eq.
Defined.

(** C3 as first stated fails: the state file holds 1.2.3.4, the servers
    report 5.6.7.8, and no file can be opened for writing; the change
    is reported, the run ends with the error of the open, and the
    state file still holds 1.2.3.4. *)
Lemma change_is_not_persisted :
  fst (@getoldip (DemoConfig.read_only (Demo.answers "Your IP is 5.6.7.8"))
         "ip.txt" Demo.known)
  = Ok (mkRecord (Some "1.2.3.4") (Some "http://a.example"))
  /\ fst (@getipAndSource (DemoConfig.read_only (Demo.answers "Your IP is 5.6.7.8"))
            3 [] Demo.known)
     = Ok (mkRecord (Some "5.6.7.8") (Some "http://a.example"))
  /\ fst (@doTheWork (DemoConfig.read_only (Demo.answers "Your IP is 5.6.7.8"))
            Demo.config Demo.known)
     = Raise OSError
  /\ In (EvPrint (OutText "Current IP differs from old IP."))
        (trace (snd (@doTheWork (DemoConfig.read_only (Demo.answers "Your IP is 5.6.7.8"))
                       Demo.config Demo.known)))
  /\ fs (snd (@doTheWork (DemoConfig.read_only (Demo.answers "Your IP is 5.6.7.8"))
                Demo.config Demo.known)) !! "ip.txt"
     = Some (Regular "1.2.3.4,http://a.example").
Proof.
  repeat split; try (vm_compute; reflexivity).
  vm_compute. tauto.
Qed.

(** C10, at one input: no state file, and the servers report 1.2.3.4;
    the run succeeds and creates the state file. *)
Lemma first_run_is_a_change_witness :
  fst (@doTheWork (Demo.reports "1.2.3.4") Demo.config Demo.cached) = Ok tt
  /\ fs (snd (@doTheWork (Demo.reports "1.2.3.4") Demo.config Demo.cached)) !! "ip.txt"
     = Some (Regular "1.2.3.4,http://a.example").
Proof.
  assert (Habsent : fs Demo.cached !! save_ip_path Demo.config = None).
  { vm_compute. reflexivity. }
  assert (Hcur : @getipAndSource (Demo.reports "1.2.3.4")
                   (try_count Demo.config) (ip_blacklist Demo.config) Demo.cached
                 = (Ok (mkRecord (Some "1.2.3.4") (Some "http://a.example")),
                    snd (@getipAndSource (Demo.reports "1.2.3.4") 3 [] Demo.cached))).
  { vm_compute. reflexivity. }
  destruct (@first_run_is_a_change (Demo.reports "1.2.3.4") Demo.config Demo.cached
              _ _ eq_refl Habsent Hcur)
    as (oldip & a & s & text & _ & _ & Hrec & _ & _ & _ & _ & _ & Hwrite & _).
  injection Hrec as <- <-. exact (Hwrite eq_refl).
Defined.

(** C10 as first stated fails, in two ways.  No state file, the state
    is to be kept below a directory that does not exist, and the
    servers report 1.2.3.4: the change is reported, the run ends with
    the error of the open, and no state file is created.  No state
    file, no cache and no network: the run ends in the resolution,
    with nothing printed and no state file created. *)
Lemma first_run_creates_no_file :
  (fs Demo.cached !! "nodir/ip.txt" = None
   /\ fst (@getipAndSource (DemoConfig.no_subdir (Demo.answers "Your IP is 1.2.3.4"))
             3 [] Demo.cached)
      = Ok (mkRecord (Some "1.2.3.4") (Some "http://a.example"))
   /\ fst (@doTheWork (DemoConfig.no_subdir (Demo.answers "Your IP is 1.2.3.4"))
             DemoConfig.nodir_config Demo.cached)
      = Raise OSError
   /\ In (EvPrint (OutText "Current IP differs from old IP."))
         (trace (snd (@doTheWork (DemoConfig.no_subdir (Demo.answers "Your IP is 1.2.3.4"))
                        DemoConfig.nodir_config Demo.cached)))
   /\ fs (snd (@doTheWork (DemoConfig.no_subdir (Demo.answers "Your IP is 1.2.3.4"))
                 DemoConfig.nodir_config Demo.cached)) !! "nodir/ip.txt"
      = None)
  /\ (fs (Demo.world ∅) !! "ip.txt" = None
      /\ @doTheWork Demo.offline Demo.config (Demo.world ∅)
         = (Raise URLError,
            snd (@doTheWork Demo.offline Demo.config (Demo.world ∅)))
      /\ since (Demo.world ∅) (snd (@doTheWork Demo.offline Demo.config (Demo.world ∅)))
         = [EvUrlopen JSON_LIST_URL]
      /\ fs (snd (@doTheWork Demo.offline Demo.config (Demo.world ∅))) !! "ip.txt" = None).
Proof.
  repeat split; try (vm_compute; reflexivity).
  vm_compute. tauto.
Qed.

(* ===================================================================== *)
(** * What resolution leaves alone *)
(* ===================================================================== *)

Section FrameFacts.
Context `{Platform}.

Lemma doTheWork_failed config w oldip e w1 :
  fst (getoldip (save_ip_path config) w) = Ok oldip ->
  getipAndSource (try_count config) (ip_blacklist config) w = (Raise e, w1) ->
  doTheWork config w = (Raise e, w1).
Proof.
  intros Hold Hcur. unfold doTheWork. unfold bind at 1.
  pose proof (getoldip_reads_only (save_ip_path config) w) as Hw.
  destruct (getoldip (save_ip_path config) w) as [r0 w0].
  cbn [fst snd] in Hold, Hw. subst r0 w0.
  unfold bind. now rewrite Hcur.
Qed.

(** X1. A resolution that raises ends the run there: [doTheWork] raises
    the same exception, nothing is printed or written after it, and a
    state file that is not one of the two catalogue files is as it was
    before the run. *)
Theorem failed_resolution_keeps_state
    (config : ConfigInfo) (w w1 : World) (oldip : record) (e : exn) :
  fst (getoldip (save_ip_path config) w) = Ok oldip ->
  getipAndSource (try_count config) (ip_blacklist config) w = (Raise e, w1) ->
  save_ip_path config <> JSON_FILENAME ->
  save_ip_path config <> JSON_ERRFILE ->
  doTheWork config w = (Raise e, w1)
  /\ fs w1 !! save_ip_path config = fs w !! save_ip_path config.
Proof.
  intros Hold Hcur Hc He. split.
  - eapply doTheWork_failed; eassumption.
  - pose proof (getipAndSource_fs (try_count config) (ip_blacklist config) w
                  (save_ip_path config) Hc He) as Hfs.
    now rewrite Hcur in Hfs.
Qed.

(** X2. With a try count that is not positive the loop body never runs
    and [theIP] is unbound at the [return]: [UnboundLocalError], with no
    clock read, no request and no file touched. *)
Theorem nonpositive_try_count_is_unbound (N : Z) (bl : list string) (w : World) :
  (N <= 0)%Z ->
  getipAndSource N bl w = (Raise UnboundLocalError, w).
Proof.
  intros HN. unfold getipAndSource, bind.
  replace (Z.to_nat N) with 0 by lia. reflexivity.
Qed.

End FrameFacts.

(** X1, at one input: no cache and no network: the run ends with the
    [URLError] of the list request, and ip.txt still holds 1.2.3.4. *)
Lemma failed_resolution_keeps_state_witness :
  fst (@doTheWork Demo.offline Demo.config DemoConfig.uncached) = Raise URLError
  /\ fs (snd (@doTheWork Demo.offline Demo.config DemoConfig.uncached)) !! "ip.txt"
     = Some (Regular "1.2.3.4,http://a.example").
Proof.
  assert (Hold : fst (@getoldip Demo.offline (save_ip_path Demo.config) DemoConfig.uncached)
                 = Ok (mkRecord (Some "1.2.3.4") (Some "http://a.example"))).
  { vm_compute. reflexivity. }
  assert (Hcur : @getipAndSource Demo.offline (try_count Demo.config)
                   (ip_blacklist Demo.config) DemoConfig.uncached
                 = (Raise URLError,
                    snd (@getipAndSource Demo.offline 3 [] DemoConfig.uncached))).
  { vm_compute. reflexivity. }
  destruct (@failed_resolution_keeps_state Demo.offline Demo.config DemoConfig.uncached
              _ _ _ Hold Hcur ltac:(discriminate) ltac:(discriminate))
    as [Hrun Hfs].
  rewrite Hrun. cbn [fst snd]. split; [reflexivity |].
  transitivity (fs DemoConfig.uncached !! save_ip_path Demo.config);
    [exact Hfs | vm_compute; reflexivity].
Defined.

(** X2, at one input: a try count of 0. *)
Lemma nonpositive_try_count_is_unbound_witness :
  @getipAndSource Demo.offline 0 [] Demo.cached = (Raise UnboundLocalError, Demo.cached).
Proof.
  apply (@nonpositive_try_count_is_unbound Demo.offline 0 [] Demo.cached). lia.
Defined.

(* ===================================================================== *)
(** * More on the state store *)
(* ===================================================================== *)

Section StateStoreMore.
Context `{Platform}.

Lemma universal_newlines_app a b :
  Py.mem Py.CR a = false ->
  Py.universal_newlines (a +:+ b) = a +:+ Py.universal_newlines b.
Proof.
  induction a as [|c a IH]; intros Hm; [reflexivity |].
  simpl in Hm. apply orb_false_elim in Hm as [Hc Ha].
  rewrite !app_cons. cbn [Py.universal_newlines]. rewrite Hc, (IH Ha). reflexivity.
Qed.

Lemma rstrip_keeps_head c t :
  Py.isspace c = false -> Py.rstrip (String c t) = String c (Py.rstrip t).
Proof. intros Hc. simpl. rewrite Hc. destruct (Py.rstrip t); reflexivity. Qed.


Lemma quad_char_plain c :
  quad_char c = true ->
  Py.isspace c = false /\ Ascii.eqb c "," = false /\ Ascii.eqb c Py.CR = false.
Proof.
  destruct c as [[] [] [] [] [] [] [] []]; vm_compute; intros Hc;
    try discriminate Hc; repeat split.
Qed.

(** The text [updateoldip] stores for an address that [fetch] can
    return is read back with that address as its first field, whatever
    the server name. *)
Lemma stored_first_field a s :
  a = EmptyString \/ dotted_quad a = true ->
  exists rest,
    Py.split "," (Py.strip (Py.universal_newlines (a +:+ "," +:+ s))) = a :: rest.
Proof.
  intros Ha.
  assert (Hall : Py.all quad_char a = true).
  { destruct Ha as [-> | Ha]; [reflexivity | now apply dotted_quad_chars]. }
  assert (Hno : forall c, quad_char c = false -> Py.mem c a = false).
  { intros c Hc. eapply plain_no_char; eassumption. }
  rewrite universal_newlines_app by (apply Hno; reflexivity).
  change ("," +:+ s) with (String "," s).
  set (t := Py.universal_newlines (String "," s)).
  assert (Ht : exists t', t = String "," t').
  { subst t. cbn [Py.universal_newlines].
    change (Ascii.eqb "," Py.CR) with false. cbv iota. eauto. }
  destruct Ht as (t' & ->).
  unfold Py.strip.
  assert (Hl : Py.lstrip (a +:+ String "," t') = a +:+ String "," t').
  { destruct a as [|c a']; [reflexivity |].
    rewrite app_cons. cbn [Py.lstrip].
    assert (Hc : quad_char c = true).
    { unfold Py.all in Hall. cbn in Hall. now apply andb_prop in Hall as [Hc _]. }
    apply quad_char_plain in Hc as (-> & _). reflexivity. }
  rewrite Hl, rstrip_app.
  2:{ rewrite rstrip_keeps_head by reflexivity. discriminate. }
  rewrite rstrip_keeps_head by reflexivity.
  rewrite split_app_sep by (apply Hno; reflexivity).
  eauto.
Qed.

(** What [getoldip] makes of such a stored text. *)
Lemma getoldip_stored path a s w :
  a = EmptyString \/ dotted_quad a = true ->
  fs w !! path = Some (Regular (a +:+ "," +:+ s)) ->
  exists r valid,
    is_valid_ip a = Ok valid
    /\ getoldip path w = (Ok r, w)
    /\ ip r = Some (if valid then a else "malformed ('" +:+ a +:+ "')").
Proof.
  intros Ha Hf. rewrite (getoldip_regular _ _ _ Hf).
  destruct (stored_first_field a s Ha) as (rest & ->).
  destruct (is_valid_ip_plain a (resolved_plain a Ha)) as (valid & Hv).
  rewrite Hv. destruct valid; cbn [negb]; eexists _, _;
    (split; [reflexivity |]); split; reflexivity.
Qed.

(** X3. A load never hands out an address that was not checked.  When
    the state file is absent or can be read, [getoldip] leaves the
    world as it is.  If the first field of the file holds a NUL
    character, the check itself raises [ValueError] and so does
    [getoldip].  Otherwise [getoldip] returns, and the [ip] of its
    record is an address that [is_valid_ip] accepts, or the "not found"
    sentinel (exactly when the file is absent), or the "malformed"
    sentinel around a text that [is_valid_ip] rejects. *)
Theorem loaded_ip_is_checked (path : string) (w : World) :
  fs w !! path <> Some Unreadable ->
  (stored_nul w path = true -> getoldip path w = (Raise ValueError, w))
  /\ (stored_nul w path = false ->
      exists r a,
        getoldip path w = (Ok r, w)
        /\ ip r = Some a
        /\ (is_valid_ip a = Ok true
            \/ (fs w !! path = None /\ a = "File '" +:+ path +:+ "' not found")
            \/ (exists x, is_valid_ip x = Ok false
                          /\ a = "malformed ('" +:+ x +:+ "')"))).
Proof.
  intros Hread. unfold stored_nul, first_field.
  destruct (fs w !! path) as [[|text]|] eqn:Hf.
  - contradiction.
  - rewrite (getoldip_regular _ _ _ Hf).
    pose proof (split_not_nil "," (Py.strip (Py.universal_newlines text))) as Hne.
    destruct (Py.split "," (Py.strip (Py.universal_newlines text)))
      as [|first rest]; [contradiction |].
    cbn [hd]. rewrite is_valid_ip_unfold. split; intros Hn; rewrite Hn.
    + reflexivity.
    + pose proof (is_valid_ip_unfold first) as Hv. rewrite Hn in Hv.
      destruct (inet_pton AF_INET first || inet_pton AF_INET6 first); cbn [negb].
      * eexists _, first. split; [reflexivity |]. split; [reflexivity |]. now left.
      * eexists _, _. split; [reflexivity |]. split; [reflexivity |].
        right. right. exists first. split; [assumption | reflexivity].
  - rewrite (getoldip_absent _ _ Hf). split; [discriminate |]. intros _.
    eexists _, _. split; [reflexivity |]. split; [reflexivity |].
    right. left. split; reflexivity.
Qed.

(** X4. [updateoldip] opens the file before it joins the fields, so
    with a record without a server (as [getoldip] returns for a missing
    state file) an open that succeeds is followed by the [TypeError] of
    the join, which leaves the state file created and empty.  An open
    that fails raises before anything is touched. *)
Theorem save_without_server_truncates (path : string) (r : record) (w : World) :
  server r = None ->
  (writable path = true ->
   exists w',
     updateoldip path r w = (Raise TypeError, w')
     /\ fs w' !! path = Some (Regular EmptyString)
     /\ since w w' = [EvCreate path])
  /\ (writable path = false -> updateoldip path r w = (Raise OSError, w)).
Proof.
  intros Hs. unfold updateoldip, bind, open_w. cbn [Py.join_items].
  rewrite Hs. split; intros Hw; rewrite Hw; [| reflexivity].
  destruct (ip r); eexists; (split; [reflexivity |]); cbn;
    (split; [apply lookup_insert_eq | now apply since_app]).
Qed.

(** X5. Once a valid address is stored, a run that resolves the same
    address again finds nothing changed, whatever server reported it
    then or now: one line is printed and nothing is written. *)
Theorem same_address_is_unchanged
    (config : ConfigInfo) (w w1 : World) (a s : string) (currip : record) :
  fs w !! save_ip_path config = Some (Regular (a +:+ "," +:+ s)) ->
  dotted_quad a = true ->
  is_valid_ip a = Ok true ->
  getipAndSource (try_count config) (ip_blacklist config) w = (Ok currip, w1) ->
  ip currip = Some a ->
  doTheWork config w
  = (Ok tt, log (EvPrint (OutText "Current IP = Old IP.  No need to send email.")) w1).
Proof.
  intros Hf Ha Hv Hcur Hip.
  destruct (getoldip_stored _ a s w (or_intror Ha) Hf) as (r & valid & Hv' & Hold & Hr).
  rewrite Hv in Hv'. injection Hv' as <-.
  apply (doTheWork_unchanged config w w1 r currip);
    [now rewrite Hold | assumption | congruence].
Qed.

(** X6. Once an address is stored that [is_valid_ip] rejects (the empty
    string of a dead network, or a dotted quad the socket library does
    not take), the next run is a change whatever it resolves: the
    stored address loads as the "malformed" sentinel, which no resolved
    address equals, so the notification is printed on every such run.
    The state file is then rewritten if it can be opened for writing;
    if it cannot, the run ends with the error of the open and the file
    system is as resolution left it. *)
Theorem rejected_address_keeps_changing
    (config : ConfigInfo) (w w1 : World) (a s : string) (currip : record) :
  length (receiver config) = length (receiver_email config) ->
  fs w !! save_ip_path config = Some (Regular (a +:+ "," +:+ s)) ->
  a = EmptyString \/ dotted_quad a = true ->
  is_valid_ip a = Ok false ->
  getipAndSource (try_count config) (ip_blacklist config) w = (Ok currip, w1) ->
  exists oldip a' s',
    fst (getoldip (save_ip_path config) w) = Ok oldip
    /\ ip oldip = Some ("malformed ('" +:+ a +:+ "')")
    /\ currip = mkRecord (Some a') (Some s')
    /\ In (EvPrint (OutText (notification (machine config) oldip currip)))
          (since w1 (snd (doTheWork config w)))
    /\ (writable (save_ip_path config) = true ->
        fst (doTheWork config w) = Ok tt
        /\ fs (snd (doTheWork config w)) !! save_ip_path config
           = Some (Regular (a' +:+ "," +:+ s')))
    /\ (writable (save_ip_path config) = false ->
        fst (doTheWork config w) = Raise OSError
        /\ fs (snd (doTheWork config w)) = fs w1).
Proof.
  intros Hlen Hf Ha Hv Hcur.
  destruct (getoldip_stored _ a s w Ha Hf) as (r & valid & Hv' & Hold & Hr).
  rewrite Hv in Hv'. injection Hv' as <-.
  destruct (resolved_record (try_count config) (ip_blacklist config) w currip)
    as (a' & s' & -> & Ha'); [now rewrite Hcur |].
  assert (Hne : Some a' <> ip r).
  { rewrite Hr. intros [= ->]. destruct Ha' as [Ha' | Ha']; [discriminate |].
    apply dotted_quad_starts_with_digit in Ha'. discriminate. }
  destruct (doTheWork_changed config w w1 r a' s' Hlen
              ltac:(rewrite Hold; reflexivity) Hcur Hne) as (w2 & Htr & Hfs & Hrun).
  exists r, a', s'. split; [now rewrite Hold |]. split; [exact Hr |].
  split; [reflexivity |]. rewrite Hrun.
  split; [| split; intros Hw; rewrite Hw; cbn [fst snd]].
  - destruct (writable (save_ip_path config)); cbn [snd].
    + erewrite since_app by (cbn [log set_fs trace]; rewrite Htr, <- !app_assoc; reflexivity).
      right. left. reflexivity.
    + rewrite (since_app _ _ _ Htr). right. left. reflexivity.
  - split; [reflexivity |]. cbn [log set_fs fs]. apply lookup_insert_eq.
  - split; [reflexivity | exact Hfs].
Qed.

End StateStoreMore.

(** X3, at one input: the state file that holds 1.2.3.4. *)
Lemma loaded_ip_is_checked_witness :
  exists r a,
    @getoldip Demo.offline "ip.txt" Demo.known = (Ok r, Demo.known)
    /\ ip r = Some a
    /\ (@is_valid_ip Demo.offline a = Ok true
        \/ (fs Demo.known !! "ip.txt" = None /\ a = "File '" +:+ "ip.txt" +:+ "' not found")
        \/ (exists x, @is_valid_ip Demo.offline x = Ok false
                      /\ a = "malformed ('" +:+ x +:+ "')")).
Proof.
  apply (@loaded_ip_is_checked Demo.offline "ip.txt" Demo.known).
  - vm_compute. discriminate.
  - vm_compute. reflexivity.
Defined.

(** X3, at another input: a state file whose first field starts with
    a NUL character. *)
Lemma loaded_ip_with_nul :
  @getoldip Demo.offline "ip.txt" DemoConfig.nul_state
  = (Raise ValueError, DemoConfig.nul_state).
Proof. vm_compute. reflexivity. Qed.

(** X4, at one input: the record that [getoldip] returns for a
    missing ip.txt. *)
Lemma save_without_server_truncates_witness :
  exists w',
    @updateoldip Demo.offline "ip.txt"
      (mkRecord (Some "File 'ip.txt' not found") None) Demo.cached
    = (Raise TypeError, w')
    /\ fs w' !! "ip.txt" = Some (Regular EmptyString)
    /\ since Demo.cached w' = [EvCreate "ip.txt"].
Proof.
  apply (@save_without_server_truncates Demo.offline "ip.txt"
           (mkRecord (Some "File 'ip.txt' not found") None) Demo.cached);
    reflexivity.
Defined.

(** X5, at one input: ip.txt holds 1.2.3.4 and the servers report
    1.2.3.4; the run returns and ip.txt is as it was. *)
Lemma same_address_is_unchanged_witness :
  fst (@doTheWork (Demo.reports "1.2.3.4") Demo.config Demo.known) = Ok tt
  /\ fs (snd (@doTheWork (Demo.reports "1.2.3.4") Demo.config Demo.known)) !! "ip.txt"
     = Some (Regular "1.2.3.4,http://a.example").
Proof.
  assert (Hcur : @getipAndSource (Demo.reports "1.2.3.4")
                   (try_count Demo.config) (ip_blacklist Demo.config) Demo.known
                 = (Ok (mkRecord (Some "1.2.3.4") (Some "http://a.example")),
                    snd (@getipAndSource (Demo.reports "1.2.3.4") 3 [] Demo.known))).
  { vm_compute. reflexivity. }
  rewrite (@same_address_is_unchanged (Demo.reports "1.2.3.4") Demo.config Demo.known
             _ "1.2.3.4" "http://a.example" _
             ltac:(vm_compute; reflexivity) ltac:(vm_compute; reflexivity)
             ltac:(vm_compute; reflexivity) Hcur eq_refl).
  split; [reflexivity |]. vm_compute. reflexivity.
Defined.

(** X6, at one input: ip.txt holds an empty address and no server
    answers; the run returns and has written ip.txt again, with the
    empty address it resolved. *)
Lemma rejected_address_keeps_changing_witness :
  fst (@doTheWork Demo.offline Demo.config DemoConfig.blank) = Ok tt
  /\ fs (snd (@doTheWork Demo.offline Demo.config DemoConfig.blank)) !! "ip.txt"
     = Some (Regular ",http://a.example")
  /\ In (EvCreate "ip.txt")
        (since DemoConfig.blank (snd (@doTheWork Demo.offline Demo.config DemoConfig.blank))).
Proof.
  assert (Hcur : @getipAndSource Demo.offline
                   (try_count Demo.config) (ip_blacklist Demo.config) DemoConfig.blank
                 = (Ok (mkRecord (Some EmptyString) (Some "http://a.example")),
                    snd (@getipAndSource Demo.offline 3 [] DemoConfig.blank))).
  { vm_compute. reflexivity. }
  destruct (@rejected_address_keeps_changing Demo.offline Demo.config DemoConfig.blank
              _ EmptyString "http://a.example" _
              eq_refl ltac:(vm_compute; reflexivity) (or_introl eq_refl)
              ltac:(vm_compute; reflexivity) Hcur)
    as (oldip & a' & s' & _ & _ & Hrec & _ & Hwrite & _).
  injection Hrec as <- <-. destruct (Hwrite eq_refl) as (Hok & Hfs).
  split; [exact Hok |]. split; [exact Hfs |].
  vm_compute. auto 30.
Defined.

(* ===================================================================== *)
(** * More on sampling and on the catalogue *)
(* ===================================================================== *)

Section SamplingMore.
Context `{Platform}.

Lemma choice_list l w :
  l <> [] ->
  exists s,
    choice (JList l) w
    = (Ok s, mkWorld (fs w) (clock_reads w) (S (draws w)) (exchanges w)
                     (conns w) (trace w))
    /\ In s l.
Proof.
  intros Hl. destruct l as [|x l]; [contradiction |].
  eexists. split; [reflexivity |].
  apply nth_In. apply Nat.mod_upper_bound. discriminate.
Qed.

Lemma fetch_draws srv w : draws (snd (fetch srv w)) = draws w.
Proof.
  rewrite fetch_run. cbv zeta.
  destruct (http (exchanges w) srv) as [|code rd]; [reflexivity |].
  destruct (ok_status code); reflexivity.
Qed.

(** The loop over a pool that is a non-empty list. *)
Lemma sample_list l n : forall r0 w,
  l <> [] ->
  exists r tr,
    fst (sample n (JList l) r0 w) = Ok r
    /\ trace (snd (sample n (JList l) r0 w)) = trace w ++ tr
    /\ draws (snd (sample n (JList l) r0 w)) = draws w + fetches tr
    /\ fetches tr <= n
    /\ (n = 0 -> r = r0)
    /\ (0 < n ->
        exists a s,
          r = mkRecord (Some a) (Some s) /\ In s l
          /\ (a = EmptyString \/ dotted_quad a = true)
          /\ 1 <= fetches tr
          /\ (a = EmptyString -> fetches tr = n)).
Proof.
  induction n as [|n IH]; intros r0 w Hl.
  { exists r0, []. cbn. rewrite app_nil_r.
    repeat split; try reflexivity; try lia. }
  cbn [sample]. unfold bind.
  destruct (choice_list l w Hl) as (srv & -> & Hin).
  set (w1 := mkWorld (fs w) (clock_reads w) (S (draws w)) (exchanges w)
                     (conns w) (trace w)).
  destruct (fetch_facts srv w1) as (v & tr1 & Hv & Hshape & Htr1 & Hq).
  pose proof (fetch_draws srv w1) as Hd.
  destruct (fetch srv w1) as [rv w2]. cbn [fst snd] in Hv, Htr1, Hd. subst rv.
  change (trace w1) with (trace w) in Htr1. change (draws w1) with (S (draws w)) in Hd.
  assert (Hone : fetches (EvFetch srv :: tr1) = 1).
  { cbn [fetches]. now rewrite (quiet_fetches _ Hq). }
  destruct (Nat.ltb 0 (String.length v)) eqn:Hlen.
  - exists (mkRecord (Some v) (Some srv)), (EvFetch srv :: tr1). cbn [ret fst snd].
    rewrite Hone. split; [reflexivity |]. split; [assumption |].
    split; [lia |]. split; [lia |]. split; [discriminate |].
    intros _. exists v, srv. repeat split; auto.
    intros ->. discriminate.
  - assert (Hempty : v = EmptyString) by (destruct v; [reflexivity | discriminate]).
    subst v.
    destruct (IH (mkRecord (Some EmptyString) (Some srv)) w2 Hl)
      as (r & tr2 & Hr & Htr2 & Hd2 & Hf2 & Hz & Hpos).
    exists r, ((EvFetch srv :: tr1) ++ tr2).
    rewrite Htr2, Htr1, Hd2, Hd, fetches_app, Hone, <- app_assoc.
    split; [exact Hr |]. split; [reflexivity |]. split; [lia |]. split; [lia |].
    split; [discriminate |]. intros _.
    destruct n as [|n].
    + rewrite (Hz eq_refl). exists EmptyString, srv.
      split; [reflexivity |]. split; [exact Hin |]. split; [now left |].
      split; [lia |]. intros _. lia.
    + destruct (Hpos ltac:(lia)) as (a & s & -> & Hs & Ha & Hge & He).
      exists a, s.
      split; [reflexivity |]. split; [exact Hs |]. split; [exact Ha |].
      split; [lia |]. intros Hz'. specialize (He Hz'). lia.
Qed.

(** X7. Sampling a pool that is a non-empty list never raises.  It makes
    between one and seven fetches, one random draw for each (servers
    are drawn with replacement), the server of the record is a member
    of the pool, the address is a dotted quad or empty, and it is empty
    only after all seven fetches came back empty. *)
Theorem sampling_a_pool (l : list string) (w : World) :
  l <> [] ->
  exists a s,
    fst (get_externalip_and_source (JList l) w) = Ok (mkRecord (Some a) (Some s))
    /\ In s l
    /\ (a = EmptyString \/ dotted_quad a = true)
    /\ 1 <= fetches (since w (snd (get_externalip_and_source (JList l) w))) <= 7
    /\ (a = EmptyString ->
        fetches (since w (snd (get_externalip_and_source (JList l) w))) = 7)
    /\ draws (snd (get_externalip_and_source (JList l) w))
       = draws w + fetches (since w (snd (get_externalip_and_source (JList l) w))).
Proof.
  intros Hl. unfold get_externalip_and_source.
  destruct (sample_list l 7 (mkRecord None None) w Hl)
    as (r & tr & Hr & Htr & Hd & Hf & _ & Hpos).
  destruct (Hpos ltac:(lia)) as (a & s & -> & Hs & Ha & Hge & He).
  rewrite (since_app _ _ _ Htr). exists a, s.
  repeat split; auto.
Qed.

End SamplingMore.

Section CatalogueMore.
Context `{Platform}.
Hypothesis float_str_nonempty : forall f, float_str f <> EmptyString.

(** X8. A 2xx answer other than 200 to the request for the list is
    reported and leaves the pool empty; the cache file is not touched. *)
Theorem other_2xx_gives_empty_pool (w : World) (code : nat) (rd : read_outcome) :
  object_or_null (fs w !! JSON_FILENAME) ->
  cache_miss (fs w !! JSON_FILENAME) (timestamp (clock (clock_reads w))) = true ->
  http (exchanges w) JSON_LIST_URL = Response code rd ->
  ok_status code = true ->
  code <> 200 ->
  exists w',
    IPgetter w = (Ok (JList []), w')
    /\ last (since w w') = Some (EvPrint (OutRecvError code))
    /\ created (since w w') = []
    /\ fs w' !! JSON_FILENAME = fs w !! JSON_FILENAME.
Proof.
  intros Hobj Hmiss Hhttp Hok Hcode.
  destruct (IPgetter_run float_str_nonempty w Hobj) as (w1 & Hfs & Hex & Htr & Hrun).
  cbv zeta in Hrun. rewrite Hmiss in Hrun. rewrite Hrun. clear Hrun.
  rewrite <- Hex in Hhttp.
  unfold refresh, bind, urlopen. rewrite Hhttp.
  unfold ok_status in Hok. rewrite Hok.
  apply Nat.eqb_neq in Hcode. rewrite Hcode.
  eexists. split; [reflexivity |]. unfold since, print, log. cbn [fs trace].
  split; [| split].
  - destruct Htr as [-> | ->]; rewrite <- ?app_assoc, drop_app_length; reflexivity.
  - destruct Htr as [-> | ->]; rewrite <- ?app_assoc, drop_app_length; reflexivity.
  - rewrite Hfs. apply lookup_delete_ne, errfile_is_not_cache.
Qed.

(** X9. On a cache miss with the list out of reach (no connection, or
    a status outside 200..299), the constructor raises and the cache
    file is not touched. *)
Theorem unreachable_list_raises (w : World) :
  object_or_null (fs w !! JSON_FILENAME) ->
  cache_miss (fs w !! JSON_FILENAME) (timestamp (clock (clock_reads w))) = true ->
  (http (exchanges w) JSON_LIST_URL = ConnError
   \/ exists code rd,
        http (exchanges w) JSON_LIST_URL = Response code rd /\ ok_status code = false) ->
  exists w',
    IPgetter w = (Raise URLError, w')
    /\ created (since w w') = []
    /\ fs w' !! JSON_FILENAME = fs w !! JSON_FILENAME.
Proof.
  intros Hobj Hmiss Hhttp.
  destruct (IPgetter_run float_str_nonempty w Hobj) as (w1 & Hfs & Hex & Htr & Hrun).
  cbv zeta in Hrun. rewrite Hmiss in Hrun. rewrite Hrun. clear Hrun.
  rewrite <- Hex in Hhttp.
  assert (Hrefresh : refresh (clock (clock_reads w)) w1
                     = (Raise URLError,
                        log (EvUrlopen JSON_LIST_URL)
                          (mkWorld (fs w1) (clock_reads w1) (draws w1)
                                   (S (exchanges w1)) (conns w1) (trace w1)))).
  { unfold refresh, bind, urlopen.
    destruct Hhttp as [-> | (code & rd & -> & Hok)]; [reflexivity |].
    unfold ok_status in Hok. now rewrite Hok. }
  rewrite Hrefresh. eexists. split; [reflexivity |]. unfold since, log. cbn [fs trace].
  split.
  - destruct Htr as [-> | ->]; rewrite <- ?app_assoc, drop_app_length; reflexivity.
  - rewrite Hfs. apply lookup_delete_ne, errfile_is_not_cache.
Qed.

(** X10. A cache file as [refresh] writes it, holding a non-empty list of
    servers, is used as it is by every later construction that reads
    the clock before the expiry: the servers come back, no request is
    made and no file is written.  It takes a codec that reads back what
    it wrote. *)
Theorem refreshed_cache_is_a_hit
    (w : World) (d : datetime) (s : string) (l : list string) :
  json_loads (Py.universal_newlines (json_dumps (pool d (JList (s :: l)))))
  = Some (pool d (JList (s :: l))) ->
  fs w !! JSON_FILENAME = Some (Regular (json_dumps (pool d (JList (s :: l))))) ->
  PrimFloat.ltb (timestamp d) (timestamp (clock (clock_reads w))) = false ->
  exists w',
    IPgetter w = (Ok (JList (s :: l)), w')
    /\ exchanges w' = exchanges w
    /\ created (since w w') = []
    /\ fs w' !! JSON_FILENAME = fs w !! JSON_FILENAME.
Proof.
  intros Hcodec Hfile Hearly.
  assert (Hcached : cached_json (fs w !! JSON_FILENAME) = pool d (JList (s :: l))).
  { unfold cached_json. now rewrite Hfile, Hcodec. }
  assert (Hobj : object_or_null (fs w !! JSON_FILENAME)).
  { unfold object_or_null. rewrite Hcached. exact I. }
  assert (Hmiss : cache_miss (fs w !! JSON_FILENAME)
                    (timestamp (clock (clock_reads w))) = false).
  { unfold cache_miss. rewrite Hfile, Hcodec. unfold pool, unusable, null_or_missing.
    cbn. now rewrite Hearly. }
  destruct (IPgetter_run float_str_nonempty w Hobj) as (w1 & Hfs & Hex & Htr & Hrun).
  cbv zeta in Hrun. rewrite Hmiss, Hcached in Hrun. rewrite Hrun.
  exists w1. split; [reflexivity |]. split; [exact Hex |]. split.
  - unfold since. destruct Htr as [-> | ->];
      [now rewrite drop_all | now rewrite drop_app_length].
  - rewrite Hfs. apply lookup_delete_ne, errfile_is_not_cache.
Qed.

End CatalogueMore.

(** X7, at one input: a pool of one server that does not answer. *)
Lemma sampling_a_pool_witness :
  exists a s,
    fst (@get_externalip_and_source Demo.offline (JList [Demo.server_a]) Demo.cached)
    = Ok (mkRecord (Some a) (Some s))
    /\ In s [Demo.server_a]
    /\ (a = EmptyString \/ dotted_quad a = true)
    /\ 1 <= fetches (since Demo.cached
                       (snd (@get_externalip_and_source Demo.offline
                               (JList [Demo.server_a]) Demo.cached))) <= 7
    /\ (a = EmptyString ->
        fetches (since Demo.cached
                   (snd (@get_externalip_and_source Demo.offline
                           (JList [Demo.server_a]) Demo.cached))) = 7)
    /\ draws (snd (@get_externalip_and_source Demo.offline
                     (JList [Demo.server_a]) Demo.cached))
       = draws Demo.cached
         + fetches (since Demo.cached
                      (snd (@get_externalip_and_source Demo.offline
                              (JList [Demo.server_a]) Demo.cached))).
Proof.
  apply (@sampling_a_pool Demo.offline [Demo.server_a] Demo.cached). discriminate.
Defined.

(** X8, at one input: no cache, and the list URL answers 204. *)
Lemma other_2xx_gives_empty_pool_witness :
  exists w',
    @IPgetter (DemoConfig.host DemoConfig.no_content) (Demo.world ∅) = (Ok (JList []), w')
    /\ last (since (Demo.world ∅) w') = Some (EvPrint (OutRecvError 204))
    /\ created (since (Demo.world ∅) w') = []
    /\ fs w' !! JSON_FILENAME = fs (Demo.world ∅) !! JSON_FILENAME.
Proof.
  assert (Hf : forall f, Demo.float_text f <> EmptyString).
  { intros f. unfold Demo.float_text.
    repeat destruct (PrimFloat.eqb f _); discriminate. }
  apply (@other_2xx_gives_empty_pool (DemoConfig.host DemoConfig.no_content) Hf
           (Demo.world ∅) 204 (Body EmptyString)).
  - vm_compute. exact I.
  - vm_compute. reflexivity.
  - reflexivity.
  - reflexivity.
  - discriminate.
Defined.

(** X9, at one input: no cache and no network. *)
Lemma unreachable_list_raises_witness :
  exists w',
    @IPgetter Demo.offline (Demo.world ∅) = (Raise URLError, w')
    /\ created (since (Demo.world ∅) w') = []
    /\ fs w' !! JSON_FILENAME = fs (Demo.world ∅) !! JSON_FILENAME.
Proof.
  assert (Hf : forall f, Demo.float_text f <> EmptyString).
  { intros f. unfold Demo.float_text.
    repeat destruct (PrimFloat.eqb f _); discriminate. }
  apply (@unreachable_list_raises Demo.offline Hf (Demo.world ∅)).
  - vm_compute. exact I.
  - vm_compute. reflexivity.
  - left. reflexivity.
Defined.

(** X10, at one input: the cache that a refresh at 1700000000.0
    wrote, read at that time. *)
Lemma refreshed_cache_is_a_hit_witness :
  exists w',
    @IPgetter (DemoConfig.host Demo.down)
      (Demo.world (<[JSON_FILENAME := Regular DemoConfig.refreshed_text]> ∅))
    = (Ok (JList [Demo.server_a]), w')
    /\ exchanges w' = 0
    /\ created (since (Demo.world (<[JSON_FILENAME := Regular DemoConfig.refreshed_text]> ∅))
                  w') = [].
Proof.
  assert (Hf : forall f, Demo.float_text f <> EmptyString).
  { intros f. unfold Demo.float_text.
    repeat destruct (PrimFloat.eqb f _); discriminate. }
  destruct (@refreshed_cache_is_a_hit (DemoConfig.host Demo.down) Hf
              (Demo.world (<[JSON_FILENAME := Regular DemoConfig.refreshed_text]> ∅))
              1707776000%float Demo.server_a []
              ltac:(vm_compute; reflexivity) ltac:(vm_compute; reflexivity)
              ltac:(vm_compute; reflexivity))
    as (w' & Hrun & Hex & Hcr & _).
  exists w'. split; [exact Hrun |]. split; [exact Hex | exact Hcr].
Defined.

(* ===================================================================== *)
(** * Facts about the built-ins of the configuration code *)
(* ===================================================================== *)

Section PyTextFacts.

Lemma split_elems_no_sep sep s x :
  In x (Py.split sep s) -> Py.mem sep x = false.
Proof.
  revert x. induction s as [|c t IH]; intros x Hin.
  - destruct Hin as [<- | []]. reflexivity.
  - simpl in Hin. destruct (Ascii.eqb c sep) eqn:Hc.
    + destruct Hin as [<- | Hin]; [reflexivity | now apply IH].
    + pose proof (split_not_nil sep t) as Hne.
      destruct (Py.split sep t) as [|f fs]; [contradiction |].
      destruct Hin as [<- | Hin].
      * simpl. rewrite Hc. apply IH. now left.
      * apply IH. now right.
Qed.

Lemma rcut_spec sep s h v :
  PyText.rcut sep s = Some (h, v) ->
  s = h +:+ String sep v /\ Py.mem sep v = false.
Proof.
  revert h. induction s as [|c t IH]; intros h Hcut; [discriminate |].
  simpl in Hcut. destruct (PyText.rcut sep t) as [[h' v']|] eqn:Ht.
  - injection Hcut as <- <-. destruct (IH h' eq_refl) as [-> Hm].
    split; [now rewrite app_cons | exact Hm].
  - destruct (Ascii.eqb c sep) eqn:Hc; [| discriminate].
    injection Hcut as <- <-. apply Ascii.eqb_eq in Hc as ->.
    split; [now rewrite app_nil_l |].
    clear IH. induction t as [|d t IHt]; [reflexivity |].
    simpl in Ht. destruct (PyText.rcut sep t) as [[h' v']|]; [discriminate |].
    destruct (Ascii.eqb d sep) eqn:Hd; [discriminate |].
    simpl. rewrite Hd. now apply IHt.
Qed.

Lemma rcut_none sep s : PyText.rcut sep s = None -> Py.mem sep s = false.
Proof.
  induction s as [|d t IHt]; [reflexivity |]. intros Ht.
  simpl in Ht. destruct (PyText.rcut sep t) as [[h' v']|]; [discriminate |].
  destruct (Ascii.eqb d sep) eqn:Hd; [discriminate |].
  simpl. rewrite Hd. now apply IHt.
Qed.

(** What follows the last separator holds none. *)
Lemma rpartition_value sep s :
  Py.mem sep (snd (PyText.rpartition sep s)) = true ->
  False.
Proof.
  unfold PyText.rpartition.
  destruct (PyText.rcut sep s) as [[h v]|] eqn:Hcut; cbn [snd]; intros Hm.
  - apply rcut_spec in Hcut as [_ Hv]. congruence.
  - apply rcut_none in Hcut. congruence.
Qed.

Lemma isdigit_char_cases c :
  PyText.isdigit_char c = true ->
  PyText.int_space c = false /\ c <> "+"%char /\ c <> "-"%char /\ c <> "_"%char.
Proof.
  destruct c as [[] [] [] [] [] [] [] []]; intros Hd;
    try (vm_compute in Hd; discriminate);
    (split; [reflexivity |]); (split; [discriminate |]); split; discriminate.
Qed.

Lemma lstrip_int_id c t :
  PyText.int_space c = false -> PyText.lstrip_int (String c t) = String c t.
Proof. intros Hc. simpl. now rewrite Hc. Qed.

Lemma rstrip_int_id s :
  Py.all (fun c => negb (PyText.int_space c)) s = true -> PyText.rstrip_int s = s.
Proof.
  unfold Py.all. induction s as [|c t IH]; [reflexivity |]. simpl.
  intros Hall. apply andb_prop in Hall as [Hc Ht]. rewrite (IH Ht).
  apply negb_true_iff in Hc. rewrite Hc. now destruct t.
Qed.

(** A value that [digits] computes comes from decimal digits and
    underscores, and is not below what it started from. *)
Lemma digits_facts s : forall acc n prev v m,
  PyText.digits s acc n prev = Some (v, m) ->
  (0 <= acc)%Z ->
  (0 <= v)%Z
  /\ Py.all (fun c => PyText.is_decimal c || Ascii.eqb c "_") s = true.
Proof.
  unfold Py.all. induction s as [|c t IH]; intros acc n prev v m Hd Hacc.
  - simpl in Hd. destruct prev; [| discriminate]. injection Hd as <- <-. now split.
  - simpl in Hd. simpl. destruct (PyText.is_decimal c) eqn:Hc.
    + apply IH in Hd; [| lia]. destruct Hd as [Hv Hall]. now split.
    + destruct (Ascii.eqb c "_") eqn:Hu; [| discriminate].
      destruct prev; [| discriminate]. cbn in Hd.
      apply IH in Hd; [| lia]. destruct Hd as [Hv Hall]. now split.
Qed.

(** On decimal digits alone, [digits] computes the decimal value. *)
Lemma digits_decimal s : forall a n prev,
  Py.all PyText.is_decimal s = true ->
  s <> EmptyString \/ prev = true ->
  PyText.digits s (Z.of_nat a) n prev
  = Some (Z.of_nat (decimal s a), n + String.length s).
Proof.
  unfold Py.all. induction s as [|c t IH]; intros a n prev Hall Hne.
  - destruct Hne as [Hne | ->]; [contradiction |]. simpl. now rewrite Nat.add_0_r.
  - simpl in Hall. apply andb_prop in Hall as [Hc Ht]. simpl. rewrite Hc.
    replace (10 * Z.of_nat a + Z.of_nat (nat_of_ascii c - 48))%Z
      with (Z.of_nat (a + (a + (a + (a + (a + (a + (a + (a + (a + (a + 0)))))))))
                      + digit_value c)) by (unfold digit_value; lia).
    rewrite IH by (auto). f_equal. f_equal. lia.
Qed.

(** A string that passes [isdigit] and converts holds decimal digits
    only, and converts to their value. *)
Lemma int_of_isdigit max d p :
  PyText.isdigit d = true ->
  PyText.int max d = Some p ->
  Py.all PyText.is_decimal d = true /\ p = Z.of_nat (decimal d 0).
Proof.
  unfold PyText.isdigit. intros Hd Hint.
  apply andb_prop in Hd as [Hne Hall].
  destruct d as [|c t]; [discriminate |]. clear Hne.
  assert (Hns : Py.all (fun c => negb (PyText.int_space c)) (String c t) = true).
  { unfold Py.all in *. rewrite forallb_forall in *. intros x Hx.
    apply Hall in Hx. apply isdigit_char_cases in Hx as [-> _]. reflexivity. }
  assert (Hc : PyText.isdigit_char c = true).
  { unfold Py.all in Hall. simpl in Hall. now apply andb_prop in Hall as [? _]. }
  destruct (isdigit_char_cases c Hc) as (Hsp & Hplus & Hminus & _).
  unfold PyText.int in Hint.
  rewrite (lstrip_int_id _ _ Hsp), (rstrip_int_id _ Hns) in Hint.
  assert (Hbody : (let '(negative, body) :=
             match String c t with
             | String "+" r => (false, r)
             | String "-" r => (true, r)
             | _ => (false, String c t)
             end in
           match PyText.digits body 0 0 false with
           | Some (v, count) =>
               if Nat.ltb 640 count && Nat.ltb 0 max && Nat.ltb max count
               then None
               else Some (if negative then (- v)%Z else v)
           | None => None
           end)
          = match PyText.digits (String c t) 0 0 false with
            | Some (v, count) =>
                if Nat.ltb 640 count && Nat.ltb 0 max && Nat.ltb max count
                then None
                else Some v
            | None => None
            end).
  { destruct c as [[] [] [] [] [] [] [] []]; try reflexivity; congruence. }
  rewrite Hbody in Hint. clear Hbody.
  destruct (PyText.digits (String c t) 0 0 false) as [[v count]|] eqn:Hdig;
    [| discriminate].
  destruct (digits_facts _ _ _ _ _ _ Hdig ltac:(lia)) as [_ Hshape].
  assert (Hdec : Py.all PyText.is_decimal (String c t) = true).
  { unfold Py.all in *. rewrite forallb_forall in *. intros x Hx.
    specialize (Hall x Hx). specialize (Hshape x Hx).
    apply isdigit_char_cases in Hall as (_ & _ & _ & Hu).
    apply orb_prop in Hshape as [Hx' | Hx']; [exact Hx' |].
    apply Ascii.eqb_eq in Hx'. contradiction. }
  split; [exact Hdec |].
  change 0%Z with (Z.of_nat 0) in Hdig.
  rewrite (digits_decimal _ 0 0 false Hdec) in Hdig by (left; discriminate).
  injection Hdig as Hv Hn. subst v count.
  destruct (Nat.ltb 640 _ && Nat.ltb 0 max && Nat.ltb max _) in Hint;
    [discriminate | now injection Hint as <-].
Qed.

(** The lines that [write_attr] appends. *)
Lemma join_has_line sep l x :
  In x l -> exists a b, Py.join sep l = a +:+ x +:+ b.
Proof.
  induction l as [|y l IH]; intros Hin; [contradiction |].
  destruct Hin as [<- | Hin].
  - destruct l as [|z l].
    + exists EmptyString, EmptyString. simpl. now rewrite app_nil_l, app_empty_r.
    + exists EmptyString, (sep +:+ Py.join sep (z :: l)). now rewrite app_nil_l.
  - destruct (IH Hin) as (a & b & Hj). destruct l as [|z l]; [contradiction |].
    exists (y +:+ sep +:+ a), b.
    change (Py.join sep (y :: z :: l)) with (y +:+ sep +:+ Py.join sep (z :: l)).
    rewrite Hj. now rewrite !app_assoc_s.
Qed.

End PyTextFacts.

(* ===================================================================== *)
(** * Validation of the configuration *)
(* ===================================================================== *)

Section ValidateFacts.
Context `{Platform} `{Host}.

Lemma ensureNotNull_str (val text : string) :
  ensureNotNull val text = Done tt <-> val <> EmptyString.
Proof.
  unfold ensureNotNull, len_of, Sized_str. destruct val; simpl; split; congruence.
Qed.

Lemma ensureNotNull_list (val : list string) (text : string) :
  ensureNotNull val text = Done tt <-> val <> [].
Proof.
  unfold ensureNotNull, len_of, Sized_list. destruct val; simpl; split; congruence.
Qed.

Lemma and_then_done a b : and_then a b = Done tt <-> a = Done tt /\ b = Done tt.
Proof.
  destruct a as [[]|e]; simpl; split; try tauto; try (intros [? ?]; congruence).
  congruence.
Qed.

Lemma required_done self : required self = Done tt <-> complete self.
Proof.
  unfold required, complete. rewrite !and_then_done, !ensureNotNull_str, ensureNotNull_list.
  tauto.
Qed.

Lemma nvl_str_nonempty (val dflt : string) :
  dflt <> EmptyString -> nvl val dflt <> EmptyString.
Proof. unfold nvl, len_of, Sized_str. destruct val; simpl; congruence. Qed.

Lemma nvl_str_keeps (val dflt : string) :
  val <> EmptyString -> nvl val dflt = val.
Proof. unfold nvl, len_of, Sized_str. destruct val; simpl; congruence. Qed.

Lemma nvl_str_idem (val dflt : string) : nvl (nvl val dflt) dflt = nvl val dflt.
Proof.
  unfold nvl, len_of, Sized_str. destruct val; simpl; [| reflexivity].
  destruct dflt; reflexivity.
Qed.

Lemma nvl_list_nil (val : list string) : nvl val [] = val.
Proof. unfold nvl, len_of, Sized_list. now destruct val. Qed.

Lemma check_try_count_done s :
  check_try_count s = Done tt <->
  exists n, PyText.int int_max_str_digits s = Some n /\ (0 < n)%Z.
Proof.
  unfold check_try_count. destruct (PyText.int int_max_str_digits s) as [n|].
  - destruct (Z.leb_spec n 0); split.
    + discriminate.
    + intros (m & Hm & Hpos). injection Hm as ->. lia.
    + intros _. exists n. split; [reflexivity | lia].
    + reflexivity.
  - split; [discriminate | intros (n & Hn & _); discriminate].
Qed.

Lemma check_blacklist_done l :
  check_blacklist l = Done tt <-> Forall (fun a => is_valid_ip a = Ok true) l.
Proof.
  induction l as [|a l IH]; simpl.
  - split; [constructor | reflexivity].
  - destruct (is_valid_ip a) as [[]|e] eqn:Ha; simpl.
    + rewrite IH. split; [now constructor | now inversion 1].
    + split; [discriminate | inversion 1; congruence].
    + split; [discriminate | inversion 1; congruence].
Qed.

(** A call that returns: what was checked, and the object it leaves. *)
Lemma validateConfig_done self c :
  validateConfig self = (Done tt, c) <->
  required self = Done tt
  /\ exists port,
       smtp_port_of (Py.split ":" (Obj.smtp_addr self)) = Done port
       /\ check_try_count (Obj.try_count self) = Done tt
       /\ check_blacklist (Obj.ip_blacklist self) = Done tt
       /\ c = Obj.mk (nvl (Obj.sender self) (Obj.sender_email self))
                     (Obj.sender_email self) (Obj.sender_username self)
                     (Obj.sender_password self) (receivers_of self)
                     (Obj.receiver_email self)
                     (nvl (Obj.subject_line self) "My IP Has Changed!")
                     (nvl (Obj.machine self) gethostname)
                     (Obj.smtp_addr self)
                     (Some (nth 0 (Py.split ":" (Obj.smtp_addr self)) EmptyString))
                     (Some port) (Some (negb (port =? 25)%Z))
                     (Obj.save_ip_path self) (Obj.try_count self)
                     (Obj.ip_blacklist self).
Proof.
  unfold validateConfig, receivers_of.
  destruct self as [snd_ eml usr pwd rcv rcve sbj mch adr hst prt ssl pth cnt bl]; cbn.
  rewrite nvl_list_nil.
  destruct (required _) as [[]|e]; [| split; [discriminate | intros [? _]; discriminate]].
  destruct (Nat.eqb (length rcv) (length rcve)); cbn;
    (destruct (smtp_port_of _) as [port|e];
     [| split; [discriminate | intros (_ & p & ? & _); discriminate]]);
    cbn; (destruct (check_try_count _) as [[]|e];
          [| split; [discriminate | intros (_ & p & _ & ? & _); discriminate]]);
    (split;
     [ intros Hv; injection Hv as Hb <-; split; [reflexivity |];
       exists port; repeat split; assumption
     | intros (_ & p & Hp & _ & Hb & ->); injection Hp as <-; now rewrite Hb ]).
Qed.

End ValidateFacts.

Section ValidateProps.
Context `{Platform} `{Host}.

(** X11. What a call of [validateConfig] that returns guarantees: the
    seven required values are present; sender and subject line are
    not empty; there are as many receiver names as receiver addresses;
    [try_count] converts to a positive integer; every entry of the
    blacklist is an address that [is_valid_ip] accepts, without
    raising. *)
Theorem validation_guarantees (self c : Obj.ConfigInfo) :
  validateConfig self = (Done tt, c) ->
  complete c
  /\ Obj.sender c <> EmptyString
  /\ Obj.subject_line c <> EmptyString
  /\ length (Obj.receiver c) = length (Obj.receiver_email c)
  /\ (exists n, PyText.int int_max_str_digits (Obj.try_count c) = Some n /\ (0 < n)%Z)
  /\ Forall (fun a => is_valid_ip a = Ok true) (Obj.ip_blacklist c).
Proof.
  intros Hv. apply validateConfig_done in Hv as (Hreq & port & _ & Htry & Hbl & ->).
  apply required_done in Hreq. cbn.
  split; [exact Hreq |].
  destruct Hreq as (Heml & _).
  split; [now apply nvl_str_nonempty |].
  split; [apply nvl_str_nonempty; discriminate |].
  split.
  { unfold receivers_of.
    destruct (Nat.eqb _ _) eqn:Hlen; [now apply Nat.eqb_eq | reflexivity]. }
  split; [now apply check_try_count_done | now apply check_blacklist_done].
Qed.

(** X12. After a call of [validateConfig] that returns, host and port
    are the two sides of the one colon in [smtp_addr], the port being
    its decimal value, or the host is the whole of it and the port is
    25; SSL is switched on exactly for a port other than 25. *)
Theorem smtp_address_is_split (self c : Obj.ConfigInfo) :
  validateConfig self = (Done tt, c) ->
  exists host port,
    Obj.smtp_host c = Some host
    /\ Obj.smtp_port c = Some port
    /\ Obj.smtp_use_ssl c = Some (negb (port =? 25)%Z)
    /\ Py.mem ":" host = false
    /\ ((Obj.smtp_addr c = host /\ port = 25%Z)
        \/ exists d,
             Obj.smtp_addr c = host +:+ ":" +:+ d
             /\ d <> EmptyString
             /\ Py.all PyText.is_decimal d = true
             /\ port = Z.of_nat (decimal d 0)).
Proof.
  intros Hv. apply validateConfig_done in Hv as (_ & port & Hport & _ & _ & ->).
  cbn. pose proof (join_split ":" (Obj.smtp_addr self)) as Hjoin.
  pose proof (split_elems_no_sep ":" (Obj.smtp_addr self)) as Hsep.
  unfold smtp_port_of in Hport.
  destruct (Py.split ":" (Obj.smtp_addr self)) as [|host [|d [|x rest]]];
    cbn in Hport; try discriminate.
  - injection Hport as <-. exists host, 25%Z. cbn in Hjoin.
    repeat split; [apply Hsep; now left | left; now split].
  - destruct (PyText.isdigit d) eqn:Hd; [| discriminate].
    destruct (PyText.int int_max_str_digits d) as [p|] eqn:Hint; [| discriminate].
    injection Hport as <-.
    destruct (int_of_isdigit _ _ _ Hd Hint) as [Hdec ->].
    exists host, (Z.of_nat (decimal d 0)). cbn in Hjoin.
    repeat split; [apply Hsep; now left |]. right. exists d.
    repeat split; auto.
    intros ->. discriminate.
Qed.

(** X13. Validating an object that passed validation changes nothing
    and passes again. *)
Theorem validation_is_idempotent (self c : Obj.ConfigInfo) :
  validateConfig self = (Done tt, c) ->
  validateConfig c = (Done tt, c).
Proof.
  intros Hv. apply validateConfig_done in Hv as (Hreq & port & Hport & Htry & Hbl & ->).
  apply validateConfig_done. cbn.
  split.
  { apply required_done. apply required_done in Hreq. exact Hreq. }
  exists port. repeat split; try assumption.
  rewrite !nvl_str_idem.
  assert (Hrcv : forall a b c d e f g h i j k l m,
             receivers_of (Obj.mk a b c d (receivers_of self) (Obj.receiver_email self)
                                  e f g h i j k l m)
             = receivers_of self).
  { intros. unfold receivers_of. cbn.
    destruct (Nat.eqb (length (Obj.receiver self)) (length (Obj.receiver_email self)))
      eqn:Hlen; [now rewrite Hlen | now rewrite Nat.eqb_refl]. }
  now rewrite Hrcv.
Qed.

(** X14. A port that passes [isdigit] without being all decimal digits
    (the superscripts two, three and one do) gets past the check of
    the address and fails inside [int]: the call ends with that
    [ValueError], not with the [ReferenceError] for a bad address. *)
Theorem odd_digits_in_port_fail_in_int (self : Obj.ConfigInfo) (host d : string) :
  complete self ->
  Obj.smtp_addr self = host +:+ ":" +:+ d ->
  Py.mem ":" host = false ->
  PyText.isdigit d = true ->
  Py.all PyText.is_decimal d = false ->
  fst (validateConfig self) = Failed (IntValueError d).
Proof.
  intros Hreq Haddr Hhost Hd Hodd. apply required_done in Hreq.
  assert (Hnone : PyText.int int_max_str_digits d = None).
  { destruct (PyText.int int_max_str_digits d) as [p|] eqn:Hint; [| reflexivity].
    destruct (int_of_isdigit _ _ _ Hd Hint) as [Hdec _]. congruence. }
  assert (Hcolon : Py.mem ":" d = false).
  { destruct (Py.mem ":" d) eqn:Hm; [| reflexivity].
    unfold PyText.isdigit in Hd. apply andb_prop in Hd as [_ Hall].
    pose proof (all_mem _ _ _ Hall Hm) as Hc. vm_compute in Hc. discriminate. }
  unfold validateConfig. rewrite Hreq.
  destruct self as [snd_ eml usr pwd rcv rcve sbj mch adr hst prt ssl pth cnt bl].
  cbn in Haddr. subst adr. cbn.
  assert (Hsplit : Py.split ":" (host +:+ ":" +:+ d) = [host; d]).
  { change (":" +:+ d) with (String ":" d).
    rewrite (split_app_sep _ _ _ Hhost), (split_no_sep _ _ Hcolon). reflexivity. }
  destruct (Nat.eqb (length rcv) (length rcve)); cbn;
    rewrite Hsplit; unfold smtp_port_of; cbn; rewrite Hd, Hnone; reflexivity.
Qed.

End ValidateProps.

(** X11, at one input: the example object. *)
Lemma validation_guarantees_witness :
  complete DemoConfig.validated
  /\ Obj.sender DemoConfig.validated <> EmptyString
  /\ Obj.subject_line DemoConfig.validated <> EmptyString
  /\ length (Obj.receiver DemoConfig.validated)
     = length (Obj.receiver_email DemoConfig.validated)
  /\ (exists n, PyText.int 4300 (Obj.try_count DemoConfig.validated) = Some n /\ (0 < n)%Z)
  /\ Forall (fun a => @is_valid_ip Demo.offline a = Ok true)
            (Obj.ip_blacklist DemoConfig.validated).
Proof.
  apply (@validation_guarantees Demo.offline DemoConfig.box
           DemoConfig.filled DemoConfig.validated).
  vm_compute. reflexivity.
Defined.

(** X12, at one input: the address smtp.example.org:587. *)
Lemma smtp_address_is_split_witness :
  exists host port,
    Obj.smtp_host DemoConfig.validated = Some host
    /\ Obj.smtp_port DemoConfig.validated = Some port
    /\ Obj.smtp_use_ssl DemoConfig.validated = Some (negb (port =? 25)%Z)
    /\ Py.mem ":" host = false
    /\ ((Obj.smtp_addr DemoConfig.validated = host /\ port = 25%Z)
        \/ exists d,
             Obj.smtp_addr DemoConfig.validated = host +:+ ":" +:+ d
             /\ d <> EmptyString
             /\ Py.all PyText.is_decimal d = true
             /\ port = Z.of_nat (decimal d 0)).
Proof.
  apply (@smtp_address_is_split Demo.offline DemoConfig.box
           DemoConfig.filled DemoConfig.validated).
  vm_compute. reflexivity.
Defined.

(** X13, at one input: the example object, validated a second time. *)
Lemma validation_is_idempotent_witness :
  @validateConfig Demo.offline DemoConfig.box DemoConfig.validated
  = (Done tt, DemoConfig.validated).
Proof.
  apply (@validation_is_idempotent Demo.offline DemoConfig.box
           DemoConfig.filled DemoConfig.validated).
  vm_compute. reflexivity.
Defined.

(** X14, at one input: the port written as a superscript two. *)
Lemma odd_digits_in_port_fail_in_int_witness :
  fst (@validateConfig Demo.offline DemoConfig.box DemoConfig.odd_port)
  = Failed (IntValueError DemoConfig.superscript_two).
Proof.
  apply (@odd_digits_in_port_fail_in_int Demo.offline DemoConfig.box
           DemoConfig.odd_port "smtp.example.org" DemoConfig.superscript_two).
  - unfold complete. vm_compute. repeat split; discriminate.
  - reflexivity.
  - reflexivity.
  - vm_compute. reflexivity.
  - vm_compute. reflexivity.
Defined.

(* ===================================================================== *)
(** * Reading the configuration file *)
(* ===================================================================== *)

Section ReadconfigFacts.
Context `{Platform} `{Host}.

Lemma rcut_some sep s : Py.mem sep s = true -> exists h v, PyText.rcut sep s = Some (h, v).
Proof.
  intros Hm. destruct (PyText.rcut sep s) as [[h v]|] eqn:Hcut; [eauto |].
  apply rcut_none in Hcut. congruence.
Qed.

Lemma rcut_app sep a s h v :
  PyText.rcut sep s = Some (h, v) -> PyText.rcut sep (a +:+ s) = Some (a +:+ h, v).
Proof.
  intros Hcut. induction a as [|c a IH].
  - now rewrite !app_nil_l.
  - rewrite !app_cons. simpl. now rewrite IH.
Qed.

Lemma lower_keeps_equals s : Py.mem "=" (PyText.lower s) = Py.mem "=" s.
Proof.
  induction s as [|c t IH]; [reflexivity |]. simpl. rewrite IH. f_equal.
  destruct c as [[] [] [] [] [] [] [] []]; reflexivity.
Qed.

(** No attribute name holds an equals sign. *)
Lemma assign_none param value configObj :
  Py.mem "=" param = true -> assign param value configObj = None.
Proof.
  intros Hm. unfold assign.
  repeat match goal with
         | |- context [String.eqb param ?k] =>
             destruct (String.eqb_spec param k) as [-> |];
             [vm_compute in Hm; discriminate |]
         end.
  reflexivity.
Qed.

Lemma rstrip_keeps_equals v : exists v', Py.rstrip (String "=" v) = String "=" v'.
Proof.
  simpl. destruct (Py.rstrip v); [exists EmptyString | eexists]; reflexivity.
Qed.

Lemma strip_nonempty a v : Py.strip (a +:+ String "=" v) <> EmptyString.
Proof.
  unfold Py.strip. induction a as [|c a IH].
  - rewrite app_nil_l. simpl. destruct (Py.rstrip v); discriminate.
  - rewrite app_cons. simpl. destruct (Py.isspace c); [exact IH |].
    destruct (rstrip_keeps_equals v) as [v' Hv].
    rewrite <- app_cons, rstrip_app by (rewrite Hv; discriminate).
    rewrite app_cons. discriminate.
Qed.

(** A line leaves the files alone and prints at most its complaint. *)
Lemma parse_line_frame configObj w line :
  fs (snd (parse_line (configObj, w) line)) = fs w
  /\ (trace (snd (parse_line (configObj, w) line)) = trace w
      \/ (fst (parse_line (configObj, w) line) = configObj
          /\ trace (snd (parse_line (configObj, w) line))
             = trace w ++ [EvPrint (OutText
                 ("ERROR: unexpected line found in config file: " +:+ Py.rstrip line))])).
Proof.
  unfold parse_line.
  destruct (negb _ && negb _); [| now split; [| left]].
  destruct (assign _ _ _); [now split; [| left] |].
  split; [reflexivity |]. right. now split.
Qed.

Lemma parse_lines_frame lines : forall configObj w,
  fs (snd (fold_left parse_line lines (configObj, w))) = fs w
  /\ exists tr,
       trace (snd (fold_left parse_line lines (configObj, w))) = trace w ++ tr
       /\ Forall (fun e => exists s, e = EvPrint (OutText s)) tr.
Proof.
  induction lines as [|line lines IH]; intros configObj w.
  - split; [reflexivity |]. exists []. now rewrite app_nil_r.
  - cbn [fold_left].
    destruct (parse_line_frame configObj w line) as [Hfs Htr].
    destruct (parse_line (configObj, w) line) as [c1 w1]. cbn [fst snd] in *.
    destruct (IH c1 w1) as (Hfs' & tr & Htr' & Hall).
    split; [congruence |].
    destruct Htr as [Htr | [_ Htr]]; rewrite Htr in Htr'.
    + now exists tr.
    + eexists. rewrite <- app_assoc in Htr'. split; [exact Htr' |].
      constructor; [eauto | exact Hall].
Qed.

(** [readconfig] laid out: what each way through it leaves behind. *)
Lemma readconfig_run filepath configObj w :
  match fs w !! filepath with
  | None => readconfig filepath configObj w
            = (Failed (FileNotFoundError filepath), configObj, w)
  | Some Unreadable => readconfig filepath configObj w
                       = (Failed (Other PermissionError), configObj, w)
  | Some (Regular text) =>
      let st := fold_left parse_line
                  (PyText.readlines (Py.universal_newlines text)) (configObj, w) in
      readconfig filepath configObj w
      = match validateConfig (fst st) with
        | (Done _, c) => (Done tt, c, log (EvPrint (OutText (__str__ c))) (snd st))
        | (Failed e, c) => (Failed e, c, snd st)
        end
  end.
Proof.
  unfold readconfig, isfile, read_text.
  destruct (fs w !! filepath) as [[|text]|] eqn:Hf.
  - rewrite bool_decide_eq_true_2 by eauto. reflexivity.
  - rewrite bool_decide_eq_true_2 by eauto. cbv zeta.
    destruct (fold_left _ _ _) as [c1 w1]. cbn [fst snd].
    destruct (validateConfig c1) as [[[]|e] c]; reflexivity.
  - rewrite bool_decide_eq_false_2; [reflexivity |]. intros [x Hx]. discriminate.
Qed.

Lemma write_attr_keeps tag val output x :
  In x output -> In x (write_attr tag val output).
Proof.
  intros Hin. unfold write_attr.
  destruct val as [|z|b|s|l]; try exact Hin;
    match goal with
    | |- context [if ?b then _ else _] =>
        destruct b; [apply in_or_app; now left | exact Hin]
    end.
Qed.

Lemma write_attr_adds tag s output :
  s <> EmptyString ->
  In (PyText.ljust 16 tag +:+ " : " +:+ s) (write_attr tag (Obj.VStr s) output).
Proof.
  intros Hs. unfold write_attr.
  destruct s as [|c s]; [contradiction |]. cbn [String.length Nat.ltb Nat.leb].
  apply in_or_app. right. left. now rewrite app_assoc_s.
Qed.

End ReadconfigFacts.

Section ReadconfigProps.
Context `{Platform} `{Host}.

(** X15. A line with two equals signs or more is never an assignment.
    The name is cut off at the last one, so it holds an equals sign
    and is none of the twelve; the line is reported as unexpected and
    the object stays as it is.  No value with an equals sign in it can
    be configured. *)
Theorem second_equals_sign_spoils_the_line
    (configObj : Obj.ConfigInfo) (w : World) (line a b v : string) :
  line = a +:+ "=" +:+ b +:+ "=" +:+ v ->
  String.substring 0 1 line <> "#" ->
  parse_line (configObj, w) line
  = (configObj,
     log (EvPrint (OutText ("ERROR: unexpected line found in config file: "
                            +:+ Py.rstrip line))) w).
Proof.
  intros Hline Hhash. unfold parse_line.
  apply String.eqb_neq in Hhash. rewrite Hhash.
  assert (Hstrip : String.eqb (Py.strip line) EmptyString = false).
  { apply String.eqb_neq. subst line. apply strip_nonempty. }
  rewrite Hstrip. cbn [negb andb].
  destruct (rstrip_keeps_equals v) as [v' Hv].
  assert (Hr : Py.rstrip line = (a +:+ "=" +:+ b) +:+ String "=" v').
  { subst line.
    replace (a +:+ "=" +:+ b +:+ "=" +:+ v) with ((a +:+ "=" +:+ b) +:+ String "=" v)
      by (rewrite !app_assoc_s; reflexivity).
    rewrite rstrip_app by (rewrite Hv; discriminate). now rewrite Hv. }
  assert (Hparam : Py.mem "=" (PyText.lower (fst (fst (PyText.rpartition "=" (Py.rstrip line)))))
                   = true).
  { rewrite lower_keeps_equals, Hr. unfold PyText.rpartition.
    destruct (rcut_some "=" (String "=" v') ltac:(reflexivity)) as (h & x & Hcut).
    rewrite (rcut_app _ _ _ _ _ Hcut). cbn [fst].
    rewrite !mem_app. change (Py.mem "=" "=") with true.
    now rewrite orb_true_r. }
  now rewrite (assign_none _ _ _ Hparam).
Qed.

(** X16. [readconfig] writes no file; all it prints is its complaints
    about unexpected lines and, last and only when it returns, the
    object. *)
Theorem readconfig_only_prints
    (filepath : string) (configObj c : Obj.ConfigInfo) (w w' : World)
    (r : outcome unit) :
  readconfig filepath configObj w = (r, c, w') ->
  fs w' = fs w
  /\ Forall (fun e => exists s, e = EvPrint (OutText s)) (since w w')
  /\ (r = Done tt -> last (since w w') = Some (EvPrint (OutText (__str__ c)))).
Proof.
  intros Hrun. pose proof (readconfig_run filepath configObj w) as Hlay.
  destruct (fs w !! filepath) as [[|text]|].
  - rewrite Hlay in Hrun. injection Hrun as <- <- <-.
    unfold since. rewrite drop_all.
    split; [reflexivity |]. split; [constructor | discriminate].
  - cbv zeta in Hlay.
    destruct (parse_lines_frame (PyText.readlines (Py.universal_newlines text))
                configObj w) as (Hfs & tr & Htr & Hall).
    destruct (fold_left _ _ _) as [c1 w1]. cbn [fst snd] in *.
    rewrite Hlay in Hrun. clear Hlay.
    destruct (validateConfig c1) as [[[]|e] c2] eqn:Hv; injection Hrun as <- <- <-.
    + unfold since, log. cbn [fs trace]. rewrite Htr, <- app_assoc, drop_app_length.
      split; [exact Hfs |]. split.
      * apply Forall_app. split; [exact Hall | constructor; [eauto | constructor]].
      * intros _. apply last_snoc.
    + unfold since. rewrite Htr, drop_app_length.
      split; [exact Hfs |]. split; [exact Hall | discriminate].
  - rewrite Hlay in Hrun. injection Hrun as <- <- <-.
    unfold since. rewrite drop_all.
    split; [reflexivity |]. split; [constructor | discriminate].
Qed.

(** X17. A successful [readconfig] prints the password in clear: the
    text it prints last holds the line of [sender_password] with the
    value as configured. *)
Theorem readconfig_prints_the_password
    (filepath : string) (configObj c : Obj.ConfigInfo) (w w' : World) :
  readconfig filepath configObj w = (Done tt, c, w') ->
  Obj.sender_password c <> EmptyString
  /\ exists text before after,
       last (since w w') = Some (EvPrint (OutText text))
       /\ text = before +:+ "sender_password  : " +:+ Obj.sender_password c +:+ after.
Proof.
  intros Hrun. pose proof (readconfig_run filepath configObj w) as Hlay.
  destruct (fs w !! filepath) as [[|text]|];
    [rewrite Hlay in Hrun; discriminate | | rewrite Hlay in Hrun; discriminate].
  cbv zeta in Hlay.
  destruct (parse_lines_frame (PyText.readlines (Py.universal_newlines text))
              configObj w) as (_ & tr & Htr & _).
  destruct (fold_left _ _ _) as [c1 w1]. cbn [fst snd] in *.
  rewrite Hlay in Hrun. clear Hlay.
  destruct (validateConfig c1) as [[[]|e] c2] eqn:Hv; [| discriminate].
  injection Hrun as <- <-.
  assert (Hpw : Obj.sender_password c2 <> EmptyString).
  { apply validateConfig_done in Hv as (Hreq & port & _ & _ & _ & ->).
    apply required_done in Hreq. cbn. apply Hreq. }
  split; [exact Hpw |].
  assert (Hin : exists a b,
             __str__ c2 = a +:+ (PyText.ljust 16 "sender_password" +:+ " : "
                                 +:+ Obj.sender_password c2) +:+ b).
  { unfold __str__. 
    set (output := fold_left _ _ _).
    assert (Hline : In (PyText.ljust 16 "sender_password" +:+ " : "
                        +:+ Obj.sender_password c2) output).
    { unfold output, Obj.items. cbn [fold_left].
      do 11 apply write_attr_keeps. now apply write_attr_adds. }
    apply join_has_line.
    destruct (Nat.eqb (length output) 0); [apply in_or_app; now left | exact Hline]. }
  destruct Hin as (a & b & Hstr).
  exists (__str__ c2), a, b. split.
  - unfold since, log. cbn [trace]. rewrite Htr, <- app_assoc, drop_app_length.
    apply last_snoc.
  - rewrite Hstr.
    change (PyText.ljust 16 "sender_password" +:+ " : ") with "sender_password  : ".
    now rewrite !app_assoc_s.
Qed.

End ReadconfigProps.

(** X15, at one input: the line subject_line=a=b. *)
Lemma second_equals_sign_spoils_the_line_witness :
  parse_line (Obj.init, DemoConfig.configured) ("subject_line=a=b" +:+ DemoConfig.nl)
  = (Obj.init,
     log (EvPrint (OutText ("ERROR: unexpected line found in config file: "
                            +:+ "subject_line=a=b"))) DemoConfig.configured).
Proof.
  apply (second_equals_sign_spoils_the_line Obj.init DemoConfig.configured
           ("subject_line=a=b" +:+ DemoConfig.nl) "subject_line" "a" ("b" +:+ DemoConfig.nl)).
  - reflexivity.
  - discriminate.
Defined.

(** X16, at one input: the example file, read into a fresh object. *)
Lemma readconfig_only_prints_witness :
  fs (snd (@readconfig Demo.offline DemoConfig.box "ipwatch.conf" Obj.init
             DemoConfig.configured))
  = fs DemoConfig.configured
  /\ Forall (fun e => exists s, e = EvPrint (OutText s))
       (since DemoConfig.configured
          (snd (@readconfig Demo.offline DemoConfig.box "ipwatch.conf" Obj.init
                  DemoConfig.configured)))
  /\ last (since DemoConfig.configured
             (snd (@readconfig Demo.offline DemoConfig.box "ipwatch.conf" Obj.init
                     DemoConfig.configured)))
     = Some (EvPrint (OutText (__str__ DemoConfig.validated))).
Proof.
  assert (Hrun : @readconfig Demo.offline DemoConfig.box "ipwatch.conf" Obj.init
                   DemoConfig.configured
                 = (Done tt, DemoConfig.validated,
                    snd (@readconfig Demo.offline DemoConfig.box "ipwatch.conf" Obj.init
                           DemoConfig.configured))).
  { vm_compute. reflexivity. }
  destruct (@readconfig_only_prints Demo.offline DemoConfig.box _ _ _ _ _ _ Hrun)
    as (Hfs & Hall & Hlast).
  split; [exact Hfs |]. split; [exact Hall | exact (Hlast eq_refl)].
Defined.

(** X17, at one input: the example file, whose password is secret. *)
Lemma readconfig_prints_the_password_witness :
  exists text before after,
    last (since DemoConfig.configured
            (snd (@readconfig Demo.offline DemoConfig.box "ipwatch.conf" Obj.init
                    DemoConfig.configured)))
    = Some (EvPrint (OutText text))
    /\ text = before +:+ "sender_password  : " +:+ "secret" +:+ after.
Proof.
  assert (Hrun : @readconfig Demo.offline DemoConfig.box "ipwatch.conf" Obj.init
                   DemoConfig.configured
                 = (Done tt, DemoConfig.validated,
                    snd (@readconfig Demo.offline DemoConfig.box "ipwatch.conf" Obj.init
                           DemoConfig.configured))).
  { vm_compute. reflexivity. }
  destruct (@readconfig_prints_the_password Demo.offline DemoConfig.box _ _ _ _ _ Hrun)
    as (_ & text & before & after & Hlast & Htext).
  exists text, before, after. split; [exact Hlast | exact Htext].
Defined.

(* ===================================================================== *)
(** * From the configuration to the run *)
(* ===================================================================== *)

Section RaisedFacts.
Context `{Platform}.

Lemma por_raise a b e : a ||| b = Raise e -> a = Raise e \/ b = Raise e.
Proof. destruct a as [[|]|e']; simpl; auto; discriminate. Qed.

Ltac raised H v :=
  unfold not_in, getitem, rbind, len, lt_float in H;
  destruct v; cbn in H;
  repeat match type of H with
         | context [match dict_get ?d ?k with _ => _ end] =>
             destruct (dict_get d k) as [[]|]; cbn in H
         end;
  first [discriminate H | injection H as <-; discriminate].

Lemma stale_raises theList ts e :
  stale theList ts = Raise e -> e <> UnboundLocalError.
Proof.
  intros Hs. unfold stale in Hs.
  repeat (apply por_raise in Hs as [Hs | Hs]); raised Hs theList.
Qed.

Lemma refresh_raises now_ w e :
  fst (refresh now_ w) = Raise e -> e <> UnboundLocalError.
Proof.
  unfold refresh, bind, urlopen.
  destruct (http (exchanges w) JSON_LIST_URL) as [|code rd];
    [cbn; intros [= <-]; discriminate |].
  destruct (Nat.leb 200 code && Nat.ltb code 300);
    [| cbn; intros [= <-]; discriminate].
  destruct (Nat.eqb code 200); [| discriminate].
  destruct rd as [|data]; [cbn; intros [= <-]; discriminate |].
  unfold read, ret, try_except, bind, writeJSONCache, bind, open_w, write, raise.
  destruct (json_loads data); cbn;
    destruct (writable JSON_FILENAME); destruct (writable JSON_ERRFILE); cbn;
    try discriminate; intros [= <-]; discriminate.
Qed.

Lemma IPgetter_raises w e :
  fst (IPgetter w) = Raise e -> e <> UnboundLocalError.
Proof.
  unfold IPgetter, bind, now. rewrite load_cache_run.
  cbn [fs clock_reads draws exchanges conns trace].
  destruct (remove_errfile_run
              (mkWorld (fs w) (S (clock_reads w)) (draws w) (exchanges w)
                       (conns w) (trace w)))
    as (w1 & Hrm & _).
  rewrite Hrm.
  destruct (stale _ _) as [[|]|e'] eqn:Hs.
  - apply refresh_raises.
  - destruct (getitem _ _) as [v|e'] eqn:Hg; [discriminate |].
    cbn. intros [= <-].
    match type of Hg with getitem ?v _ = _ => raised Hg v end.
  - cbn. intros [= <-]. eapply stale_raises; eassumption.
Qed.

Lemma choice_raises sl w e :
  fst (choice sl w) = Raise e -> e <> UnboundLocalError.
Proof.
  unfold choice. destruct sl as [| | | | [|] | [|] | [|]]; cbn;
    try discriminate; intros [= <-]; discriminate.
Qed.

Lemma sample_raises n : forall sl r0 w e,
  fst (sample n sl r0 w) = Raise e -> e <> UnboundLocalError.
Proof.
  induction n as [|n IH]; intros sl r0 w e; [discriminate |].
  cbn [sample]. unfold bind.
  pose proof (choice_raises sl w) as Hc.
  destruct (choice sl w) as [[srv | e'] w1]; cbn [fst] in *; [| intros [= <-]; auto].
  destruct (fetch_facts srv w1) as (v & tr & Hv & _).
  destruct (fetch srv w1) as [rv w2]. cbn [fst] in Hv. subst rv.
  destruct (Nat.ltb 0 (String.length v)); [discriminate | apply IH].
Qed.

Lemma myipAndSource_raises w e :
  fst (myipAndSource w) = Raise e -> e <> UnboundLocalError.
Proof.
  unfold myipAndSource, bind.
  pose proof (IPgetter_raises w) as Hi.
  destruct (IPgetter w) as [[sl | e'] w1]; cbn [fst] in *; [| intros [= <-]; auto].
  apply sample_raises.
Qed.

(** The loop raises what an iteration raises, and once it has run an
    iteration it returns with [theIP] bound. *)
Lemma rounds_bound bl n : forall counter theIP w,
  (forall e, fst (rounds n counter bl theIP w) = Raise e -> e <> UnboundLocalError)
  /\ (fst (rounds n counter bl theIP w) = Ok None -> n = 0 /\ theIP = None).
Proof.
  induction n as [|n IH]; intros counter theIP w.
  - split; [discriminate |]. cbn. intros [= ->]. now split.
  - rewrite rounds_step.
    pose proof (myipAndSource_raises w) as Hm.
    destruct (myipAndSource w) as [[r | e'] w1]; cbn [fst] in Hm.
    2:{ split; [cbn; intros e [= <-]; auto | discriminate]. }
    destruct (ip r) as [a|]; [| split; [cbn; intros e [= <-] |]; discriminate].
    destruct (classify bl a) as [v | e'] eqn:Hc.
    2:{ apply classify_raises in Hc as ->.
        split; [cbn; intros e [= <-] |]; discriminate. }
    cbv zeta. destruct (is_good v); [split; discriminate |].
    destruct (IH (S counter) (Some r)
                (log (EvPrint (OutTry (counter + 1) v (Some a))) w1))
      as [Hraise Hnone].
    split; [exact Hraise |]. intros Hn. apply Hnone in Hn as [_ Hn]. discriminate.
Qed.

(** With a positive try count, [theIP] is bound at the [return]. *)
Lemma getipAndSource_bound (N : Z) bl w :
  (0 < N)%Z -> fst (getipAndSource N bl w) <> Raise UnboundLocalError.
Proof.
  intros HN. unfold getipAndSource, bind.
  destruct (rounds_bound bl (Z.to_nat N) 0 None w) as [Hraise Hnone].
  destruct (rounds (Z.to_nat N) 0 bl None w) as [[[r|]|e] w1]; cbn [fst] in *.
  - discriminate.
  - destruct (Hnone eq_refl) as [Hz _]. lia.
  - intros [= ->]. now apply (Hraise UnboundLocalError).
Qed.

(** The two outcomes of a load from a state file that is absent or
    can be read. *)
Lemma getoldip_outcome path w :
  fs w !! path <> Some Unreadable ->
  if stored_nul w path then getoldip path w = (Raise ValueError, w)
  else exists r, getoldip path w = (Ok r, w).
Proof.
  intros Hf. unfold stored_nul, first_field.
  destruct (fs w !! path) as [[|text]|] eqn:Hp.
  - contradiction.
  - rewrite (getoldip_regular _ _ _ Hp).
    destruct (Py.split "," (Py.strip (Py.universal_newlines text))) as [|first rest];
      [cbn; eauto |].
    cbn [hd]. rewrite is_valid_ip_unfold.
    destruct (Py.mem NUL first); [reflexivity |].
    destruct (negb _); eauto.
  - rewrite (getoldip_absent _ _ Hp). eauto.
Qed.

(** A load that raises ends the run there. *)
Lemma doTheWork_unloaded config w e :
  getoldip (save_ip_path config) w = (Raise e, w) ->
  doTheWork config w = (Raise e, w).
Proof. intros Hold. unfold doTheWork, bind. now rewrite Hold. Qed.

End RaisedFacts.

Section RunProps.
Context `{Platform} `{Host}.

(** X18. A configuration that passed [validateConfig] carries a run
    as far as the state file lets it.  [doTheWork] reads a positive try
    count from it.  With a state file that is absent or can be read:
    if its first field holds a NUL character the run ends at the load,
    with the [ValueError] of the check; otherwise the load returns, and
    either the resolution raises and the run ends with its exception,
    which is never the [UnboundLocalError] of an empty loop, or the
    resolution returns and the run returns as well, unless a change
    was found and the state file cannot be opened for writing: then
    the run ends with the error of the open, after the notification.
    [sendmail] does not raise. *)
Theorem validated_config_runs (self c : Obj.ConfigInfo) :
  validateConfig self = (Done tt, c) ->
  exists config,
    config_of c = Some config
    /\ (0 < try_count config)%Z
    /\ forall w,
         fs w !! save_ip_path config <> Some Unreadable ->
         (stored_nul w (save_ip_path config) = true ->
          doTheWork config w = (Raise ValueError, w))
         /\ (stored_nul w (save_ip_path config) = false ->
             exists oldip,
               getoldip (save_ip_path config) w = (Ok oldip, w)
               /\ ((exists e w',
                      e <> UnboundLocalError
                      /\ getipAndSource (try_count config) (ip_blacklist config) w
                         = (Raise e, w')
                      /\ doTheWork config w = (Raise e, w'))
                   \/ (exists currip w1,
                         getipAndSource (try_count config) (ip_blacklist config) w
                         = (Ok currip, w1)
                         /\ (ip currip = ip oldip \/ writable (save_ip_path config) = true ->
                             fst (doTheWork config w) = Ok tt)
                         /\ (ip currip <> ip oldip ->
                             writable (save_ip_path config) = false ->
                             fst (doTheWork config w) = Raise OSError
                             /\ In (EvPrint (OutText (notification (machine config)
                                                        oldip currip)))
                                   (since w1 (snd (doTheWork config w)))
                             /\ fs (snd (doTheWork config w)) = fs w1)))).
Proof.
  intros Hv. apply validateConfig_done in Hv as (_ & port & _ & Htry & _ & ->).
  apply check_try_count_done in Htry as (n & Hn & Hpos).
  unfold config_of. cbn. rewrite Hn. eexists. split; [reflexivity |]. cbn.
  split; [exact Hpos |]. intros w Hf.
  set (config := mkConfig _ _ _ _ _ _).
  pose proof (getoldip_outcome _ _ Hf) as Hload.
  change (Obj.save_ip_path self) with (save_ip_path config) in Hload |- *.
  split; intros Hnul; rewrite Hnul in Hload.
  { now apply doTheWork_unloaded. }
  destruct Hload as (oldip & Hold). exists oldip. split; [exact Hold |].
  assert (Hold' : fst (getoldip (save_ip_path config) w) = Ok oldip) by now rewrite Hold.
  pose proof (getipAndSource_bound n (Obj.ip_blacklist self) w Hpos) as Hb.
  pose proof (resolved_record n (Obj.ip_blacklist self) w) as Hrec.
  change n with (try_count config) in Hb, Hrec |- *.
  change (Obj.ip_blacklist self) with (ip_blacklist config) in Hb, Hrec |- *.
  destruct (getipAndSource (try_count config) (ip_blacklist config) w)
    as [[currip | e] w1] eqn:Hcur; cbn [fst] in *.
  - right. exists currip, w1. split; [reflexivity |].
    destruct (Hrec currip eq_refl) as (a & s & -> & _).
    assert (Hlen : length (receiver config) = length (receiver_email config)).
    { unfold config, receivers_of. cbn.
      destruct (Nat.eqb _ _) eqn:Hl; [now apply Nat.eqb_eq | reflexivity]. }
    destruct (decide (Some a = ip oldip)) as [Heq | Hne].
    + split; [| intros Hne; contradiction]. intros _.
      now rewrite (doTheWork_unchanged _ _ _ _ _ Hold' Hcur Heq).
    + destruct (doTheWork_changed config w w1 oldip a s Hlen Hold' Hcur Hne)
        as (w2 & Htr & Hfs & Hrun).
      rewrite Hrun. split.
      * intros [Heq | Hw]; [contradiction | now rewrite Hw].
      * intros _ Hw. rewrite Hw. cbn [fst snd].
        split; [reflexivity |]. split; [| exact Hfs].
        rewrite (since_app _ _ _ Htr). right. left. reflexivity.
  - left. exists e, w1. split; [congruence |]. split; [reflexivity |].
    eapply doTheWork_failed; [exact Hold' | exact Hcur].
Qed.

End RunProps.

(** X18, at one input: the example object, with ip.txt holding
    1.2.3.4 and the servers reporting 5.6.7.8; the run returns. *)
Lemma validated_config_runs_witness :
  exists config,
    @config_of DemoConfig.box DemoConfig.validated = Some config
    /\ (0 < try_count config)%Z
    /\ fst (@doTheWork (Demo.reports "5.6.7.8") config Demo.known) = Ok tt.
Proof.
  destruct (@validated_config_runs (Demo.reports "5.6.7.8") DemoConfig.box
              DemoConfig.filled DemoConfig.validated ltac:(vm_compute; reflexivity))
    as (config & Hc & Hpos & Hrun).
  exists config. split; [exact Hc |]. split; [exact Hpos |].
  injection Hc as <-.
  destruct (Hrun Demo.known ltac:(vm_compute; discriminate)) as (_ & Hplain).
  destruct (Hplain ltac:(vm_compute; reflexivity)) as (oldip & _ & [Hfail | Hdone]).
  - destruct Hfail as (e & w' & _ & Hres & _). vm_compute in Hres. discriminate Hres.
  - destruct Hdone as (currip & w1 & _ & Hok & _). apply Hok. right. reflexivity.
Defined.

(** X18, at two more inputs.  The state file starts with a NUL
    character: the run ends at the load.  The state is kept below a
    directory that does not exist: the run ends at the save. *)
Lemma validated_config_stops :
  fst (@doTheWork (Demo.reports "5.6.7.8") Demo.config DemoConfig.nul_state)
  = Raise ValueError
  /\ fst (@doTheWork (DemoConfig.no_subdir (Demo.answers "Your IP is 1.2.3.4"))
            DemoConfig.nodir_config Demo.cached)
     = Raise OSError.
Proof. split; vm_compute; reflexivity. Qed.
